(** * Market-data provider and rule-based signal synthesis

    A shallow embedding of [data_provider.py] (class [DataProvider]) and
    [advanced_analysis.py] (class [AdvancedAnalysis]), with the properties
    of the cache, the synthetic fallback, the indicators and the signal
    voting proved over it.

    Numbers.  Python and numpy compute with binary64 floats.  The embedding
    keeps the special values that decide control flow (NaN, the two
    infinities, division by zero as numpy scalars perform it) and replaces
    the finite floats by exact rationals: rounding and signed zeros are not
    modelled. *)

From Stdlib Require Import ZArith QArith Qabs Qround Qminmax Lqa Lia List Bool.
From Stdlib Require Import Sorting.Sorted.
From stdpp Require Import base option list strings gmap.

Local Open Scope Z_scope.

(* ===================================================================== *)
(** * Part I: the model                                                    *)
(* ===================================================================== *)

(** ** Float: numpy float64 values, exact on the finite part *)

Module Float.

Inductive fnum : Type :=
| Fin (q : Q)
| PInf
| NInf
| NaN.

Definition Qltb (a b : Q) : bool := negb (Qle_bool b a).

Definition of_Z (z : Z) : fnum := Fin (inject_Z z).

(** [x < y]; every comparison with NaN is false. *)
Definition flt (x y : fnum) : bool :=
  match x, y with
  | NaN, _ | _, NaN => false
  | Fin a, Fin b => Qltb a b
  | NInf, NInf => false
  | NInf, _ => true
  | _, NInf => false
  | PInf, _ => false
  | Fin _, PInf => true
  end.

Definition fgt (x y : fnum) : bool := flt y x.

Definition fneg (x : fnum) : fnum :=
  match x with
  | Fin a => Fin (- a)
  | PInf => NInf
  | NInf => PInf
  | NaN => NaN
  end.

Definition fabs (x : fnum) : fnum :=
  match x with
  | Fin a => Fin (Qabs a)
  | PInf | NInf => PInf
  | NaN => NaN
  end.

Definition fadd (x y : fnum) : fnum :=
  match x, y with
  | NaN, _ | _, NaN => NaN
  | Fin a, Fin b => Fin (a + b)
  | PInf, NInf | NInf, PInf => NaN
  | PInf, _ | _, PInf => PInf
  | NInf, _ | _, NInf => NInf
  end.

Definition fsub (x y : fnum) : fnum := fadd x (fneg y).

(** Division of numpy scalars: a zero divisor gives an infinity (or NaN
    for 0/0) and a warning, never an exception. *)
Definition fdiv (x y : fnum) : fnum :=
  match x, y with
  | NaN, _ | _, NaN => NaN
  | Fin a, Fin b =>
      if Qeq_bool b 0 then
        if Qeq_bool a 0 then NaN
        else if Qltb 0 a then PInf else NInf
      else Fin (a / b)
  | Fin _, (PInf | NInf) => Fin 0
  | (PInf | NInf), (PInf | NInf) => NaN
  | PInf, Fin b => if Qltb b 0 then NInf else PInf
  | NInf, Fin b => if Qltb b 0 then PInf else NInf
  end.

(** Two values that denote the same number (or are both NaN): equality
    up to the representation of the rational. *)
Definition fsame (x y : fnum) : Prop :=
  match x, y with
  | Fin a, Fin b => (a == b)%Q
  | PInf, PInf | NInf, NInf | NaN, NaN => True
  | _, _ => False
  end.

End Float.

Export Float.

(** ** Signal voting: [AdvancedAnalysis._generate_signal] *)

Module Signal.

(** The four labels the function writes: buy, sell, the neutral vote of a
    voter, and the final "wait" of a tie. *)
Inductive label : Type := Buy | Sell | Neutral | Wait.

Definition label_eqb (a b : label) : bool :=
  match a, b with
  | Buy, Buy | Sell, Sell | Neutral, Neutral | Wait, Wait => true
  | _, _ => false
  end.

(** A vote: one entry of [signals] zipped with its entry of [confidences]. *)
Definition vote : Type := (label * Q)%type.

(** Moving-average voter (always votes). *)
Definition ma_vote (price ma20 ma50 : fnum) : vote :=
  if fgt price ma20 && fgt ma20 ma50 then (Buy, 70%Q)
  else if flt price ma20 && flt ma20 ma50 then (Sell, 70%Q)
  else (Neutral, 40%Q).

(** RSI voter (always votes). *)
Definition rsi_vote (rsi : fnum) : vote :=
  if flt rsi (of_Z 30) then (Buy, 75%Q)
  else if fgt rsi (of_Z 70) then (Sell, 75%Q)
  else (Neutral, 50%Q).

(** [abs(price - level) / price] *)
Definition distance_to (price level : fnum) : fnum :=
  fdiv (fabs (fsub price level)) price.

Definition near (price level : fnum) : bool :=
  flt (distance_to price level) (Fin (1 # 100)).

(** Support/resistance voter: votes or casts nothing. *)
Definition sr_vote (price support resistance : fnum) : list vote :=
  if near price support then [(Buy, 80%Q)]
  else if near price resistance then [(Sell, 80%Q)]
  else [].

(** The votes in the order the function appends them. *)
Definition cast_votes (price ma20 ma50 rsi support resistance : fnum)
  : list vote :=
  ma_vote price ma20 ma50 :: rsi_vote rsi :: sr_vote price support resistance.

(** [signals.count(l)] *)
Definition count_label (l : label) (vs : list vote) : nat :=
  List.length (List.filter (fun v => label_eqb (fst v) l) vs).

(** [[c for s, c in zip(signals, confidences) if s == l]] *)
Definition confidences_of (l : label) (vs : list vote) : list Q :=
  List.map snd (List.filter (fun v => label_eqb (fst v) l) vs).

Definition Qsum (qs : list Q) : Q := List.fold_right Qplus 0%Q qs.

(** [np.mean] of a list of numbers; the mean of the empty list is NaN. *)
Definition np_mean (qs : list Q) : fnum :=
  match qs with
  | [] => NaN
  | _ => Fin (Qsum qs / inject_Z (Z.of_nat (List.length qs)))
  end.

(** Python's [min(a, b)]: [b] when [b < a], otherwise [a]. *)
Definition py_min (a b : fnum) : fnum := if flt b a then b else a.

(** The source's first argument, [data], is not used by the function and
    is left out.  A chained comparison [a > b > c] is [a > b and b > c]. *)
Definition _generate_signal
    (price ma20 ma50 rsi support resistance : fnum) : label * fnum :=
  let votes := cast_votes price ma20 ma50 rsi support resistance in
  let buy_signals := count_label Buy votes in
  let sell_signals := count_label Sell votes in
  let '(final_signal, confidence) :=
    if (sell_signals <? buy_signals)%nat then
      (Buy, np_mean (confidences_of Buy votes))
    else if (buy_signals <? sell_signals)%nat then
      (Sell, np_mean (confidences_of Sell votes))
    else
      (Wait, np_mean (List.map snd votes)) in
  (final_signal, py_min (of_Z 95) confidence).

End Signal.

(** ** Frames: the pandas DataFrames the provider passes around *)

Module Frame.

(** A row of a frame before cleaning; [None] is NaN (a missing cell).
    Times are microseconds since the epoch. *)
Record raw_row : Type := {
  r_time : Z;
  r_open : option Q;
  r_high : option Q;
  r_low : option Q;
  r_close : option Q;
  r_volume : option Q
}.

Record raw_frame : Type := {
  raw_columns : list string;
  raw_rows : list raw_row
}.

(** A row with the four required cells present: what [dropna] keeps. *)
Record candle : Type := {
  time : Z;
  Open : Q;
  High : Q;
  Low : Q;
  Close : Q;
  Volume : option Q
}.

(** A cleaned frame: its rows, the labels of its columns, and the
    indicator columns attached to it, newest binding first. *)
Record frame : Type := {
  columns : list string;
  rows : list candle;
  derived : list (string * list fnum)
}.

Inductive field : Type := FOpen | FHigh | FLow | FClose.

Definition field_name (c : field) : string :=
  match c with
  | FOpen => "Open" | FHigh => "High" | FLow => "Low" | FClose => "Close"
  end.

Definition get (c : field) (r : candle) : Q :=
  match c with
  | FOpen => Open r | FHigh => High r | FLow => Low r | FClose => Close r
  end.

(** [required_columns = ['Open', 'High', 'Low', 'Close']] *)
Definition required_columns : list field := [FOpen; FHigh; FLow; FClose].

Definition has_label (name : string) (labels : list string) : bool :=
  existsb (String.eqb name) labels.

(** [data[name]] for an indicator column, [None] when [name not in data]
    (the upstream frames carry price and volume columns only). *)
Fixpoint assoc (name : string) (cols : list (string * list fnum))
  : option (list fnum) :=
  match cols with
  | [] => None
  | (k, v) :: rest => if String.eqb name k then Some v else assoc name rest
  end.

(** [data.empty]: no rows or no columns. *)
Definition raw_empty (f : raw_frame) : bool :=
  match raw_rows f, raw_columns f with
  | [], _ | _, [] => true
  | _, _ => false
  end.

Definition empty (f : frame) : bool :=
  match rows f, columns f with
  | [], _ | _, [] => true
  | _, _ => false
  end.

(** [pd.DataFrame()] *)
Definition empty_frame : frame :=
  {| columns := []; rows := []; derived := [] |}.

(** The OHLC ordering of one candle. *)
Definition ohlc_ordered (r : candle) : Prop :=
  (Low r <= Qmin (Open r) (Close r) /\ Qmax (Open r) (Close r) <= High r)%Q.

End Frame.

Export Frame.

(** ** Cleaning: [DataProvider._clean_data] *)

Module Clean.

(** Insertion sort, ascending. *)
Fixpoint insert_sorted (x : Q) (l : list Q) : list Q :=
  match l with
  | [] => [x]
  | y :: l' => if Qle_bool x y then x :: l else y :: insert_sorted x l'
  end.

Definition sort (l : list Q) : list Q := List.fold_right insert_sorted [] l.

(** [Series.quantile(q)] with pandas' default linear interpolation: the
    value at position [(n - 1) * q] of the sorted values. *)
Definition quantile (q : Q) (xs : list Q) : Q :=
  let s := sort xs in
  let n := Z.of_nat (List.length xs) in
  let pos := (inject_Z (n - 1) * q)%Q in
  let lo := Qfloor pos in
  let hi := Z.min (lo + 1) (n - 1) in
  let frac := (pos - inject_Z lo)%Q in
  let a := List.nth (Z.to_nat lo) s 0%Q in
  let b := List.nth (Z.to_nat hi) s 0%Q in
  (a + (b - a) * frac)%Q.

(** [data.dropna(subset=required_columns)] *)
Definition complete (r : raw_row) : option candle :=
  match r_open r, r_high r, r_low r, r_close r with
  | Some o, Some h, Some l, Some c =>
      Some {| time := r_time r; Open := o; High := h; Low := l;
              Close := c; Volume := r_volume r |}
  | _, _, _, _ => None
  end.

(** A raw row that [dropna] keeps, as an ordered candle. *)
Definition well_formed_row (r : raw_row) : Prop :=
  exists c, complete r = Some c /\ ohlc_ordered c.

Definition dropna (rs : list raw_row) : list candle :=
  List.flat_map (fun r => match complete r with
                          | Some c => [c]
                          | None => []
                          end) rs.

(** One round of the outlier loop, for column [col]. *)
Definition clip_outliers (data : list candle) (col : field) : list candle :=
  if (10 <? List.length data)%nat then
    let Q1 := quantile (5 # 100) (List.map (get col) data) in
    let Q3 := quantile (95 # 100) (List.map (get col) data) in
    let IQR := (Q3 - Q1)%Q in
    let lower_bound := (Q1 - 3 * IQR)%Q in
    let upper_bound := (Q3 + 3 * IQR)%Q in
    List.filter (fun r => Qle_bool lower_bound (get col r)
                          && Qle_bool (get col r) upper_bound) data
  else data.

Definition _clean_data (data : raw_frame) : frame :=
  if raw_empty data then
    {| columns := raw_columns data; rows := []; derived := [] |}
  else if negb (forallb (fun col => has_label (field_name col)
                                              (raw_columns data))
                        required_columns) then
    empty_frame
  else
    {| columns := raw_columns data;
       rows := List.fold_left clip_outliers required_columns
                              (dropna (raw_rows data));
       derived := [] |}.

End Clean.

Export Clean.

(** ** The surroundings of the process

    What the two classes call but do not compute: the interpreter's string
    hash (salted once per process), numpy's global random generator and
    [np.sin], the two upstream services, the pandas_ta indicator library and
    the standard deviation behind the volatility figure.  Each upstream
    answer is the already normalised frame ([None] for every failure the
    adapter catches) together with the next state of the service. *)

Class Ambient : Type := {
  world : Type;
  rng_state : Type;
  py_hash : string -> Z;
  np_seed : Z -> rng_state;
  np_normal : Q -> Q -> rng_state -> Q * rng_state;
  np_random : rng_state -> Q * rng_state;
  np_sin : Q -> Q;
  mt5_copy_rates :
    string -> string -> string -> world -> option raw_frame * world;
  twelvedata_time_series :
    string -> string -> string -> string -> world -> option raw_frame * world;
  ta_indicators : frame -> list (string * list fnum);
  annualised_std : list Q -> fnum
}.

(** ** The data provider: [DataProvider] *)

Module Provider.
Section WithAmbient.

Context `{A : Ambient}.

(** Calls observed from outside, newest last. *)
Inductive event : Type :=
| AdapterCall (source : string)
| GeneratorCall (symbol : string).

(** The fields of the instance the modelled methods read or write, then
    the process-wide state: the upstream services, numpy's generator and
    the calls made so far.  Cache entries are [(fetched_at, frame)];
    times are microseconds since the epoch.  The price entries that
    [get_fast_market_summary] keeps in the same dictionary under
    [f"{symbol}_current"] are outside the model. *)
Record state : Type := {
  data_sources : list string;
  cache_timeout : Z;
  _cache : gmap string (Z * frame);
  twelvedata_api_key : string;
  ta_available : bool;
  mt5_available : bool;
  source_status : gmap string bool;
  upstream : world;
  np_random_state : rng_state;
  trace : list event
}.

Definition with_cache (st : state) (c : gmap string (Z * frame)) : state :=
  {| data_sources := data_sources st; cache_timeout := cache_timeout st;
     _cache := c; twelvedata_api_key := twelvedata_api_key st;
     ta_available := ta_available st; mt5_available := mt5_available st;
     source_status := source_status st; upstream := upstream st;
     np_random_state := np_random_state st; trace := trace st |}.

Definition with_upstream (st : state) (w : world) : state :=
  {| data_sources := data_sources st; cache_timeout := cache_timeout st;
     _cache := _cache st; twelvedata_api_key := twelvedata_api_key st;
     ta_available := ta_available st; mt5_available := mt5_available st;
     source_status := source_status st; upstream := w;
     np_random_state := np_random_state st; trace := trace st |}.

Definition with_rng (st : state) (s : rng_state) : state :=
  {| data_sources := data_sources st; cache_timeout := cache_timeout st;
     _cache := _cache st; twelvedata_api_key := twelvedata_api_key st;
     ta_available := ta_available st; mt5_available := mt5_available st;
     source_status := source_status st; upstream := upstream st;
     np_random_state := s; trace := trace st |}.

Definition record_call (st : state) (e : event) : state :=
  {| data_sources := data_sources st; cache_timeout := cache_timeout st;
     _cache := _cache st; twelvedata_api_key := twelvedata_api_key st;
     ta_available := ta_available st; mt5_available := mt5_available st;
     source_status := source_status st; upstream := upstream st;
     np_random_state := np_random_state st; trace := trace st ++ [e] |}.

(** *** Adapters

    Each adapter returns [None] for every failure it catches, and the
    cleaned frame otherwise.  The conversation with the service (the
    time-frame and bar-count tables of the terminal, the HTTP request and
    the renaming of the columns) is the oracle's. *)

Definition _get_mt5_data (symbol period interval : string) (st : state)
  : state * option frame :=
  if negb (mt5_available st) then (st, None)
  else
    let '(rates, w) := mt5_copy_rates symbol period interval (upstream st) in
    (with_upstream st w,
     match rates with
     | Some df => match raw_rows df with
                  | [] => None
                  | _ => Some (_clean_data df)
                  end
     | None => None
     end).

Fixpoint dict_get {V : Type} (key : string) (d : list (string * V))
  : option V :=
  match d with
  | [] => None
  | (k, v) :: rest => if String.eqb key k then Some v else dict_get key rest
  end.

Definition td_symbol_map : list (string * string) :=
  [("EURUSD", "EUR/USD"); ("GBPUSD", "GBP/USD"); ("USDJPY", "USD/JPY");
   ("USDCHF", "USD/CHF"); ("USDCAD", "USD/CAD"); ("AUDUSD", "AUD/USD");
   ("NZDUSD", "NZD/USD"); ("XAUUSD", "XAU/USD")]%string.

Definition td_interval_map : list (string * string) :=
  [("1m", "1min"); ("5m", "5min"); ("15m", "15min");
   ("1h", "1h"); ("4h", "4h"); ("1d", "1day")]%string.

Definition _get_twelvedata_data (symbol period interval : string)
    (st : state) : state * option frame :=
  if String.eqb (twelvedata_api_key st) "demo" then (st, None)
  else
    match dict_get symbol td_symbol_map with
    | None => (st, None)
    | Some td_symbol =>
        let td_interval :=
          default "1h"%string (dict_get interval td_interval_map) in
        let outputsize :=
          if String.eqb period "1mo" || String.eqb period "3mo"
          then "500"%string else "100"%string in
        let '(values, w) :=
          twelvedata_time_series td_symbol td_interval
            (twelvedata_api_key st) outputsize (upstream st) in
        (with_upstream st w, option_map _clean_data values)
    end.

(** *** Indicators: [_add_technical_indicators] *)

Definition _add_technical_indicators (st : state) (data : frame) : frame :=
  if Frame.empty data || negb (ta_available st) then data
  else {| columns := columns data; rows := rows data;
          derived := ta_indicators data ++ derived data |}.

(** *** The synthetic series: [_get_dynamic_default_data] *)

Definition base_prices : list (string * Q) :=
  [("EURUSD", 10850 # 10000); ("GBPUSD", 12650 # 10000);
   ("USDJPY", 14950 # 100); ("USDCHF", 8850 # 10000);
   ("USDCAD", 13600 # 10000); ("AUDUSD", 6550 # 10000);
   ("NZDUSD", 6100 # 10000); ("XAUUSD", 198550 # 100);
   ("XAGUSD", 2325 # 100); ("USOIL", 7580 # 100);
   ("NAS100", 16050 # 1); ("SPX500", 4550 # 1); ("DJI", 35000 # 1)]%string.

(** [np.random.normal(mu, sigma, n)]: [n] successive draws. *)
Fixpoint normal_draws (n : nat) (mu sigma : Q) (s : rng_state)
  : list Q * rng_state :=
  match n with
  | O => ([], s)
  | S n' =>
      let '(x, s1) := np_normal mu sigma s in
      let '(xs, s2) := normal_draws n' mu sigma s1 in
      (x :: xs, s2)
  end.

(** [xs.cumprod()], with the product so far in [acc]. *)
Fixpoint cumprod (acc : Q) (xs : list Q) : list Q :=
  match xs with
  | [] => []
  | x :: rest => let p := (acc * x)%Q in p :: cumprod p rest
  end.

(** Python's [max] and [min] of two numbers: the later argument replaces
    the earlier one only when strictly beyond it. *)
Definition py_max (a b : Q) : Q := if Qltb a b then b else a.
Definition py_min (a b : Q) : Q := if Qltb b a then b else a.

Definition hour : Z := 3600 * 1000000.

(** One turn of the loop over [enumerate(zip(dates, prices))]. *)
Definition synthetic_row (i : nat) (date : Z) (price : Q) (s : rng_state)
  : raw_row * rng_state :=
  let volatility :=
    ((2 # 1000) * (1 + (1 # 2) * np_sin (inject_Z (Z.of_nat i) / 50)))%Q in
  let open_price := price in
  let '(n1, s1) := np_normal 0 volatility s in
  let high_price := (price * (1 + Qabs n1))%Q in
  let '(n2, s2) := np_normal 0 volatility s1 in
  let low_price := (price * (1 - Qabs n2))%Q in
  let '(n3, s3) := np_normal 0 (volatility * (1 # 2))%Q s2 in
  let close_price := (price * (1 + n3))%Q in
  let high_price := py_max (py_max open_price close_price) high_price in
  let low_price := py_min (py_min open_price close_price) low_price in
  let '(u, s4) := np_random s3 in
  let volume :=
    (1000000 * ((8 # 10) + (4 # 10) * np_sin (inject_Z (Z.of_nat i) / 20)
                + (3 # 10) * u))%Q in
  ({| r_time := date; r_open := Some open_price; r_high := Some high_price;
      r_low := Some low_price; r_close := Some close_price;
      r_volume := Some volume |}, s4).

Fixpoint synthetic_rows (i : nat) (now : Z) (prices : list Q)
    (s : rng_state) : list raw_row * rng_state :=
  match prices with
  | [] => ([], s)
  | price :: rest =>
      let date := now - (499 - Z.of_nat i) * hour in
      let '(row, s1) := synthetic_row i date price s in
      let '(more, s2) := synthetic_rows (S i) now rest s1 in
      (row :: more, s2)
  end.

(** [now] is what [datetime.now()] returns.  The source's [except] clause
    turns an exception into [None]; nothing in the modelled body raises,
    so the model always answers [Some].  The unused [spread] is left out. *)
Definition _get_dynamic_default_data (symbol : string) (now : Z)
    (st : state) : state * option frame :=
  let base_price := default 1%Q (dict_get symbol base_prices) in
  let s0 := np_seed (py_hash symbol mod 10000) in
  let '(returns, s1) := normal_draws 500 (1 # 10000) (5 # 1000) s0 in
  let prices :=
    List.map (Qmult base_price) (cumprod 1 (List.map (Qplus 1) returns)) in
  let '(data, s2) := synthetic_rows 0 now prices s1 in
  let df := {| raw_columns := ["Open"; "High"; "Low"; "Close"; "Volume"];
               raw_rows := data |}%string in
  (record_call (with_rng st s2) (GeneratorCall symbol),
   Some (_clean_data df)).

(** *** The query: [get_symbol_data] *)

(** [f"{symbol}_{period}_{interval}"] *)
Definition cache_key (symbol period interval : string) : string :=
  symbol +:+ "_" +:+ period +:+ "_" +:+ interval.

(** The [seconds] attribute of a [timedelta] of [d] microseconds: the
    whole seconds left after the whole days are taken out. *)
Definition timedelta_seconds (d : Z) : Z := (d / 1000000) mod 86400.

(** The cached frame the first branch returns, if it returns one. *)
Definition cache_hit (key : string) (now : Z) (st : state) : option frame :=
  match _cache st !! key with
  | Some (cached_time, data) =>
      if timedelta_seconds (now - cached_time) <? cache_timeout st
      then Some data else None
  | None => None
  end.

Definition call_adapter (source symbol period interval : string)
    (st : state) : state * option frame :=
  let st := record_call st (AdapterCall source) in
  if String.eqb source "mt5" then _get_mt5_data symbol period interval st
  else if String.eqb source "twelvedata"
       then _get_twelvedata_data symbol period interval st
  else (st, None).

(** Attach the indicators when the library is there, store a copy under
    the key and hand the frame back. *)
Definition finish (key : string) (now : Z) (st : state) (data : frame)
  : state * option frame :=
  let data :=
    if ta_available st then _add_technical_indicators st data else data in
  (with_cache st (<[key := (now, data)]> (_cache st)), Some data).

(** The loop over [working_sources]; [None] when it falls through. *)
Fixpoint try_sources (sources : list string)
    (symbol period interval : string) (now : Z) (st : state)
  : state * option frame :=
  match sources with
  | [] => (st, None)
  | source :: rest =>
      let '(st1, data) := call_adapter source symbol period interval st in
      match data with
      | Some d =>
          if negb (Frame.empty d)
          then finish (cache_key symbol period interval) now st1 d
          else try_sources rest symbol period interval now st1
      | None => try_sources rest symbol period interval now st1
      end
  end.

Definition working_sources (st : state) : list string :=
  List.filter (fun src => default false (source_status st !! src))
              (data_sources st).

(** [now] is the instant of the call: every [datetime.now()] made during
    one call is taken to return it.  The result [data.copy()] of a cache
    hit and the stored [data.copy()] are equal to the frames copied. *)
Definition get_symbol_data (symbol period interval : string) (now : Z)
    (st : state) : state * option frame :=
  let key := cache_key symbol period interval in
  match cache_hit key now st with
  | Some data => (st, Some data)
  | None =>
      match working_sources st with
      | [] => _get_dynamic_default_data symbol now st
      | sources =>
          match try_sources sources symbol period interval now st with
          | (st1, Some data) => (st1, Some data)
          | (st1, None) =>
              match _get_dynamic_default_data symbol now st1 with
              | (st2, Some data) => finish key now st2 data
              | (st2, None) => (st2, None)
              end
          end
      end
  end.

End WithAmbient.
End Provider.

(** ** The analysis: [AdvancedAnalysis] *)

Module Analysis.
Section WithAmbient.

Context `{A : Ambient}.

Import Signal.

(** The three trend words: rising, falling, sideways. *)
Inductive trend_label : Type := Rising | Falling | Sideways.

Definition trend_eqb (a b : trend_label) : bool :=
  match a, b with
  | Rising, Rising | Falling, Falling | Sideways, Sideways => true
  | _, _ => false
  end.

(** The dictionary [analyze_symbol] builds.  [trend] keeps the two words
    of the text [f"{short_trend} ({long_trend})"]. *)
Record analysis : Type := {
  symbol : string;
  current_price : fnum;
  trend : trend_label * trend_label;
  trend_strength : Z;
  signal : label;
  confidence : fnum;
  rsi : fnum;
  ma20 : fnum;
  ma50 : fnum;
  ma200 : fnum;
  support : fnum;
  resistance : fnum;
  volatility : fnum;
  timestamp : Z
}.

Inductive error : Type :=
| NoData     (* the "no data for the symbol" dictionary *)
| Raised.    (* the dictionary of the [except] clause *)

Inductive outcome : Type :=
| Result (a : analysis)
| Error (e : error).

Record analyzer : Type := {
  data_provider : Provider.state;
  signals_history : list analysis
}.

(** *** Series helpers *)

(** [xs.iloc[-1]]; [None] is the IndexError of an empty series. *)
Definition iloc_last {T : Type} (xs : list T) : option T :=
  List.last (List.map Some xs) None.

(** The window of [w] values ending at position [i], once it is full. *)
Definition window_at {T : Type} (w i : nat) (xs : list T)
  : option (list T) :=
  if (w <=? i + 1)%nat && (i <? List.length xs)%nat
  then Some (List.firstn w (List.skipn (i + 1 - w) xs))
  else None.

(** [xs.rolling(w).agg()]: NaN until the window is full. *)
Definition rolling {T : Type} (w : nat) (agg : list T -> fnum)
    (xs : list T) : list fnum :=
  List.map (fun i => match window_at w i xs with
                     | Some win => agg win
                     | None => NaN
                     end)
           (List.seq 0 (List.length xs)).

(** [xs.min()] and [xs.max()]; NaN for an empty series. *)
Definition series_min (xs : list Q) : fnum :=
  match xs with
  | [] => NaN
  | x :: rest => Fin (List.fold_left Qmin rest x)
  end.

Definition series_max (xs : list Q) : fnum :=
  match xs with
  | [] => NaN
  | x :: rest => Fin (List.fold_left Qmax rest x)
  end.

(** *** [_calculate_rsi] *)

(** [prices.diff()]: NaN first, then the successive differences. *)
Definition diff (prices : list Q) : list (option Q) :=
  match prices with
  | [] => []
  | _ :: rest =>
      None :: List.map (fun '(prev, cur) => Some (cur - prev)%Q)
                       (List.combine prices rest)
  end.

(** [delta.where(delta > 0, 0)]: the cell where the test holds, else 0. *)
Definition gain_of (d : option Q) : Q :=
  match d with
  | Some x => if Qltb 0 x then x else 0%Q
  | None => 0%Q
  end.

(** [-delta.where(delta < 0, 0)] *)
Definition loss_of (d : option Q) : Q :=
  (- match d with
     | Some x => if Qltb x 0 then x else 0%Q
     | None => 0%Q
     end)%Q.

Definition rsi_of_rs (rs : fnum) : fnum :=
  fsub (of_Z 100) (fdiv (of_Z 100) (fadd (of_Z 1) rs)).

Definition _calculate_rsi (prices : list Q) (period : nat) : list fnum :=
  let delta := diff prices in
  let gain := rolling period np_mean (List.map gain_of delta) in
  let loss := rolling period np_mean (List.map loss_of delta) in
  let rs := List.map (fun '(g, l) => fdiv g l) (List.combine gain loss) in
  List.map rsi_of_rs rs.

(** *** [_calculate_support_resistance] *)

Definition _calculate_support_resistance (data : frame) (window : nat)
  : option (fnum * fnum) :=
  let lows := List.map Low (rows data) in
  let highs := List.map High (rows data) in
  if (List.length (rows data) <? window)%nat then
    Some (series_min lows, series_max highs)
  else
    support ← iloc_last (rolling window series_min lows);
    resistance ← iloc_last (rolling window series_max highs);
    Some (support, resistance).

(** *** [_determine_trend] *)

Definition short_trend_of (price ma20 : fnum) : trend_label :=
  if fgt price ma20 then Rising else Falling.

Definition long_trend_of (ma20 ma50 ma200 : fnum) : trend_label :=
  if fgt ma20 ma50 && fgt ma50 ma200 then Rising
  else if flt ma20 ma50 && flt ma50 ma200 then Falling
  else Sideways.

Definition _determine_trend (data : frame) (ma20 ma50 ma200 : fnum)
  : option ((trend_label * trend_label) * Z) :=
  price ← iloc_last (List.map Close (rows data));
  let short_trend := short_trend_of (Fin price) ma20 in
  let long_trend := long_trend_of ma20 ma50 ma200 in
  let strength :=
    if trend_eqb short_trend long_trend then 85
    else if trend_eqb long_trend Sideways then 50
    else 30 in
  Some ((short_trend, long_trend), strength).

(** *** [analyze_symbol] *)

(** The body of the [try] after the data is known to be there; [None]
    is an exception on the way. *)
Definition build_analysis (sym : string) (now : Z) (data : frame)
  : option analysis :=
  let closes := List.map Close (rows data) in
  price ← iloc_last closes;
  m20 ← iloc_last (rolling 20 np_mean closes);
  m50 ← iloc_last (rolling 50 np_mean closes);
  m200 ← (if (200 <=? List.length (rows data))%nat
          then iloc_last (rolling 200 np_mean closes)
          else Some m50);
  r ← match assoc "RSI" (derived data) with
      | None => iloc_last (_calculate_rsi closes 14)
      | Some column => iloc_last column
      end;
  let vol := annualised_std closes in
  '(sup, res) ← _calculate_support_resistance data 20;
  '(tr, strength) ← _determine_trend data m20 m50 m200;
  let '(sig, conf) := _generate_signal (Fin price) m20 m50 r sup res in
  Some {| symbol := sym; current_price := Fin price; trend := tr;
          trend_strength := strength; signal := sig; confidence := conf;
          rsi := r; ma20 := m20; ma50 := m50; ma200 := m200;
          support := sup; resistance := res; volatility := vol;
          timestamp := now |}.

(** The admission to the history: [if confidence > 60: append]. *)
Definition record_signal (self : analyzer) (a : analysis) : analyzer :=
  if fgt (confidence a) (of_Z 60)
  then {| data_provider := data_provider self;
          signals_history := signals_history self ++ [a] |}
  else self.

Definition analyze_symbol (sym : string) (now : Z) (self : analyzer)
  : analyzer * outcome :=
  let '(dp, data) :=
    Provider.get_symbol_data sym "3mo" "4h" now (data_provider self) in
  let self := {| data_provider := dp;
                 signals_history := signals_history self |} in
  match data with
  | None => (self, Error NoData)
  | Some data =>
      if Frame.empty data then (self, Error NoData)
      else match build_analysis sym now data with
           | Some a => (record_signal self a, Result a)
           | None => (self, Error Raised)
           end
  end.

(** *** [get_signal_history] *)

(** [l[start:]] for a Python list. *)
Definition slice_from {T : Type} (start : Z) (l : list T) : list T :=
  let n := Z.of_nat (List.length l) in
  let first := if start <? 0 then Z.max (start + n) 0 else Z.min start n in
  List.skipn (Z.to_nat first) l.

(** The list the slice is taken from: the whole history unless the
    symbol is a non-empty string. *)
Definition selected (sym : option string) (self : analyzer)
  : list analysis :=
  match sym with
  | Some s =>
      if String.eqb s "" then signals_history self
      else List.filter (fun a => String.eqb (symbol a) s)
                       (signals_history self)
  | None => signals_history self
  end.

Definition get_signal_history (sym : option string) (limit : Z)
    (self : analyzer) : list analysis :=
  let history := selected sym self in
  match history with
  | [] => []
  | _ => slice_from (- limit) history
  end.

End WithAmbient.
End Analysis.

(** ** A concrete process, for running the model

    The generator is a small congruential one, the terminal knows three
    EURUSD candles, the vendor knows nothing, and the indicator library
    attaches a flat RSI column. *)

Module Demo.

Definition lcg_next (s : Z) : Z := (s * 37 + 11) mod 1009.

Definition lcg_normal (mu sigma : Q) (s : Z) : Q * Z :=
  ((mu + sigma * ((s mod 7 - 3) # 3))%Q, lcg_next s).

Definition candle_at (t : Z) (o h l c : Q) : raw_row :=
  {| r_time := t; r_open := Some o; r_high := Some h; r_low := Some l;
     r_close := Some c; r_volume := Some 1000%Q |}.

Definition eurusd_rates : raw_frame :=
  {| raw_columns := ["Open"; "High"; "Low"; "Close"; "Volume"]%string;
     raw_rows := [candle_at 0 (108 # 100) (110 # 100) (107 # 100) (109 # 100);
                  candle_at 1 (109 # 100) (111 # 100) (108 # 100) (110 # 100);
                  candle_at 2 (110 # 100) (110 # 100) (1075 # 1000)
                            (1078 # 1000)] |}.

#[export] Instance ambient : Ambient := {|
  world := nat;
  rng_state := Z;
  py_hash := fun s => Z.of_nat (String.length s) * 7919;
  np_seed := fun z => z;
  np_normal := lcg_normal;
  np_random := fun s => (((s mod 10) # 10)%Q, lcg_next s);
  np_sin := fun _ => 0%Q;
  mt5_copy_rates := fun symbol _ _ w =>
    (if String.eqb symbol "EURUSD" then Some eurusd_rates else None, S w);
  twelvedata_time_series := fun _ _ _ _ w => (None, S w);
  ta_indicators := fun f =>
    [("RSI"%string, List.map (fun _ => of_Z 50) (rows f))];
  annualised_std := fun _ => NaN
|}.

(** A provider as [__init__] leaves it, for the given probe results. *)
Definition provider (status : gmap string bool) (mt5 : bool)
  : Provider.state :=
  {| Provider.data_sources := ["mt5"; "twelvedata"]%string;
     Provider.cache_timeout := 600;
     Provider._cache := ∅;
     Provider.twelvedata_api_key := "demo";
     Provider.ta_available := true;
     Provider.mt5_available := mt5;
     Provider.source_status := status;
     Provider.upstream := 0%nat;
     Provider.np_random_state := 1;
     Provider.trace := [] |}.

Definition offline : Provider.state :=
  provider {[ "mt5"%string := false; "twelvedata"%string := false ]} false.

Definition online : Provider.state :=
  provider {[ "mt5"%string := true; "twelvedata"%string := false ]} true.

(** The terminal's candles, cleaned and with the indicators attached. *)
Definition eurusd_frame : frame :=
  Provider._add_technical_indicators online (_clean_data eurusd_rates).

(** The offline provider holding an EURUSD frame fetched at time 0. *)
Definition warm : Provider.state :=
  Provider.with_cache offline
    {[ Provider.cache_key "EURUSD" "1mo" "1h" := (0, eurusd_frame) ]}.

(** Fifteen closes that rise and fall, and fifteen that do not move. *)
Definition zigzag : list Q :=
  List.map inject_Z [10; 11; 12; 11; 12; 13; 12; 13; 14; 13; 14; 15; 14;
                     15; 16].

Definition flat : list Q := List.repeat 1%Q 15.

(** Fifteen closes that only rise. *)
Definition rising : list Q :=
  List.map inject_Z [1; 2; 3; 4; 5; 6; 7; 8; 9; 10; 11; 12; 13; 14; 15].

(** An analyzer over the online provider with an empty history. *)
Definition desk : Analysis.analyzer :=
  {| Analysis.data_provider := online; Analysis.signals_history := [] |}.

(** An analyzer over the offline provider with an empty history. *)
Definition idle_desk : Analysis.analyzer :=
  {| Analysis.data_provider := offline; Analysis.signals_history := [] |}.

(** A history entry with the given symbol and confidence. *)
Definition entry (sym : string) (conf : Z) : Analysis.analysis :=
  {| Analysis.symbol := sym; Analysis.current_price := of_Z 1;
     Analysis.trend := (Analysis.Rising, Analysis.Rising);
     Analysis.trend_strength := 85; Analysis.signal := Signal.Buy;
     Analysis.confidence := of_Z conf; Analysis.rsi := of_Z 50;
     Analysis.ma20 := of_Z 1; Analysis.ma50 := of_Z 1;
     Analysis.ma200 := of_Z 1; Analysis.support := of_Z 1;
     Analysis.resistance := of_Z 1; Analysis.volatility := NaN;
     Analysis.timestamp := 0 |}.

(** The history of the filter scenario. *)
Definition busy_desk : Analysis.analyzer :=
  {| Analysis.data_provider := online;
     Analysis.signals_history :=
       [entry "EURUSD" 65; entry "GBPUSD" 80; entry "EURUSD" 90] |}.

End Demo.

(** ** Vocabulary for cleaning *)

(** The four required columns are among the labels of the frame: the test
    of the first loop of [_clean_data]. *)
Definition has_required_columns (df : raw_frame) : bool :=
  forallb (fun col => has_label (field_name col) (raw_columns df))
          required_columns.

(** ** The provider's other operations *)

Module ProviderOps.
Section WithAmbient.

Context `{A : Ambient}.

Import Provider.

Definition with_status (st : state) (status : gmap string bool) : state :=
  {| data_sources := data_sources st; cache_timeout := cache_timeout st;
     _cache := _cache st; twelvedata_api_key := twelvedata_api_key st;
     ta_available := ta_available st; mt5_available := mt5_available st;
     source_status := status; upstream := upstream st;
     np_random_state := np_random_state st; trace := trace st |}.

(** [clear_cache] *)
Definition clear_cache (st : state) : state := with_cache st ∅.

(** *** [test_all_sources]

    The loop probes every source with the given symbol over one day of
    hourly candles and notes whether a non-empty frame came back.  The
    source also sets [current_source_index] to the position probed and
    puts the old value back at the end; nothing reads it in between. *)
Fixpoint probe_sources (sources : list string) (symbol : string)
    (results : gmap string bool) (st : state) : state * gmap string bool :=
  match sources with
  | [] => (st, results)
  | source :: rest =>
      let '(st1, data) := call_adapter source symbol "1d" "1h" st in
      let healthy := match data with
                     | Some d => negb (Frame.empty d)
                     | None => false
                     end in
      probe_sources rest symbol (<[source := healthy]> results) st1
  end.

Definition test_all_sources (symbol : string) (st : state)
  : state * gmap string bool :=
  probe_sources (data_sources st) symbol ∅ st.

(** *** [__init__]

    The key is the configuration's [TWELVEDATA_API_KEY] (["demo"] without
    one), [ta] tells whether pandas_ta could be imported and [mt5] is what
    [_check_mt5_availability] answered; the health map is the result of the
    probe with the default symbol. *)
Definition new_provider (api_key : string) (ta mt5 : bool) (w : world)
    (rng : rng_state) : state :=
  let st0 :=
    {| data_sources := ["mt5"; "twelvedata"]%string;
       cache_timeout := 600;
       _cache := ∅;
       twelvedata_api_key := api_key;
       ta_available := ta;
       mt5_available := mt5;
       source_status := ∅;
       upstream := w;
       np_random_state := rng;
       trace := [] |} in
  let '(st1, results) := test_all_sources "EURUSD" st0 in
  with_status st1 results.

(** *** [get_current_price] *)

(** [None] is the source's [None], returned for a missing or empty frame
    and from its [except] clause. *)
Definition get_current_price (symbol : string) (now : Z) (st : state)
  : state * option Q :=
  let '(st1, data) := get_symbol_data symbol "5d" "15m" now st in
  match data with
  | Some d =>
      if negb (Frame.empty d)
      then (st1, Analysis.iloc_last (List.map Close (rows d)))
      else (st1, None)
  | None => (st1, None)
  end.

(** *** [get_market_summary] *)

Definition summary_symbols : list string :=
  ["EURUSD"; "GBPUSD"; "USDJPY"; "USDCHF"; "USDCAD"; "AUDUSD"]%string.

(** The loop over the symbols; [clock i] is the instant of its [i]-th
    turn. *)
Fixpoint price_each (symbols : list string) (i : nat) (clock : nat -> Z)
    (summary : gmap string Q) (st : state) : state * gmap string Q :=
  match symbols with
  | [] => (st, summary)
  | symbol :: rest =>
      let '(st1, price) := get_current_price symbol (clock i) st in
      let summary1 := match price with
                      | Some p => <[symbol := p]> summary
                      | None => summary
                      end in
      price_each rest (S i) clock summary1 st1
  end.

Definition get_market_summary (symbols : option (list string))
    (clock : nat -> Z) (st : state) : state * gmap string Q :=
  price_each (default summary_symbols symbols) 0 clock ∅ st.

(** *** [get_current_source] and [switch_to_next_source] *)

(** The provider together with the index of its current source. *)
Record instance : Type := {
  core : state;
  current_source_index : nat
}.

(** [None] is the IndexError of an index past the end. *)
Definition get_current_source (self : instance) : option string :=
  List.nth_error (data_sources (core self)) (current_source_index self).

(** [None] is the ZeroDivisionError of an empty source list. *)
Definition switch_to_next_source (self : instance)
  : option (instance * string) :=
  match List.length (data_sources (core self)) with
  | O => None
  | n =>
      let self1 :=
        {| core := core self;
           current_source_index :=
             (current_source_index self + 1) mod n |}%nat in
      new_source ← get_current_source self1;
      Some (self1, new_source)
  end.

(** [k] switches in a row. *)
Fixpoint switch_times (k : nat) (self : instance) : option instance :=
  match k with
  | O => Some self
  | S k' =>
      '(self1, _) ← switch_to_next_source self;
      switch_times k' self1
  end.

(** *** Vocabulary for the properties *)

(** Every frame in the cache has rows and columns. *)
Definition cache_well_formed (st : state) : Prop :=
  forall key fetched data,
    _cache st !! key = Some (fetched, data) -> Frame.empty data = false.

(** The settings of the provider that no query changes. *)
Definition same_settings (st st' : state) : Prop :=
  data_sources st' = data_sources st
  /\ cache_timeout st' = cache_timeout st
  /\ twelvedata_api_key st' = twelvedata_api_key st
  /\ ta_available st' = ta_available st
  /\ mt5_available st' = mt5_available st
  /\ source_status st' = source_status st.

(** The frame [finish] hands back and stores. *)
Definition finished (st : state) (data : frame) : frame :=
  if ta_available st then _add_technical_indicators st data else data.

(** A query: symbol, period, interval and the instant it is made. *)
Definition query : Type := (string * string * string * Z)%type.

Definition query_symbol (q : query) : string := fst (fst (fst q)).

(** The provider after a series of queries, made one after the other. *)
Fixpoint run_queries (qs : list query) (st : state) : state :=
  match qs with
  | [] => st
  | (symbol, period, interval, now) :: rest =>
      run_queries rest (fst (get_symbol_data symbol period interval now st))
  end.

(** What makes a source able to answer at all: the terminal is there, or
    the vendor key is a real one and the vendor lists the symbol. *)
Definition can_answer (st : state) (symbol source : string) : Prop :=
  (source = "mt5"%string /\ mt5_available st = true)
  \/ (source = "twelvedata"%string
      /\ twelvedata_api_key st <> "demo"%string
      /\ is_Some (dict_get symbol td_symbol_map)).

End WithAmbient.
End ProviderOps.

(** ** The analysis: batch signals *)

Module AnalysisOps.
Section WithAmbient.

Context `{A : Ambient}.

(** The value stored per symbol by [get_trading_signals]. *)
Record summary : Type := {
  signal : Signal.label;
  confidence : fnum;
  current_price : fnum;
  rsi : fnum;
  trend : Analysis.trend_label * Analysis.trend_label;
  timestamp : Z
}.

Definition summarize (a : Analysis.analysis) : summary :=
  {| signal := Analysis.signal a;
     confidence := Analysis.confidence a;
     current_price := Analysis.current_price a;
     rsi := Analysis.rsi a;
     trend := Analysis.trend a;
     timestamp := Analysis.timestamp a |}.

Definition trading_symbols : list string :=
  ["EURUSD"; "GBPUSD"; "USDJPY"; "USDCHF"; "USDCAD"; "AUDUSD"; "XAUUSD";
   "USOIL"]%string.

(** [d[key] = value] on a dictionary kept in insertion order. *)
Fixpoint dict_set {V : Type} (key : string) (value : V)
    (d : list (string * V)) : list (string * V) :=
  match d with
  | [] => [(key, value)]
  | (k, v) :: rest =>
      if String.eqb key k then (k, value) :: rest
      else (k, v) :: dict_set key value rest
  end.

(** [sorted(items, key=..., reverse=True)]: the stable sort by descending
    key, written as an insertion sort.  An item goes behind the items of
    strictly greater key and before all others, so items of equal key keep
    their order, as in Python.  (For keys that [<] orders totally the
    result of a stable sort is unique; the keys here are never NaN.) *)
Fixpoint insert_desc {T : Type} (key : T -> fnum) (x : T) (l : list T)
  : list T :=
  match l with
  | [] => [x]
  | y :: rest =>
      if flt (key x) (key y) then y :: insert_desc key x rest
      else x :: l
  end.

Definition sorted_desc {T : Type} (key : T -> fnum) (l : list T) : list T :=
  List.fold_right (insert_desc key) [] l.

(** The loop over the symbols; [clock i] is the instant of its [i]-th
    turn. *)
Fixpoint collect_signals (symbols : list string) (i : nat)
    (clock : nat -> Z) (signals : list (string * summary))
    (self : Analysis.analyzer)
  : Analysis.analyzer * list (string * summary) :=
  match symbols with
  | [] => (self, signals)
  | symbol :: rest =>
      let '(self1, outcome) := Analysis.analyze_symbol symbol (clock i) self in
      let signals1 := match outcome with
                      | Analysis.Result a =>
                          dict_set symbol (summarize a) signals
                      | Analysis.Error _ => signals
                      end in
      collect_signals rest (S i) clock signals1 self1
  end.

Definition get_trading_signals (clock : nat -> Z) (self : Analysis.analyzer)
  : Analysis.analyzer * list (string * summary) :=
  let '(self1, signals) := collect_signals trading_symbols 0 clock [] self in
  (self1, sorted_desc (fun item => confidence (snd item)) signals).

(** An analysis that qualifies for the history. *)
Definition admitted (a : Analysis.analysis) : Prop :=
  fgt (Analysis.confidence a) (of_Z 60) = true.

(** [x] does not come after [y] in descending order of key. *)
Definition key_ge {T : Type} (key : T -> fnum) (x y : T) : Prop :=
  exists cx cy : Q, key x = Fin cx /\ key y = Fin cy /\ (cy <= cx)%Q.

(** What holds of every entry of the batch. *)
Definition entry_ok (symbols : list string) (item : string * summary)
  : Prop :=
  List.In (fst item) symbols
  /\ signal (snd item) <> Signal.Neutral
  /\ exists c : Q, confidence (snd item) = Fin c
                   /\ (45 <= c)%Q /\ (c <= 80)%Q.

(** Descending order of confidence: each entry's confidence is a number at
    least as large as that of every later entry. *)
Definition confidence_ge (x y : string * summary) : Prop :=
  exists cx cy : Q,
    confidence (snd x) = Fin cx /\ confidence (snd y) = Fin cy
    /\ (cy <= cx)%Q.

End WithAmbient.
End AnalysisOps.

(** ** More sample values *)

Module Sample.

(** A frame of [n] equal candles at price [p], without indicators. *)
Definition level (p : Q) : candle :=
  {| time := 0; Open := p; High := p; Low := p; Close := p;
     Volume := Some 1000%Q |}.

Definition steady (n : nat) (p : Q) : frame :=
  {| columns := ["Open"; "High"; "Low"; "Close"; "Volume"]%string;
     rows := List.repeat (level p) n;
     derived := [] |}.

(** The default provider: demonstration key, no terminal. *)
Definition default_provider : Provider.state :=
  ProviderOps.new_provider (A := Demo.ambient) "demo" true false 0%nat 1.

(** A provider whose terminal answers. *)
Definition live_provider : Provider.state :=
  ProviderOps.new_provider (A := Demo.ambient) "demo" true true 0%nat 1.

Definition live_instance : ProviderOps.instance :=
  {| ProviderOps.core := live_provider;
     ProviderOps.current_source_index := 1 |}.

(** A raw frame without a [Low] column. *)
Definition no_low : raw_frame :=
  {| raw_columns := ["Open"; "High"; "Close"]%string;
     raw_rows := raw_rows Demo.eurusd_rates |}.

End Sample.

(* ===================================================================== *)
(** * Part II: properties                                                  *)
(* ===================================================================== *)

(** ** Comparisons and arithmetic on the float model *)

Lemma Qltb_lt (a b : Q) : Qltb a b = true <-> (a < b)%Q.
Proof.
  unfold Qltb. rewrite negb_true_iff. split.
  - intros H. apply Qnot_le_lt. intros Hle.
    apply Qle_bool_iff in Hle. congruence.
  - intros H. destruct (Qle_bool b a) eqn:E; [|reflexivity].
    apply Qle_bool_iff in E. exfalso. exact (Qlt_not_le _ _ H E).
Qed.

Lemma Qltb_ge (a b : Q) : Qltb a b = false <-> (b <= a)%Q.
Proof.
  unfold Qltb. rewrite negb_false_iff. apply Qle_bool_iff.
Qed.

Lemma Qeq_bool_false (a b : Q) : Qeq_bool a b = false <-> ~ (a == b)%Q.
Proof.
  split.
  - intros H E. apply Qeq_bool_iff in E. congruence.
  - intros H. destruct (Qeq_bool a b) eqn:E; [|reflexivity].
    apply Qeq_bool_iff in E. contradiction.
Qed.

Lemma fsame_refl (x : fnum) : fsame x x.
Proof. destruct x; simpl; auto. reflexivity. Qed.

(** ** Signal voting *)

Section SignalFacts.

Import Signal.

Ltac split_ifs :=
  repeat match goal with
         | |- context [if ?b then _ else _] => destruct b
         end.

Lemma sr_vote_cases (price support resistance : fnum) :
  sr_vote price support resistance = [(Buy, 80%Q)]
  \/ sr_vote price support resistance = [(Sell, 80%Q)]
  \/ sr_vote price support resistance = [].
Proof. unfold sr_vote. split_ifs; auto. Qed.

Lemma ma_vote_cases (price ma20 ma50 : fnum) :
  ma_vote price ma20 ma50 = (Buy, 70%Q)
  \/ ma_vote price ma20 ma50 = (Sell, 70%Q)
  \/ ma_vote price ma20 ma50 = (Neutral, 40%Q).
Proof. unfold ma_vote. split_ifs; auto. Qed.

Lemma rsi_vote_cases (rsi : fnum) :
  rsi_vote rsi = (Buy, 75%Q) \/ rsi_vote rsi = (Sell, 75%Q)
  \/ rsi_vote rsi = (Neutral, 50%Q).
Proof. unfold rsi_vote. split_ifs; auto. Qed.

(** The returned confidence is a number between 40 and 95. *)
Lemma confidence_range (price ma20 ma50 rsi support resistance : fnum) :
  exists c : Q,
    snd (_generate_signal price ma20 ma50 rsi support resistance) = Fin c
    /\ (40 <= c)%Q /\ (c <= 95)%Q.
Proof.
  unfold _generate_signal, cast_votes.
  destruct (ma_vote_cases price ma20 ma50) as [-> | [-> | ->]];
    destruct (rsi_vote_cases rsi) as [-> | [-> | ->]];
    destruct (sr_vote_cases price support resistance) as [-> | [-> | ->]];
    (eexists; split; [vm_compute; reflexivity
                     | split; unfold Qle; simpl; lia]).
Qed.

(** C3 (as amended).  [_generate_signal] returns Buy when the buy votes
    outnumber the sell votes, Sell when the sell votes outnumber the buy
    votes, and the waiting label on a tie; neutral votes and the
    abstention of the support/resistance voter count for neither side.
    The confidence is the mean confidence of the votes with the final
    label (of all cast votes on a tie), capped at 95: it is always a
    number, and never above 95.  For price 99, MA20 101, MA50 102,
    RSI 72, resistance 99.5 and a support that is not within 1% of the
    price, the result is Sell with confidence 75. *)
Theorem C3_majority_vote
    (price ma20 ma50 rsi support resistance : fnum) :
  let votes := cast_votes price ma20 ma50 rsi support resistance in
  let buys := count_label Buy votes in
  let sells := count_label Sell votes in
  let result := _generate_signal price ma20 ma50 rsi support resistance in
  ((sells < buys)%nat ->
     result = (Buy, Signal.py_min (of_Z 95)
                      (np_mean (confidences_of Buy votes))))
  /\ ((buys < sells)%nat ->
     result = (Sell, Signal.py_min (of_Z 95)
                       (np_mean (confidences_of Sell votes))))
  /\ (buys = sells ->
     result = (Wait, Signal.py_min (of_Z 95)
                       (np_mean (List.map snd votes))))
  /\ (exists c : Q, snd result = Fin c /\ (c <= 95)%Q)
  /\ (forall sup : fnum,
        near (of_Z 99) sup = false ->
        fst (_generate_signal (of_Z 99) (of_Z 101) (of_Z 102) (of_Z 72)
                              sup (Fin (995 # 10))) = Sell
        /\ fsame (snd (_generate_signal (of_Z 99) (of_Z 101) (of_Z 102)
                                        (of_Z 72) sup (Fin (995 # 10))))
                 (of_Z 75)).
Proof.
  intros votes buys sells result.
  repeat split.
  - intros H. subst result. unfold _generate_signal.
    fold votes. fold buys. fold sells.
    apply Nat.ltb_lt in H. rewrite H. reflexivity.
  - intros H. subst result. unfold _generate_signal.
    fold votes. fold buys. fold sells.
    assert (Hn : (sells <? buys)%nat = false) by (apply Nat.ltb_ge; lia).
    apply Nat.ltb_lt in H. rewrite Hn, H. reflexivity.
  - intros H. subst result. unfold _generate_signal.
    fold votes. fold buys. fold sells.
    rewrite H, Nat.ltb_irrefl. reflexivity.
  - destruct (confidence_range price ma20 ma50 rsi support resistance)
      as (c & Hc & _ & Hle).
    exists c. split; assumption.
  - unfold _generate_signal, cast_votes, sr_vote. rewrite H. reflexivity.
  - unfold _generate_signal, cast_votes, sr_vote. rewrite H.
    vm_compute. reflexivity.
Qed.

(** C10.  When [abs(price - support) / price < 0.01] and
    [abs(price - resistance) / price < 0.01] both hold, the
    support/resistance voter of [_generate_signal] casts exactly one vote,
    a buy at confidence 80: the list of cast votes ends with it and holds
    no sell at 80.  The resistance level then has no influence on what
    [_generate_signal] returns, and the result is the one the buy vote
    gives with the two other voters: buy at 75 when the moving averages
    vote buy; otherwise buy at 77.5 when the RSI votes buy; sell at 72.5
    when both vote sell; wait at 200/3 when the moving averages vote sell
    and the RSI is neutral; wait at 65 when the moving averages are
    neutral and the RSI votes sell; buy at 80 when both are neutral. *)
Theorem C10_support_before_resistance
    (price ma20 ma50 rsi support resistance : fnum) :
  flt (fdiv (fabs (fsub price support)) price) (Fin (1 # 100)) = true ->
  flt (fdiv (fabs (fsub price resistance)) price) (Fin (1 # 100)) = true ->
  let ma_buy := fgt price ma20 && fgt ma20 ma50 in
  let ma_sell := negb ma_buy && (flt price ma20 && flt ma20 ma50) in
  let rsi_buy := flt rsi (of_Z 30) in
  let rsi_sell := negb rsi_buy && fgt rsi (of_Z 70) in
  let result := _generate_signal price ma20 ma50 rsi support resistance in
  sr_vote price support resistance = [(Buy, 80%Q)]
  /\ cast_votes price ma20 ma50 rsi support resistance
     = [ma_vote price ma20 ma50; rsi_vote rsi; (Buy, 80%Q)]
  /\ ~ List.In (Sell, 80%Q)
               (cast_votes price ma20 ma50 rsi support resistance)
  /\ (forall other : fnum,
        _generate_signal price ma20 ma50 rsi support other = result)
  /\ (ma_buy = true ->
       fst result = Buy /\ fsame (snd result) (of_Z 75))
  /\ (ma_buy = false -> rsi_buy = true ->
       fst result = Buy /\ fsame (snd result) (Fin (155 # 2)))
  /\ (ma_sell = true -> rsi_sell = true ->
       fst result = Sell /\ fsame (snd result) (Fin (145 # 2)))
  /\ (ma_sell = true -> rsi_buy = false -> rsi_sell = false ->
       fst result = Wait /\ fsame (snd result) (Fin (200 # 3)))
  /\ (ma_buy = false -> ma_sell = false -> rsi_sell = true ->
       fst result = Wait /\ fsame (snd result) (of_Z 65))
  /\ (ma_buy = false -> ma_sell = false ->
       rsi_buy = false -> rsi_sell = false ->
       fst result = Buy /\ fsame (snd result) (of_Z 80)).
Proof.
  intros Hs Hr. cbv zeta.
  assert (Hvote : sr_vote price support resistance = [(Buy, 80%Q)]).
  { unfold sr_vote, near, distance_to. rewrite Hs. reflexivity. }
  assert (Hany : forall other,
            sr_vote price support other = [(Buy, 80%Q)]).
  { intros other. unfold sr_vote, near, distance_to. rewrite Hs.
    reflexivity. }
  split; [exact Hvote |].
  split; [unfold cast_votes; rewrite Hvote; reflexivity |].
  split.
  { unfold cast_votes. rewrite Hvote.
    intros [H | [H | [H | []]]].
    - destruct (ma_vote_cases price ma20 ma50) as [E | [E | E]];
        rewrite E in H; discriminate.
    - destruct (rsi_vote_cases rsi) as [E | [E | E]];
        rewrite E in H; discriminate.
    - discriminate. }
  split.
  { intros other. unfold _generate_signal, cast_votes.
    rewrite Hvote, (Hany other). reflexivity. }
  unfold _generate_signal, cast_votes. rewrite Hvote.
  unfold ma_vote, rsi_vote.
  destruct (fgt price ma20), (fgt ma20 ma50), (flt price ma20),
    (flt ma20 ma50), (flt rsi (of_Z 30)), (fgt rsi (of_Z 70));
    repeat split; intros; try discriminate; vm_compute; reflexivity.
Qed.

End SignalFacts.

Lemma C3_majority_vote_witness :
  (* buy majority: the MA-only buy *)
  ((Signal.count_label Signal.Sell
      (Signal.cast_votes (of_Z 110) (of_Z 105) (of_Z 100) (of_Z 50)
                         (of_Z 90) (of_Z 130))
    < Signal.count_label Signal.Buy
        (Signal.cast_votes (of_Z 110) (of_Z 105) (of_Z 100) (of_Z 50)
                           (of_Z 90) (of_Z 130)))%nat
   /\ fst (Signal._generate_signal (of_Z 110) (of_Z 105) (of_Z 100)
                                   (of_Z 50) (of_Z 90) (of_Z 130))
      = Signal.Buy)
  (* sell majority: the unanimous sell *)
  /\ ((Signal.count_label Signal.Buy
         (Signal.cast_votes (of_Z 99) (of_Z 101) (of_Z 102) (of_Z 72)
                            (of_Z 90) (Fin (995 # 10)))
       < Signal.count_label Signal.Sell
           (Signal.cast_votes (of_Z 99) (of_Z 101) (of_Z 102) (of_Z 72)
                              (of_Z 90) (Fin (995 # 10))))%nat
      /\ fst (Signal._generate_signal (of_Z 99) (of_Z 101) (of_Z 102)
                                      (of_Z 72) (of_Z 90) (Fin (995 # 10)))
         = Signal.Sell)
  (* tie: two neutral votes *)
  /\ (Signal.count_label Signal.Buy
        (Signal.cast_votes (of_Z 100) (of_Z 100) (of_Z 100) (of_Z 50)
                           (of_Z 90) (of_Z 130))
      = Signal.count_label Signal.Sell
          (Signal.cast_votes (of_Z 100) (of_Z 100) (of_Z 100) (of_Z 50)
                             (of_Z 90) (of_Z 130))
      /\ fst (Signal._generate_signal (of_Z 100) (of_Z 100) (of_Z 100)
                                      (of_Z 50) (of_Z 90) (of_Z 130))
         = Signal.Wait)
  (* the scenario, with the support at 90 *)
  /\ Signal.near (of_Z 99) (of_Z 90) = false
  /\ fsame (snd (Signal._generate_signal (of_Z 99) (of_Z 101) (of_Z 102)
                                         (of_Z 72) (of_Z 90)
                                         (Fin (995 # 10))))
           (of_Z 75).
Proof.
  destruct (C3_majority_vote (of_Z 110) (of_Z 105) (of_Z 100) (of_Z 50)
                             (of_Z 90) (of_Z 130))
    as (Hbuy & _ & _ & _ & Hscenario).
  destruct (C3_majority_vote (of_Z 99) (of_Z 101) (of_Z 102) (of_Z 72)
                             (of_Z 90) (Fin (995 # 10)))
    as (_ & Hsell & _).
  destruct (C3_majority_vote (of_Z 100) (of_Z 100) (of_Z 100) (of_Z 50)
                             (of_Z 90) (of_Z 130))
    as (_ & _ & Htie & _).
  assert (Hb : (Signal.count_label Signal.Sell
                  (Signal.cast_votes (of_Z 110) (of_Z 105) (of_Z 100)
                                     (of_Z 50) (of_Z 90) (of_Z 130))
                < Signal.count_label Signal.Buy
                    (Signal.cast_votes (of_Z 110) (of_Z 105) (of_Z 100)
                                       (of_Z 50) (of_Z 90) (of_Z 130)))%nat)
    by (vm_compute; lia).
  assert (Hs : (Signal.count_label Signal.Buy
                  (Signal.cast_votes (of_Z 99) (of_Z 101) (of_Z 102)
                                     (of_Z 72) (of_Z 90) (Fin (995 # 10)))
                < Signal.count_label Signal.Sell
                    (Signal.cast_votes (of_Z 99) (of_Z 101) (of_Z 102)
                                       (of_Z 72) (of_Z 90)
                                       (Fin (995 # 10))))%nat)
    by (vm_compute; lia).
  assert (Ht : Signal.count_label Signal.Buy
                 (Signal.cast_votes (of_Z 100) (of_Z 100) (of_Z 100)
                                    (of_Z 50) (of_Z 90) (of_Z 130))
               = Signal.count_label Signal.Sell
                   (Signal.cast_votes (of_Z 100) (of_Z 100) (of_Z 100)
                                      (of_Z 50) (of_Z 90) (of_Z 130)))
    by reflexivity.
  assert (Hfar : Signal.near (of_Z 99) (of_Z 90) = false) by reflexivity.
  exact (conj (conj Hb (f_equal fst (Hbuy Hb)))
           (conj (conj Hs (f_equal fst (Hsell Hs)))
              (conj (conj Ht (f_equal fst (Htie Ht)))
                 (conj Hfar (proj2 (Hscenario (of_Z 90) Hfar)))))).
Defined.

(** C3, as first stated, fails when the support is close too: with a
    support of 98.5 the third vote is a buy, and the sell wins with the
    mean of 70 and 75. *)
Lemma C3_support_near_counterexample :
  fst (Signal._generate_signal (of_Z 99) (of_Z 101) (of_Z 102) (of_Z 72)
                               (Fin (985 # 10)) (Fin (995 # 10)))
  = Signal.Sell
  /\ fsame (snd (Signal._generate_signal (of_Z 99) (of_Z 101) (of_Z 102)
                                         (of_Z 72) (Fin (985 # 10))
                                         (Fin (995 # 10))))
           (Fin (725 # 10))
  /\ ~ fsame (snd (Signal._generate_signal (of_Z 99) (of_Z 101) (of_Z 102)
                                           (of_Z 72) (Fin (985 # 10))
                                           (Fin (995 # 10))))
             (of_Z 75).
Proof.
  repeat split.
  vm_compute. discriminate.
Qed.

Lemma C10_support_before_resistance_witness :
  flt (fdiv (fabs (fsub (of_Z 100) (Fin (995 # 10)))) (of_Z 100))
      (Fin (1 # 100)) = true
  /\ flt (fdiv (fabs (fsub (of_Z 100) (Fin (1005 # 10)))) (of_Z 100))
         (Fin (1 # 100)) = true
  /\ Signal.sr_vote (of_Z 100) (Fin (995 # 10)) (Fin (1005 # 10))
     = [(Signal.Buy, 80%Q)]
  /\ fst (Signal._generate_signal (of_Z 100) (of_Z 100) (of_Z 100)
            (of_Z 50) (Fin (995 # 10)) (Fin (1005 # 10))) = Signal.Buy
  /\ fsame (snd (Signal._generate_signal (of_Z 100) (of_Z 100) (of_Z 100)
                   (of_Z 50) (Fin (995 # 10)) (Fin (1005 # 10))))
           (of_Z 80)
  /\ fst (Signal._generate_signal (of_Z 100) (of_Z 105) (of_Z 110)
            (of_Z 80) (Fin (995 # 10)) (Fin (1005 # 10))) = Signal.Sell.
Proof.
  split; [reflexivity | split; [reflexivity |]].
  pose proof (C10_support_before_resistance
                (of_Z 100) (of_Z 100) (of_Z 100) (of_Z 50)
                (Fin (995 # 10)) (Fin (1005 # 10)) eq_refl eq_refl)
    as (Hvote & _ & _ & _ & _ & _ & _ & _ & _ & Hquiet).
  pose proof (C10_support_before_resistance
                (of_Z 100) (of_Z 105) (of_Z 110) (of_Z 80)
                (Fin (995 # 10)) (Fin (1005 # 10)) eq_refl eq_refl)
    as (_ & _ & _ & _ & _ & _ & Hsell & _).
  split; [exact Hvote |].
  split; [exact (proj1 (Hquiet eq_refl eq_refl eq_refl eq_refl)) |].
  split; [exact (proj2 (Hquiet eq_refl eq_refl eq_refl eq_refl)) |].
  exact (proj1 (Hsell eq_refl eq_refl)).
Defined.

(** ** Trend, history admission and history reads *)

Section AnalysisFacts.

Context `{A : Ambient}.

Import Signal Analysis.

Lemma iloc_last_app {T : Type} (xs : list T) (x : T) :
  iloc_last (xs ++ [x]) = Some x.
Proof.
  unfold iloc_last. rewrite List.map_app. simpl. apply List.last_last.
Qed.

Lemma iloc_last_nonempty {T : Type} (xs : list T) :
  xs <> [] -> exists x, iloc_last xs = Some x.
Proof.
  intros H. destruct (List.exists_last H) as (front & x & ->).
  exists x. apply iloc_last_app.
Qed.

Lemma short_trend_not_sideways (price ma20 : fnum) :
  short_trend_of price ma20 <> Sideways.
Proof. unfold short_trend_of. destruct (fgt price ma20); discriminate. Qed.

Lemma trend_eqb_eq (a b : trend_label) : trend_eqb a b = true <-> a = b.
Proof. destruct a, b; simpl; split; intros H; congruence. Qed.

(** C6.  On a non-empty series [_determine_trend] returns.  Its short-term
    word is "rising" when the last close is above MA20 and "falling"
    otherwise; its long-term word is "rising" when MA20 > MA50 > MA200,
    "falling" when MA20 < MA50 < MA200 and "sideways" otherwise.  The
    strength it returns is 85 when the two words agree, 50 when the
    long-term word is "sideways", 30 in every other case; so it is one of
    30, 50 and 85. *)
Theorem C6_trend_strength (data : frame) (ma20 ma50 ma200 : fnum) :
  rows data <> [] ->
  exists (front : list candle) (last_row : candle)
         (short long : trend_label) (strength : Z),
    rows data = front ++ [last_row]
    /\ _determine_trend data ma20 ma50 ma200 = Some ((short, long), strength)
    /\ (fgt (Fin (Close last_row)) ma20 = true -> short = Rising)
    /\ (fgt (Fin (Close last_row)) ma20 = false -> short = Falling)
    /\ (fgt ma20 ma50 && fgt ma50 ma200 = true -> long = Rising)
    /\ (fgt ma20 ma50 && fgt ma50 ma200 = false ->
        flt ma20 ma50 && flt ma50 ma200 = true -> long = Falling)
    /\ (fgt ma20 ma50 && fgt ma50 ma200 = false ->
        flt ma20 ma50 && flt ma50 ma200 = false -> long = Sideways)
    /\ (short = long -> strength = 85)
    /\ (long = Sideways -> strength = 50)
    /\ (short <> long -> long <> Sideways -> strength = 30)
    /\ (strength = 30 \/ strength = 50 \/ strength = 85).
Proof.
  intros Hrows.
  destruct (List.exists_last Hrows) as (front & last_row & Erows).
  assert (Hp : iloc_last (List.map Close (rows data))
               = Some (Close last_row)).
  { rewrite Erows, List.map_app. apply iloc_last_app. }
  exists front, last_row.
  unfold _determine_trend. rewrite Hp. cbn [mbind option_bind].
  pose proof (short_trend_not_sideways (Fin (Close last_row)) ma20)
    as Hshort.
  assert (Hs1 : fgt (Fin (Close last_row)) ma20 = true ->
                short_trend_of (Fin (Close last_row)) ma20 = Rising).
  { intros E. unfold short_trend_of. rewrite E. reflexivity. }
  assert (Hs2 : fgt (Fin (Close last_row)) ma20 = false ->
                short_trend_of (Fin (Close last_row)) ma20 = Falling).
  { intros E. unfold short_trend_of. rewrite E. reflexivity. }
  assert (Hl1 : fgt ma20 ma50 && fgt ma50 ma200 = true ->
                long_trend_of ma20 ma50 ma200 = Rising).
  { intros E. unfold long_trend_of. rewrite E. reflexivity. }
  assert (Hl2 : fgt ma20 ma50 && fgt ma50 ma200 = false ->
                flt ma20 ma50 && flt ma50 ma200 = true ->
                long_trend_of ma20 ma50 ma200 = Falling).
  { intros E1 E2. unfold long_trend_of. rewrite E1, E2. reflexivity. }
  assert (Hl3 : fgt ma20 ma50 && fgt ma50 ma200 = false ->
                flt ma20 ma50 && flt ma50 ma200 = false ->
                long_trend_of ma20 ma50 ma200 = Sideways).
  { intros E1 E2. unfold long_trend_of. rewrite E1, E2. reflexivity. }
  set (short := short_trend_of (Fin (Close last_row)) ma20) in *.
  set (long := long_trend_of ma20 ma50 ma200) in *.
  exists short, long. eexists.
  split; [exact Erows |]. split; [reflexivity |].
  split; [exact Hs1 |]. split; [exact Hs2 |].
  split; [exact Hl1 |]. split; [exact Hl2 |]. split; [exact Hl3 |].
  destruct (trend_eqb short long) eqn:Eagree.
  - apply trend_eqb_eq in Eagree.
    repeat split; auto; intros; congruence.
  - assert (Hne : short <> long).
    { intros E. apply trend_eqb_eq in E. congruence. }
    destruct (trend_eqb long Sideways) eqn:Eside.
    + apply trend_eqb_eq in Eside.
      repeat split; auto; intros; congruence.
    + assert (long <> Sideways).
      { intros E. apply trend_eqb_eq in E. congruence. }
      repeat split; auto; intros; congruence.
Qed.

Lemma app_one_neq {T : Type} (l : list T) (x : T) : l ++ [x] <> l.
Proof.
  intros H. apply (f_equal (@List.length T)) in H.
  rewrite List.length_app in H. simpl in H. lia.
Qed.

(** C7.  The analysis built by [analyze_symbol] is appended to the
    history exactly when its confidence is greater than 60: with
    confidence 60 the history is left as it was, with confidence 61 the
    analysis is appended, and [analyze_symbol] hands the analysis back
    in both cases. *)
Theorem C7_history_admission (self : analyzer) (a : analysis) :
  (fgt (confidence a) (of_Z 60) = true
   <-> signals_history (record_signal self a) = signals_history self ++ [a])
  /\ (fgt (confidence a) (of_Z 60) = false
      <-> signals_history (record_signal self a) = signals_history self)
  /\ (fsame (confidence a) (of_Z 60) -> record_signal self a = self)
  /\ (fsame (confidence a) (of_Z 61) ->
      signals_history (record_signal self a) = signals_history self ++ [a])
  /\ (forall (sym : string) (now : Z) (data : frame),
        let fetched :=
          Provider.get_symbol_data sym "3mo" "4h" now (data_provider self) in
        snd fetched = Some data ->
        Frame.empty data = false ->
        build_analysis sym now data = Some a ->
        analyze_symbol sym now self
        = (record_signal {| data_provider := fst fetched;
                            signals_history := signals_history self |} a,
           Result a)).
Proof.
  split; [| split; [| split; [| split]]]; try unfold record_signal.
  - destruct (fgt (confidence a) (of_Z 60)); simpl; split; intros H;
      try reflexivity; try discriminate.
    symmetry in H. exfalso. exact (app_one_neq _ _ H).
  - destruct (fgt (confidence a) (of_Z 60)); simpl; split; intros H;
      try reflexivity; try discriminate.
    exfalso. exact (app_one_neq _ _ H).
  - intros H. destruct (confidence a) as [c | | |]; simpl in H; try tauto.
    assert (E : fgt (Fin c) (of_Z 60) = false).
    { unfold fgt, of_Z. simpl. apply Qltb_ge. rewrite H. apply Qle_refl. }
    rewrite E. reflexivity.
  - intros H. destruct (confidence a) as [c | | |]; simpl in H; try tauto.
    assert (E : fgt (Fin c) (of_Z 60) = true).
    { unfold fgt, of_Z. simpl. apply Qltb_lt. rewrite H. reflexivity. }
    rewrite E. reflexivity.
  - intros sym now data Hdata Hne Hbuild.
    unfold analyze_symbol.
    destruct (Provider.get_symbol_data sym "3mo" "4h" now
                                       (data_provider self)) as [dp d].
    simpl in Hdata. subst d. rewrite Hne, Hbuild. reflexivity.
Qed.

Lemma selected_none_or_filter (sym : option string) (self : analyzer) :
  selected sym self = signals_history self
  \/ exists s, sym = Some s
               /\ selected sym self
                  = List.filter (fun a => String.eqb (symbol a) s)
                                (signals_history self).
Proof.
  unfold selected. destruct sym as [s |]; [| left; reflexivity].
  destruct (String.eqb s ""); [left; reflexivity |].
  right. exists s. split; reflexivity.
Qed.

(** C9.  [get_signal_history] with limit 0 returns the whole selected
    history (the slice [history[-0:]] is the whole list); with a
    positive limit it returns the last [min(limit, length)] entries of
    the selected history, in their order; an empty selected history
    gives the empty list. *)
Theorem C9_history_limit (sym : option string) (limit : Z)
    (self : analyzer) :
  let history := selected sym self in
  let n := List.length history in
  (limit = 0 -> get_signal_history sym limit self = history)
  /\ (0 < limit ->
      get_signal_history sym limit self
      = List.skipn (n - Nat.min (Z.to_nat limit) n) history
      /\ List.length (get_signal_history sym limit self)
         = Nat.min (Z.to_nat limit) n)
  /\ (history = [] -> get_signal_history sym limit self = []).
Proof.
  intros history n. unfold get_signal_history. fold history.
  split; [| split].
  - intros ->. destruct history; reflexivity.
  - intros Hpos.
    assert (E : slice_from (- limit) history
                = List.skipn (n - Nat.min (Z.to_nat limit) n) history).
    { unfold slice_from. fold n.
      assert (Hneg : (- limit <? 0) = true) by (apply Z.ltb_lt; lia).
      rewrite Hneg. f_equal. lia. }
    assert (L : List.length (List.skipn (n - Nat.min (Z.to_nat limit) n)
                                        history)
                = Nat.min (Z.to_nat limit) n).
    { rewrite List.length_skipn. fold n. lia. }
    destruct history as [| a0 rest] eqn:Eh.
    + simpl in *. subst n. simpl. split; [| lia].
      destruct (0 - Nat.min (Z.to_nat limit) 0)%nat; reflexivity.
    + rewrite E. split; [reflexivity | exact L].
  - intros ->. reflexivity.
Qed.

End AnalysisFacts.

Lemma C6_trend_strength_witness :
  rows Demo.eurusd_frame <> []
  /\ Analysis._determine_trend Demo.eurusd_frame
       (of_Z 1) (Fin (1 # 2)) (Fin (1 # 4))
     = Some ((Analysis.Rising, Analysis.Rising), 85)
  /\ Analysis._determine_trend Demo.eurusd_frame
       (of_Z 2) (of_Z 3) (of_Z 4)
     = Some ((Analysis.Falling, Analysis.Falling), 85)
  /\ Analysis._determine_trend Demo.eurusd_frame
       (of_Z 1) (of_Z 3) (of_Z 2)
     = Some ((Analysis.Rising, Analysis.Sideways), 50)
  /\ Analysis._determine_trend Demo.eurusd_frame
       (of_Z 2) (Fin (1 # 2)) (Fin (1 # 4))
     = Some ((Analysis.Falling, Analysis.Rising), 30).
Proof.
  assert (H : rows Demo.eurusd_frame <> []) by (vm_compute; discriminate).
  assert (Hlast : forall front last_row,
            rows Demo.eurusd_frame = front ++ [last_row] ->
            Close last_row = (1078 # 1000)%Q).
  { intros front last_row E.
    assert (E' : List.last (rows Demo.eurusd_frame) last_row = last_row)
      by (rewrite E; apply List.last_last).
    rewrite <- E'. reflexivity. }
  split; [exact H |].
  split; [| split; [| split]].
  - destruct (C6_trend_strength Demo.eurusd_frame
                (of_Z 1) (Fin (1 # 2)) (Fin (1 # 4)) H)
      as (front & last_row & short & long & strength & Erows & -> & Hs & _
          & Hl & _ & _ & Hagree & _).
    rewrite (Hlast _ _ Erows) in Hs.
    rewrite (Hs eq_refl), (Hl eq_refl) in *.
    rewrite (Hagree eq_refl). reflexivity.
  - destruct (C6_trend_strength Demo.eurusd_frame
                (of_Z 2) (of_Z 3) (of_Z 4) H)
      as (front & last_row & short & long & strength & Erows & -> & _ & Hs
          & _ & Hl & _ & Hagree & _).
    rewrite (Hlast _ _ Erows) in Hs.
    rewrite (Hs eq_refl), (Hl eq_refl eq_refl) in *.
    rewrite (Hagree eq_refl). reflexivity.
  - destruct (C6_trend_strength Demo.eurusd_frame
                (of_Z 1) (of_Z 3) (of_Z 2) H)
      as (front & last_row & short & long & strength & Erows & -> & Hs & _
          & _ & _ & Hl & _ & Hside & _).
    rewrite (Hlast _ _ Erows) in Hs.
    rewrite (Hs eq_refl), (Hl eq_refl eq_refl) in *.
    rewrite (Hside eq_refl). reflexivity.
  - destruct (C6_trend_strength Demo.eurusd_frame
                (of_Z 2) (Fin (1 # 2)) (Fin (1 # 4)) H)
      as (front & last_row & short & long & strength & Erows & -> & _ & Hs
          & Hl & _ & _ & _ & _ & Hweak & _).
    rewrite (Hlast _ _ Erows) in Hs.
    rewrite (Hs eq_refl), (Hl eq_refl) in *.
    rewrite Hweak by discriminate. reflexivity.
Defined.

Lemma C7_history_admission_witness :
  fsame (Analysis.confidence (Demo.entry "EURUSD" 60)) (of_Z 60)
  /\ Analysis.record_signal Demo.desk (Demo.entry "EURUSD" 60) = Demo.desk
  /\ fsame (Analysis.confidence (Demo.entry "EURUSD" 61)) (of_Z 61)
  /\ Analysis.signals_history
       (Analysis.record_signal Demo.desk (Demo.entry "EURUSD" 61))
     = [Demo.entry "EURUSD" 61]
  /\ exists a,
       Analysis.build_analysis (A := Demo.ambient)
         "EURUSD" 1000 Demo.eurusd_frame = Some a
       /\ fsame (Analysis.confidence a) (of_Z 80)
       /\ snd (Analysis.analyze_symbol "EURUSD" 1000 Demo.desk)
          = Analysis.Result a
       /\ Analysis.signals_history
            (fst (Analysis.analyze_symbol "EURUSD" 1000 Demo.desk)) = [a].
Proof.
  assert (H60 : fsame (Analysis.confidence (Demo.entry "EURUSD" 60))
                      (of_Z 60)) by reflexivity.
  assert (H61 : fsame (Analysis.confidence (Demo.entry "EURUSD" 61))
                      (of_Z 61)) by reflexivity.
  destruct (C7_history_admission Demo.desk (Demo.entry "EURUSD" 60))
    as (_ & _ & Hkeep & _ & _).
  destruct (C7_history_admission Demo.desk (Demo.entry "EURUSD" 61))
    as (_ & _ & _ & Hadd & _).
  refine (conj H60 (conj (Hkeep H60) (conj H61 (conj (Hadd H61) _)))).
  destruct (Analysis.build_analysis (A := Demo.ambient)
              "EURUSD" 1000 Demo.eurusd_frame)
    as [a |] eqn:Ebuild; [| vm_compute in Ebuild; discriminate].
  assert (Hconf : fsame (Analysis.confidence a) (of_Z 80)).
  { vm_compute in Ebuild. injection Ebuild as <-. reflexivity. }
  assert (Hdata : snd (Provider.get_symbol_data
                         "EURUSD" "3mo" "4h" 1000
                         (Analysis.data_provider Demo.desk))
                  = Some Demo.eurusd_frame) by (vm_compute; reflexivity).
  assert (Hne : Frame.empty Demo.eurusd_frame = false) by reflexivity.
  destruct (C7_history_admission Demo.desk a) as (Hiff & _ & _ & _ & Hrun).
  pose proof (Hrun "EURUSD"%string 1000 Demo.eurusd_frame Hdata Hne Ebuild)
    as Hcall.
  assert (Hgt : fgt (Analysis.confidence a) (of_Z 60) = true).
  { vm_compute in Ebuild. injection Ebuild as <-. reflexivity. }
  exists a. split; [reflexivity |]. split; [exact Hconf |].
  rewrite Hcall. simpl. split; [reflexivity |].
  unfold Analysis.record_signal. rewrite Hgt. reflexivity.
Defined.

Lemma C9_history_limit_witness :
  (0 < 1)%Z
  /\ Analysis.get_signal_history (Some "EURUSD"%string) 1 Demo.busy_desk
     = [Demo.entry "EURUSD" 90]
  /\ Analysis.get_signal_history (Some "EURUSD"%string) 0 Demo.busy_desk
     = [Demo.entry "EURUSD" 65; Demo.entry "EURUSD" 90]
  /\ Analysis.selected (Some "USDJPY"%string) Demo.busy_desk = []
  /\ Analysis.get_signal_history (Some "USDJPY"%string) 5 Demo.busy_desk
     = [].
Proof.
  assert (Hpos : (0 < 1)%Z) by lia.
  assert (Hnone : Analysis.selected (Some "USDJPY"%string) Demo.busy_desk
                  = []) by reflexivity.
  destruct (C9_history_limit (Some "EURUSD"%string) 1 Demo.busy_desk)
    as (_ & Hlast & _).
  destruct (C9_history_limit (Some "EURUSD"%string) 0 Demo.busy_desk)
    as (Hall & _ & _).
  destruct (C9_history_limit (Some "USDJPY"%string) 5 Demo.busy_desk)
    as (_ & _ & Hempty).
  exact (conj Hpos (conj (proj1 (Hlast Hpos))
           (conj (Hall eq_refl) (conj Hnone (Hempty Hnone))))).
Defined.

(** ** The provider: cache and fallback *)

Section ProviderFacts.

Context `{A : Ambient}.

Import Provider.

Lemma clean_data_no_indicators (df : raw_frame) :
  derived (_clean_data df) = [].
Proof.
  unfold _clean_data.
  destruct (raw_empty df); [reflexivity |].
  destruct (negb _); reflexivity.
Qed.

Lemma generator_returns (symbol : string) (now : Z) (st : state) :
  exists data,
    snd (_get_dynamic_default_data symbol now st) = Some data
    /\ derived data = []
    /\ _cache (fst (_get_dynamic_default_data symbol now st)) = _cache st
    /\ trace (fst (_get_dynamic_default_data symbol now st))
       = trace st ++ [GeneratorCall symbol].
Proof.
  unfold _get_dynamic_default_data.
  destruct (normal_draws _ _ _ _) as [returns s1].
  destruct (synthetic_rows _ _ _ _) as [data s2]. simpl.
  eexists. split; [reflexivity |].
  split; [apply clean_data_no_indicators |].
  split; reflexivity.
Qed.

(** C8.  The synthetic series depends on the symbol and the current time
    only: whatever the provider and numpy's generator went through
    before, two calls for the same symbol at the same time return the
    same frame and leave the generator in the same state, because the
    generator is re-seeded from the symbol's hash first. *)
Theorem C8_synthetic_deterministic
    (symbol : string) (now : Z) (st1 st2 : state) :
  snd (_get_dynamic_default_data symbol now st1)
  = snd (_get_dynamic_default_data symbol now st2)
  /\ np_random_state (fst (_get_dynamic_default_data symbol now st1))
     = np_random_state (fst (_get_dynamic_default_data symbol now st2)).
Proof.
  unfold _get_dynamic_default_data.
  destruct (normal_draws _ _ _ _) as [returns s1].
  destruct (synthetic_rows _ _ _ _) as [data s2].
  split; reflexivity.
Qed.

(** C1 (what the code does).  With no source marked healthy and no fresh
    cache entry, [get_symbol_data] returns what the synthetic generator
    returns and nothing more: the frame carries no indicator column even
    when the indicator library is available, and the cache is left as
    it was. *)
Theorem C1_no_healthy_source_returns_early
    (symbol period interval : string) (now : Z) (st : state) :
  cache_hit (cache_key symbol period interval) now st = None ->
  working_sources st = [] ->
  get_symbol_data symbol period interval now st
  = _get_dynamic_default_data symbol now st
  /\ _cache (fst (get_symbol_data symbol period interval now st))
     = _cache st
  /\ exists data,
       snd (get_symbol_data symbol period interval now st) = Some data
       /\ derived data = [].
Proof.
  intros Hmiss Hnone.
  assert (E : get_symbol_data symbol period interval now st
              = _get_dynamic_default_data symbol now st).
  { unfold get_symbol_data. rewrite Hmiss, Hnone. reflexivity. }
  rewrite E.
  destruct (generator_returns symbol now st) as (data & Hd & Hi & Hc & _).
  split; [reflexivity |]. split; [exact Hc |].
  exists data. split; assumption.
Qed.

(** The sibling path: when healthy sources were tried and all of them
    failed, the synthetic frame gets its indicators and is stored under
    the key of the query. *)
Lemma all_sources_failed_caches
    (symbol period interval : string) (now : Z) (st st1 : state) :
  cache_hit (cache_key symbol period interval) now st = None ->
  working_sources st <> [] ->
  try_sources (working_sources st) symbol period interval now st
  = (st1, None) ->
  exists st2 data,
    _get_dynamic_default_data symbol now st1 = (st2, Some data)
    /\ get_symbol_data symbol period interval now st
       = finish (cache_key symbol period interval) now st2 data
    /\ _cache (fst (get_symbol_data symbol period interval now st))
         !! cache_key symbol period interval
       = Some (now,
               if ta_available st2
               then _add_technical_indicators st2 data else data).
Proof.
  intros Hmiss Hsome Htry.
  destruct (_get_dynamic_default_data symbol now st1) as [st2 r] eqn:Egen.
  destruct (generator_returns symbol now st1) as (data & Hd & _).
  rewrite Egen in Hd. simpl in Hd. subst r.
  exists st2, data. split; [reflexivity |].
  assert (E : get_symbol_data symbol period interval now st
              = finish (cache_key symbol period interval) now st2 data).
  { unfold get_symbol_data. rewrite Hmiss.
    destruct (working_sources st) as [| s0 rest]; [congruence |].
    rewrite Htry, Egen. reflexivity. }
  split; [exact E |].
  rewrite E. unfold finish. simpl. apply lookup_insert_eq.
Qed.

Lemma seconds_of_late_age (days r : Z) :
  0 <= r < 86400 * 1000000 ->
  timedelta_seconds (days * (86400 * 1000000) + r) = r / 1000000.
Proof.
  intros Hr. unfold timedelta_seconds.
  replace (days * (86400 * 1000000) + r)
    with (r + (days * 86400) * 1000000) by lia.
  rewrite Z.div_add by lia.
  rewrite Z.add_mod, Z.mod_mul, Z.add_0_r, Z.mod_mod by lia.
  apply Z.mod_small.
  split.
  - apply Z.div_pos; lia.
  - apply Z.div_lt_upper_bound; lia.
Qed.

(** Within the first day of an entry's life the freshness test is the
    intended one. *)
Lemma cache_hit_first_day (key : string) (now fetched : Z) (data : frame)
    (st : state) :
  _cache st !! key = Some (fetched, data) ->
  0 <= now - fetched < 86400 * 1000000 ->
  (cache_hit key now st = Some data
   <-> now - fetched < cache_timeout st * 1000000).
Proof.
  intros Hin Hage. unfold cache_hit. rewrite Hin.
  pose proof (seconds_of_late_age 0 (now - fetched) Hage) as Hs.
  change (0 * (86400 * 1000000) + (now - fetched))
    with (now - fetched) in Hs.
  rewrite Hs.
  destruct (Z.ltb_spec ((now - fetched) / 1000000) (cache_timeout st))
    as [Hlt | Hge].
  - split; [intros _ | reflexivity].
    clear Hs. Z.div_mod_to_equations. lia.
  - split; [discriminate | intros Hlt].
    clear Hs. Z.div_mod_to_equations. lia.
Qed.

(** C2 (what the code does).  The freshness test reads the [seconds]
    attribute of the age, which starts again from 0 every day: an entry
    whose age is a whole number of days plus less than the timeout is
    returned from the cache, with no adapter or generator call, although
    it is older than the timeout. *)
Theorem C2_day_old_entry_reused
    (symbol period interval : string) (now fetched days r : Z)
    (data : frame) (st : state) :
  _cache st !! cache_key symbol period interval = Some (fetched, data) ->
  0 < cache_timeout st <= 86400 ->
  1 <= days ->
  0 <= r < cache_timeout st * 1000000 ->
  now - fetched = days * (86400 * 1000000) + r ->
  cache_timeout st * 1000000 <= now - fetched
  /\ get_symbol_data symbol period interval now st = (st, Some data).
Proof.
  intros Hin Hto Hdays Hr Hage.
  split; [nia |].
  unfold get_symbol_data, cache_hit. rewrite Hin, Hage.
  rewrite seconds_of_late_age by nia.
  assert (Hfresh : (r / 1000000 <? cache_timeout st) = true).
  { apply Z.ltb_lt. apply Z.div_lt_upper_bound; lia. }
  rewrite Hfresh. reflexivity.
Qed.

(** A frame stored by [finish] answers every query for its key made
    less than the timeout later (the timeout being at most a day): the
    same frame comes back and nothing is called. *)
Lemma second_call_within_timeout
    (symbol period interval : string) (now later : Z) (st : state)
    (data : frame) :
  0 < cache_timeout st <= 86400 ->
  0 <= later - now < cache_timeout st * 1000000 ->
  let first := finish (cache_key symbol period interval) now st data in
  get_symbol_data symbol period interval later (fst first)
  = (fst first, snd first).
Proof.
  intros Hto Hage first.
  assert (Hin : _cache (fst first) !! cache_key symbol period interval
                = Some (now, if ta_available st
                             then _add_technical_indicators st data
                             else data)).
  { unfold first, finish. simpl. apply lookup_insert_eq. }
  assert (Hday : 0 <= later - now < 86400 * 1000000) by nia.
  pose proof (cache_hit_first_day _ later now _ (fst first) Hin Hday)
    as [_ Hhit].
  unfold get_symbol_data. rewrite Hhit; [reflexivity |].
  unfold first, finish. simpl. lia.
Qed.

Lemma generator_state (symbol : string) (now : Z) (st : state) :
  exists s, fst (_get_dynamic_default_data symbol now st)
            = record_call (with_rng st s) (GeneratorCall symbol).
Proof.
  unfold _get_dynamic_default_data.
  destruct (normal_draws _ _ _ _) as [returns s1].
  destruct (synthetic_rows _ _ _ _) as [data s2].
  exists s2. reflexivity.
Qed.

(** With no healthy source nothing is stored, so a second query, however
    soon, runs the generator again. *)
Lemma no_healthy_source_second_call
    (symbol period interval : string) (now later : Z) (st : state) :
  _cache st !! cache_key symbol period interval = None ->
  working_sources st = [] ->
  trace (fst (get_symbol_data symbol period interval later
                (fst (get_symbol_data symbol period interval now st))))
  = trace st ++ [GeneratorCall symbol; GeneratorCall symbol].
Proof.
  intros Hnone Hsrc.
  assert (Hmiss : forall t st', _cache st' = _cache st ->
            cache_hit (cache_key symbol period interval) t st' = None).
  { intros t st' E. unfold cache_hit. rewrite E, Hnone. reflexivity. }
  assert (E1 : get_symbol_data symbol period interval now st
               = _get_dynamic_default_data symbol now st).
  { unfold get_symbol_data. rewrite (Hmiss now st eq_refl), Hsrc.
    reflexivity. }
  rewrite E1.
  destruct (generator_state symbol now st) as (s & ->).
  set (st1 := record_call (with_rng st s) (GeneratorCall symbol)).
  assert (E2 : get_symbol_data symbol period interval later st1
               = _get_dynamic_default_data symbol later st1).
  { unfold get_symbol_data. rewrite (Hmiss later st1 eq_refl).
    change (working_sources st1) with (working_sources st).
    rewrite Hsrc. reflexivity. }
  rewrite E2.
  destruct (generator_returns symbol later st1) as (_ & _ & _ & _ & ->).
  subst st1. simpl. rewrite <- List.app_assoc. reflexivity.
Qed.

End ProviderFacts.

Lemma C1_no_healthy_source_returns_early_witness :
  Provider.cache_hit (Provider.cache_key "EURUSD" "1mo" "1h") 1000
                     Demo.offline = None
  /\ Provider.working_sources Demo.offline = []
  /\ Provider.ta_available Demo.offline = true
  /\ Provider._cache
       (fst (Provider.get_symbol_data "EURUSD" "1mo" "1h" 1000 Demo.offline))
     = ∅
  /\ exists data,
       snd (Provider.get_symbol_data "EURUSD" "1mo" "1h" 1000 Demo.offline)
       = Some data
       /\ derived data = [].
Proof.
  assert (Hmiss : Provider.cache_hit (Provider.cache_key "EURUSD" "1mo" "1h")
                                     1000 Demo.offline = None)
    by reflexivity.
  assert (Hnone : Provider.working_sources Demo.offline = [])
    by (vm_compute; reflexivity).
  destruct (C1_no_healthy_source_returns_early
              "EURUSD" "1mo" "1h" 1000 Demo.offline Hmiss Hnone)
    as (_ & Hcache & Hdata).
  exact (conj Hmiss (conj Hnone (conj eq_refl (conj Hcache Hdata)))).
Defined.

Lemma C2_day_old_entry_reused_witness :
  Provider.cache_timeout Demo.warm * 1000000 <= 86405000000 - 0
  /\ Provider.get_symbol_data "EURUSD" "1mo" "1h" 86405000000 Demo.warm
     = (Demo.warm, Some Demo.eurusd_frame).
Proof.
  apply (C2_day_old_entry_reused "EURUSD" "1mo" "1h" 86405000000 0 1 5000000
                                 Demo.eurusd_frame Demo.warm).
  - vm_compute. reflexivity.
  - simpl. lia.
  - lia.
  - simpl. lia.
  - reflexivity.
Defined.

(** ** The relative strength index *)

Section RsiFacts.

Import Signal Analysis.

Lemma rolling_nth {T : Type} (w : nat) (agg : list T -> fnum)
    (xs : list T) (i : nat) :
  (i < List.length xs)%nat ->
  List.nth_error (rolling w agg xs) i
  = Some (match window_at w i xs with
          | Some win => agg win
          | None => NaN
          end).
Proof.
  intros Hi. unfold rolling.
  rewrite List.nth_error_map, List.nth_error_seq.
  apply Nat.ltb_lt in Hi. rewrite Hi. reflexivity.
Qed.

Lemma In_firstn {T : Type} (n : nat) (l : list T) (x : T) :
  List.In x (List.firstn n l) -> List.In x l.
Proof.
  intros H. rewrite <- (List.firstn_skipn n l).
  apply List.in_or_app. left. exact H.
Qed.

Lemma In_skipn {T : Type} (n : nat) (l : list T) (x : T) :
  List.In x (List.skipn n l) -> List.In x l.
Proof.
  intros H. rewrite <- (List.firstn_skipn n l).
  apply List.in_or_app. right. exact H.
Qed.

Lemma window_full {T : Type} (w i : nat) (xs : list T) :
  (w <= i + 1)%nat -> (i < List.length xs)%nat ->
  exists win, window_at w i xs = Some win
              /\ List.length win = w
              /\ forall x, List.In x win -> List.In x xs.
Proof.
  intros Hw Hi. unfold window_at.
  apply Nat.leb_le in Hw as Hw'. apply Nat.ltb_lt in Hi as Hi'.
  rewrite Hw', Hi'. simpl.
  eexists. split; [reflexivity |]. split.
  - rewrite List.length_firstn, List.length_skipn. lia.
  - intros x Hx. apply In_firstn in Hx.
    apply In_skipn in Hx. exact Hx.
Qed.

Lemma window_short {T : Type} (w i : nat) (xs : list T) :
  (i + 1 < w)%nat -> window_at w i xs = None.
Proof.
  intros H. unfold window_at.
  assert (E : (w <=? i + 1)%nat = false) by (apply Nat.leb_gt; lia).
  rewrite E. reflexivity.
Qed.

Lemma gain_of_nonneg (d : option Q) : (0 <= gain_of d)%Q.
Proof.
  destruct d as [x |]; simpl; [| apply Qle_refl].
  destruct (Qltb 0 x) eqn:E; [| apply Qle_refl].
  apply Qltb_lt in E. apply Qlt_le_weak. exact E.
Qed.

Lemma loss_of_nonneg (d : option Q) : (0 <= loss_of d)%Q.
Proof.
  unfold loss_of. destruct d as [x |]; [| discriminate].
  destruct (Qltb x 0) eqn:E; [| discriminate].
  apply Qltb_lt in E. lra.
Qed.

Lemma Qsum_nonneg (xs : list Q) :
  (forall x, List.In x xs -> (0 <= x)%Q) -> (0 <= Qsum xs)%Q.
Proof.
  induction xs as [| x xs IH]; intros H; simpl; [apply Qle_refl |].
  assert (0 <= x)%Q by (apply H; left; reflexivity).
  assert (0 <= Qsum xs)%Q by (apply IH; intros y Hy; apply H; right; exact Hy).
  lra.
Qed.

Lemma np_mean_nonneg (xs : list Q) :
  xs <> [] ->
  (forall x, List.In x xs -> (0 <= x)%Q) ->
  exists m, np_mean xs = Fin m /\ (0 <= m)%Q.
Proof.
  intros Hne Hpos. destruct xs as [| x rest]; [congruence |].
  eexists. split; [reflexivity |].
  apply Qle_shift_div_l.
  - unfold Qlt. simpl. lia.
  - rewrite Qmult_0_l. apply Qsum_nonneg. exact Hpos.
Qed.

(** The rolling mean of a series of non-negative numbers, once the
    window is full. *)
Lemma rolling_mean_nonneg (w i : nat) (xs : list Q) :
  (0 < w <= i + 1)%nat -> (i < List.length xs)%nat ->
  (forall x, List.In x xs -> (0 <= x)%Q) ->
  exists m, List.nth_error (rolling w np_mean xs) i = Some (Fin m)
            /\ (0 <= m)%Q.
Proof.
  intros [Hw0 Hw] Hi Hpos.
  rewrite rolling_nth by exact Hi.
  destruct (window_full w i xs Hw Hi) as (win & -> & Hlen & Hin).
  destruct (np_mean_nonneg win) as (m & -> & Hm).
  - intros ->. simpl in Hlen. lia.
  - intros x Hx. apply Hpos, Hin, Hx.
  - exists m. split; [reflexivity | exact Hm].
Qed.

Lemma nth_error_combine {S T : Type} (l1 : list S) (l2 : list T)
    (i : nat) (a : S) (b : T) :
  List.nth_error l1 i = Some a -> List.nth_error l2 i = Some b ->
  List.nth_error (List.combine l1 l2) i = Some (a, b).
Proof.
  revert l2 i. induction l1 as [| x l1 IH]; intros l2 i H1 H2.
  - destruct i; discriminate.
  - destruct l2 as [| y l2]; [destruct i; discriminate |].
    destruct i as [| i]; simpl in *.
    + congruence.
    + apply IH; assumption.
Qed.

Lemma length_diff (prices : list Q) :
  List.length (diff prices) = List.length prices.
Proof.
  destruct prices as [| p rest]; [reflexivity |].
  unfold diff. cbn [List.length].
  rewrite List.length_map, List.length_combine. cbn [List.length]. lia.
Qed.

(** RSI from a mean gain and a mean loss. *)
Lemma rsi_of_means (g l : Q) :
  (0 <= g)%Q -> (0 <= l)%Q ->
  ((0 < l)%Q ->
     exists v, rsi_of_rs (fdiv (Fin g) (Fin l)) = Fin v
               /\ (0 <= v)%Q /\ (v <= 100)%Q)
  /\ ((l == 0)%Q -> (0 < g)%Q ->
      exists v, rsi_of_rs (fdiv (Fin g) (Fin l)) = Fin v /\ (v == 100)%Q)
  /\ ((l == 0)%Q -> (g == 0)%Q -> rsi_of_rs (fdiv (Fin g) (Fin l)) = NaN).
Proof.
  intros Hg Hl. split; [| split].
  - intros Hpos. unfold rsi_of_rs, fdiv.
    assert (E0 : Qeq_bool l 0 = false).
    { apply Qeq_bool_false. intros E. rewrite E in Hpos.
      exact (Qlt_irrefl _ Hpos). }
    rewrite E0. unfold of_Z. simpl.
    assert (Hrs : (0 <= g / l)%Q).
    { apply Qle_shift_div_l; [exact Hpos | lra]. }
    assert (Hd : (0 < inject_Z 1 + g / l)%Q).
    { change (inject_Z 1) with 1%Q. lra. }
    assert (E1 : Qeq_bool (inject_Z 1 + g / l) 0 = false).
    { apply Qeq_bool_false. intros E. rewrite E in Hd.
      exact (Qlt_irrefl _ Hd). }
    rewrite E1. eexists. split; [reflexivity |].
    assert (Hq0 : (0 <= inject_Z 100 / (inject_Z 1 + g / l))%Q).
    { apply Qle_shift_div_l; [exact Hd |]. rewrite Qmult_0_l. discriminate. }
    assert (Hq1 : (inject_Z 100 / (inject_Z 1 + g / l) <= 100)%Q).
    { apply Qle_shift_div_r; [exact Hd |].
      change (inject_Z 100) with 100%Q. change (inject_Z 1) with 1%Q. lra. }
    change (inject_Z 100) with 100%Q in *. split; lra.
  - intros Hz Hpos. unfold rsi_of_rs, fdiv.
    assert (E0 : Qeq_bool l 0 = true) by (apply Qeq_bool_iff; exact Hz).
    assert (E1 : Qeq_bool g 0 = false).
    { apply Qeq_bool_false. intros E. rewrite E in Hpos.
      exact (Qlt_irrefl _ Hpos). }
    assert (E2 : Qltb 0 g = true) by (apply Qltb_lt; exact Hpos).
    rewrite E0, E1, E2. simpl.
    eexists. split; [reflexivity |]. reflexivity.
  - intros Hz Hgz. unfold rsi_of_rs, fdiv.
    assert (E0 : Qeq_bool l 0 = true) by (apply Qeq_bool_iff; exact Hz).
    assert (E1 : Qeq_bool g 0 = true) by (apply Qeq_bool_iff; exact Hgz).
    rewrite E0, E1. reflexivity.
Qed.

Lemma rsi_nth (prices : list Q) (i : nat) (g l : fnum) :
  List.nth_error (rolling 14 np_mean (List.map gain_of (diff prices))) i
  = Some g ->
  List.nth_error (rolling 14 np_mean (List.map loss_of (diff prices))) i
  = Some l ->
  List.nth_error (_calculate_rsi prices 14) i
  = Some (rsi_of_rs (fdiv g l)).
Proof.
  intros Hg Hl. unfold _calculate_rsi.
  rewrite !List.nth_error_map.
  rewrite (nth_error_combine _ _ i g l Hg Hl). reflexivity.
Qed.

(** Before the window is full the index is NaN. *)
Lemma rsi_warm_up (prices : list Q) (i : nat) :
  (i < 13)%nat -> (i < List.length prices)%nat ->
  List.nth_error (_calculate_rsi prices 14) i = Some NaN.
Proof.
  intros Hi Hlen.
  rewrite (rsi_nth prices i NaN NaN).
  - reflexivity.
  - rewrite rolling_nth
      by (rewrite List.length_map, length_diff; exact Hlen).
    rewrite window_short by lia. reflexivity.
  - rewrite rolling_nth
      by (rewrite List.length_map, length_diff; exact Hlen).
    rewrite window_short by lia. reflexivity.
Qed.

(** C5 (as amended).  At every position of [_calculate_rsi] whose
    14-value window is full, the mean gain and the mean loss are
    non-negative numbers, and the index is a number in [0, 100] when the
    mean loss is positive, 100 when the mean loss is 0 and the mean gain
    is positive, and NaN when both are 0. *)
Theorem C5_rsi_bounds (prices : list Q) (i : nat) :
  (13 <= i < List.length prices)%nat ->
  exists g l : Q,
    List.nth_error (rolling 14 np_mean (List.map gain_of (diff prices))) i
    = Some (Fin g)
    /\ List.nth_error (rolling 14 np_mean (List.map loss_of (diff prices))) i
       = Some (Fin l)
    /\ (0 <= g)%Q /\ (0 <= l)%Q
    /\ ((0 < l)%Q ->
        exists v, List.nth_error (_calculate_rsi prices 14) i = Some (Fin v)
                  /\ (0 <= v)%Q /\ (v <= 100)%Q)
    /\ ((l == 0)%Q -> (0 < g)%Q ->
        exists v, List.nth_error (_calculate_rsi prices 14) i = Some (Fin v)
                  /\ (v == 100)%Q)
    /\ ((l == 0)%Q -> (g == 0)%Q ->
        List.nth_error (_calculate_rsi prices 14) i = Some NaN).
Proof.
  intros [Hlo Hhi].
  destruct (rolling_mean_nonneg 14 i (List.map gain_of (diff prices)))
    as (g & Hgain & Hg).
  { lia. }
  { rewrite List.length_map, length_diff. exact Hhi. }
  { intros x Hx. apply List.in_map_iff in Hx as (d & <- & _).
    apply gain_of_nonneg. }
  destruct (rolling_mean_nonneg 14 i (List.map loss_of (diff prices)))
    as (l & Hloss & Hl).
  { lia. }
  { rewrite List.length_map, length_diff. exact Hhi. }
  { intros x Hx. apply List.in_map_iff in Hx as (d & <- & _).
    apply loss_of_nonneg. }
  exists g, l.
  rewrite (rsi_nth prices i (Fin g) (Fin l) Hgain Hloss).
  destruct (rsi_of_means g l Hg Hl) as (Hpos & Hinf & Hnan).
  repeat split; try assumption.
  - intros H. destruct (Hpos H) as (v & -> & Hv). exists v. tauto.
  - intros H1 H2. destruct (Hinf H1 H2) as (v & -> & Hv). exists v. tauto.
  - intros H1 H2. rewrite (Hnan H1 H2). reflexivity.
Qed.

End RsiFacts.

Lemma C5_rsi_bounds_witness :
  (13 <= 14 < List.length Demo.zigzag)%nat
  /\ (exists v, List.nth_error (Analysis._calculate_rsi Demo.zigzag 14) 14
                = Some (Fin v)
                /\ (0 <= v)%Q /\ (v <= 100)%Q)
  /\ (13 <= 14 < List.length Demo.rising)%nat
  /\ (exists v, List.nth_error (Analysis._calculate_rsi Demo.rising 14) 14
                = Some (Fin v)
                /\ (v == 100)%Q)
  /\ (13 <= 14 < List.length Demo.flat)%nat
  /\ List.nth_error (Analysis._calculate_rsi Demo.flat 14) 14 = Some NaN.
Proof.
  assert (Hz : (13 <= 14 < List.length Demo.zigzag)%nat)
    by (vm_compute; lia).
  assert (Hr : (13 <= 14 < List.length Demo.rising)%nat)
    by (vm_compute; lia).
  assert (Hf : (13 <= 14 < List.length Demo.flat)%nat)
    by (vm_compute; lia).
  refine (conj Hz (conj _ (conj Hr (conj _ (conj Hf _))))).
  - destruct (C5_rsi_bounds Demo.zigzag 14 Hz)
      as (g & l & _ & Hloss & _ & _ & Hbound & _ & _).
    apply Hbound.
    vm_compute in Hloss. injection Hloss as <-. reflexivity.
  - destruct (C5_rsi_bounds Demo.rising 14 Hr)
      as (g & l & Hgain & Hloss & _ & _ & _ & Hfull & _).
    vm_compute in Hgain. injection Hgain as <-.
    vm_compute in Hloss. injection Hloss as <-.
    apply Hfull; reflexivity.
  - destruct (C5_rsi_bounds Demo.flat 14 Hf)
      as (g & l & Hgain & Hloss & _ & _ & _ & _ & Hnan).
    vm_compute in Hgain. injection Hgain as <-.
    vm_compute in Hloss. injection Hloss as <-.
    apply Hnan; reflexivity.
Defined.

(** C5, as first stated, fails on a window without movement: the mean
    gain and the mean loss are both 0, the ratio is 0/0, and the index
    is NaN, neither 100 nor any number in [0, 100]. *)
Lemma C5_flat_series_counterexample :
  (13 <= 14 < List.length Demo.flat)%nat
  /\ (exists l, List.nth_error
                  (Analysis.rolling 14 Signal.np_mean
                     (List.map Analysis.loss_of (Analysis.diff Demo.flat))) 14
                = Some (Fin l) /\ (l == 0)%Q)
  /\ List.nth_error (Analysis._calculate_rsi Demo.flat 14) 14 = Some NaN
  /\ ~ (exists v, List.nth_error (Analysis._calculate_rsi Demo.flat 14) 14
                  = Some (Fin v)
                  /\ (0 <= v)%Q /\ (v <= 100)%Q).
Proof.
  split; [vm_compute; lia |].
  split; [eexists; split; [vm_compute; reflexivity | reflexivity] |].
  split; [vm_compute; reflexivity |].
  intros (v & Hv & _). vm_compute in Hv. discriminate.
Qed.

(** ** Cleaning keeps a series well formed *)

Section CleanFacts.

(** *** The sort behind [quantile] *)

Lemma insert_sorted_In (x y : Q) (l : list Q) :
  List.In y (insert_sorted x l) <-> y = x \/ List.In y l.
Proof.
  induction l as [| z l IH]; simpl.
  - intuition.
  - destruct (Qle_bool x z); simpl; [intuition |].
    rewrite IH. intuition.
Qed.

Lemma sort_In (y : Q) (l : list Q) : List.In y (sort l) <-> List.In y l.
Proof.
  induction l as [| x l IH]; simpl; [reflexivity |].
  rewrite insert_sorted_In, IH. intuition.
Qed.

Lemma length_insert_sorted (x : Q) (l : list Q) :
  List.length (insert_sorted x l) = S (List.length l).
Proof.
  induction l as [| z l IH]; simpl; [reflexivity |].
  destruct (Qle_bool x z); simpl; [reflexivity | rewrite IH; reflexivity].
Qed.

Lemma length_sort (l : list Q) : List.length (sort l) = List.length l.
Proof.
  induction l as [| x l IH]; simpl; [reflexivity |].
  rewrite length_insert_sorted, IH. reflexivity.
Qed.

Lemma insert_sorted_sorted (x : Q) (l : list Q) :
  StronglySorted Qle l -> StronglySorted Qle (insert_sorted x l).
Proof.
  induction l as [| z l IH]; intros Hs; simpl.
  - constructor; constructor.
  - apply StronglySorted_inv in Hs as [Hl Hz].
    destruct (Qle_bool x z) eqn:E.
    + apply Qle_bool_iff in E.
      constructor; [constructor; assumption |].
      constructor; [exact E |].
      rewrite List.Forall_forall in *. intros u Hu.
      apply Qle_trans with z; [exact E | apply Hz; exact Hu].
    + constructor; [apply IH; exact Hl |].
      rewrite List.Forall_forall in *. intros u Hu.
      apply insert_sorted_In in Hu as [-> | Hu]; [| apply Hz; exact Hu].
      destruct (Qlt_le_dec z x) as [Hlt | Hle].
      * apply Qlt_le_weak. exact Hlt.
      * apply Qle_bool_iff in Hle. congruence.
Qed.

Lemma sort_sorted (l : list Q) : StronglySorted Qle (sort l).
Proof.
  induction l as [| x l IH]; simpl; [constructor |].
  apply insert_sorted_sorted. exact IH.
Qed.

Lemma sorted_nth_le (s : list Q) (d : Q) :
  StronglySorted Qle s ->
  forall i j, (i <= j)%nat -> (j < List.length s)%nat ->
              (List.nth i s d <= List.nth j s d)%Q.
Proof.
  induction 1 as [| a s Hs IH Ha]; intros i j Hij Hj; simpl in Hj.
  - lia.
  - destruct j as [| j].
    + assert (i = 0)%nat as -> by lia. apply Qle_refl.
    + destruct i as [| i]; simpl.
      * rewrite List.Forall_forall in Ha. apply Ha.
        apply List.nth_In. lia.
      * apply IH; lia.
Qed.

(** *** Linear interpolation and the two quantiles *)

Lemma lerp_between (a b t : Q) :
  (a <= b)%Q -> (0 <= t)%Q -> (t <= 1)%Q ->
  (a <= a + (b - a) * t)%Q /\ (a + (b - a) * t <= b)%Q.
Proof.
  intros Hab Ht0 Ht1.
  assert (H0 : (0 <= (b - a) * t)%Q).
  { apply Qmult_le_0_compat; lra. }
  assert (H1 : (0 <= (b - a) * (1 - t))%Q).
  { apply Qmult_le_0_compat; lra. }
  split; [lra |].
  assert (E : ((b - a) * (1 - t) == (b - a) - (b - a) * t)%Q) by ring.
  rewrite E in H1. lra.
Qed.

Lemma Qfloor_scaled (m : Z) (p : Z) (q : positive) :
  Qfloor (inject_Z m * (p # q)) = (m * p) / Z.pos q.
Proof. reflexivity. Qed.

(** A quantile lies between the sorted values around its position. *)
Lemma quantile_between (p : Z) (q : positive) (xs : list Q) :
  let n := Z.of_nat (List.length xs) in
  let lo := (n - 1) * p / Z.pos q in
  let hi := Z.min (lo + 1) (n - 1) in
  0 <= lo -> lo <= hi -> hi < n ->
  (List.nth (Z.to_nat lo) (sort xs) 0 <= quantile (p # q) xs)%Q
  /\ (quantile (p # q) xs <= List.nth (Z.to_nat hi) (sort xs) 0)%Q.
Proof.
  intros n lo hi Hlo Hhi0 Hhi.
  unfold quantile. fold n. rewrite Qfloor_scaled. fold lo. fold hi.
  set (pos := (inject_Z (n - 1) * (p # q))%Q).
  assert (Hfl : Qfloor pos = lo) by reflexivity.
  pose proof (Qfloor_le pos) as H1.
  pose proof (Qlt_floor pos) as H2.
  rewrite Hfl in H1, H2. rewrite inject_Z_plus in H2.
  change (inject_Z 1) with 1%Q in H2.
  apply lerp_between; [| lra | lra].
  apply sorted_nth_le; [apply sort_sorted | lia |].
  rewrite length_sort. lia.
Qed.

(** With more than ten values, some value lies between the 5% and the
    95% quantile. *)
Lemma value_between_quantiles (xs : list Q) :
  (10 < List.length xs)%nat ->
  exists x, List.In x xs
            /\ (quantile (5 # 100) xs <= x)%Q
            /\ (x <= quantile (95 # 100) xs)%Q.
Proof.
  intros Hn.
  set (n := Z.of_nat (List.length xs)).
  assert (Hn' : 10 < n) by (subst n; lia).
  set (lo1 := (n - 1) * 5 / 100).
  set (hi1 := Z.min (lo1 + 1) (n - 1)).
  set (lo3 := (n - 1) * 95 / 100).
  set (hi3 := Z.min (lo3 + 1) (n - 1)).
  assert (Hidx : 0 <= lo1 /\ lo1 <= hi1 /\ hi1 < n /\ hi1 <= lo3
                 /\ lo3 <= hi3 /\ hi3 < n).
  { subst lo1 hi1 lo3 hi3. Z.div_mod_to_equations. lia. }
  destruct Hidx as (H1 & H2 & H3 & H4 & H5 & H6).
  pose proof (quantile_between 5 100 xs) as Hq1. cbv zeta in Hq1.
  fold n in Hq1. fold lo1 in Hq1. fold hi1 in Hq1.
  specialize (Hq1 H1 H2 H3). destruct Hq1 as [_ Hq1].
  pose proof (quantile_between 95 100 xs) as Hq3. cbv zeta in Hq3.
  fold n in Hq3. fold lo3 in Hq3. fold hi3 in Hq3.
  specialize (Hq3 ltac:(lia) H5 H6). destruct Hq3 as [Hq3 _].
  exists (List.nth (Z.to_nat hi1) (sort xs) 0%Q).
  split; [| split].
  - apply sort_In. apply List.nth_In. rewrite length_sort. lia.
  - exact Hq1.
  - eapply Qle_trans; [| exact Hq3].
    apply sorted_nth_le; [apply sort_sorted | lia |].
    rewrite length_sort. lia.
Qed.

(** *** The outlier loop *)

Lemma clip_outliers_sub (data : list candle) (col : field) (r : candle) :
  List.In r (clip_outliers data col) -> List.In r data.
Proof.
  unfold clip_outliers. destruct (10 <? List.length data)%nat; [| auto].
  intros H. apply List.filter_In in H. tauto.
Qed.

Lemma clip_outliers_nonempty (data : list candle) (col : field) :
  data <> [] -> clip_outliers data col <> [].
Proof.
  intros Hne. unfold clip_outliers.
  destruct (10 <? List.length data)%nat eqn:Elen; [| exact Hne].
  apply Nat.ltb_lt in Elen.
  destruct (value_between_quantiles (List.map (get col) data))
    as (x & Hin & Hq1 & Hq3).
  { rewrite List.length_map. exact Elen. }
  apply List.in_map_iff in Hin as (r & <- & Hr).
  set (Q1 := quantile (5 # 100) (List.map (get col) data)) in *.
  set (Q3 := quantile (95 # 100) (List.map (get col) data)) in *.
  intros Hnil.
  assert (Hkept : List.In r
            (List.filter
               (fun r0 => Qle_bool (Q1 - 3 * (Q3 - Q1)) (get col r0)
                          && Qle_bool (get col r0) (Q3 + 3 * (Q3 - Q1)))
               data)).
  { apply List.filter_In. split; [exact Hr |].
    apply andb_true_iff. split; apply Qle_bool_iff; lra. }
  rewrite Hnil in Hkept. exact Hkept.
Qed.

Lemma outlier_loop_sub (cols : list field) (data : list candle)
    (r : candle) :
  List.In r (List.fold_left clip_outliers cols data) -> List.In r data.
Proof.
  revert data. induction cols as [| c cols IH]; intros data H; simpl in H.
  - exact H.
  - apply IH in H. exact (clip_outliers_sub _ _ _ H).
Qed.

Lemma outlier_loop_nonempty (cols : list field) (data : list candle) :
  data <> [] -> List.fold_left clip_outliers cols data <> [].
Proof.
  revert data. induction cols as [| c cols IH]; intros data H; simpl.
  - exact H.
  - apply IH. apply clip_outliers_nonempty. exact H.
Qed.

(** Every row of a cleaned frame is a complete row of the raw frame. *)
Lemma clean_data_rows (df : raw_frame) (r : candle) :
  List.In r (rows (_clean_data df)) ->
  exists raw, List.In raw (raw_rows df) /\ complete raw = Some r.
Proof.
  unfold _clean_data.
  destruct (raw_empty df); [intros [] |].
  destruct (negb _); [intros [] |].
  cbn [rows]. intros H. apply outlier_loop_sub in H.
  unfold dropna in H. apply List.in_flat_map in H as (raw & Hraw & Hr).
  exists raw. split; [exact Hraw |].
  destruct (complete raw) as [c |]; simpl in Hr; [| contradiction].
  destruct Hr as [-> | []]. reflexivity.
Qed.

End CleanFacts.

(** ** The synthetic fallback is a well-formed series *)

Section FallbackFacts.

Context `{A : Ambient}.

Import Provider.

Lemma py_max_l (a b : Q) : (a <= py_max a b)%Q.
Proof.
  unfold py_max. destruct (Qltb a b) eqn:E; [| apply Qle_refl].
  apply Qltb_lt in E. apply Qlt_le_weak. exact E.
Qed.

Lemma py_max_r (a b : Q) : (b <= py_max a b)%Q.
Proof.
  unfold py_max. destruct (Qltb a b) eqn:E; [apply Qle_refl |].
  apply Qltb_ge in E. exact E.
Qed.

Lemma py_min_l (a b : Q) : (py_min a b <= a)%Q.
Proof.
  unfold py_min. destruct (Qltb b a) eqn:E; [| apply Qle_refl].
  apply Qltb_lt in E. apply Qlt_le_weak. exact E.
Qed.

Lemma py_min_r (a b : Q) : (py_min a b <= b)%Q.
Proof.
  unfold py_min. destruct (Qltb b a) eqn:E; [apply Qle_refl |].
  apply Qltb_ge in E. exact E.
Qed.

Lemma synthetic_row_well_formed (i : nat) (date : Z) (price : Q)
    (s : rng_state) :
  well_formed_row (fst (synthetic_row i date price s)).
Proof.
  unfold synthetic_row.
  destruct (np_normal 0 _ s) as [n1 s1].
  destruct (np_normal 0 _ s1) as [n2 s2].
  destruct (np_normal 0 _ s2) as [n3 s3].
  destruct (np_random s3) as [u s4].
  eexists. split; [reflexivity |].
  unfold ohlc_ordered. simpl. split.
  - apply Q.min_glb.
    + eapply Qle_trans; [apply py_min_l |]. apply py_min_l.
    + eapply Qle_trans; [apply py_min_l |]. apply py_min_r.
  - apply Q.max_lub.
    + eapply Qle_trans; [| apply py_max_l]. apply py_max_l.
    + eapply Qle_trans; [| apply py_max_l]. apply py_max_r.
Qed.

Lemma synthetic_rows_well_formed (prices : list Q) (i : nat) (now : Z)
    (s : rng_state) :
  List.length (fst (synthetic_rows i now prices s)) = List.length prices
  /\ List.Forall well_formed_row (fst (synthetic_rows i now prices s)).
Proof.
  revert i s. induction prices as [| price rest IH]; intros i s; simpl.
  - split; [reflexivity | constructor].
  - pose proof (synthetic_row_well_formed
                  i (now - (499 - Z.of_nat i) * hour) price s) as Hrow.
    destruct (synthetic_row i _ price s) as [row s1].
    destruct (IH (S i) s1) as [Hlen Hall].
    destruct (synthetic_rows (S i) now rest s1) as [more s2].
    simpl in *. split; [congruence |].
    constructor; assumption.
Qed.

Lemma length_normal_draws (n : nat) (mu sigma : Q) (s : rng_state) :
  List.length (fst (normal_draws n mu sigma s)) = n.
Proof.
  revert s. induction n as [| n IH]; intros s; simpl; [reflexivity |].
  destruct (np_normal mu sigma s) as [x s1].
  specialize (IH s1).
  destruct (normal_draws n mu sigma s1) as [xs s2].
  simpl in *. congruence.
Qed.

Lemma length_cumprod (acc : Q) (xs : list Q) :
  List.length (cumprod acc xs) = List.length xs.
Proof.
  revert acc. induction xs as [| x xs IH]; intros acc; simpl;
    [reflexivity | rewrite IH; reflexivity].
Qed.

Lemma length_dropna (rs : list raw_row) :
  List.Forall well_formed_row rs ->
  List.length (dropna rs) = List.length rs.
Proof.
  induction 1 as [| r rs (c & Hc & _) _ IH]; [reflexivity |].
  unfold dropna in *. simpl. rewrite Hc. simpl. rewrite IH. reflexivity.
Qed.

(** Cleaning a frame of well-formed rows with the five price and volume
    columns leaves a non-empty frame of ordered candles. *)
Lemma clean_well_formed (rs : list raw_row) :
  rs <> [] ->
  List.Forall well_formed_row rs ->
  let df := {| raw_columns := ["Open"; "High"; "Low"; "Close"; "Volume"]%string;
               raw_rows := rs |} in
  rows (_clean_data df) <> []
  /\ List.Forall ohlc_ordered (rows (_clean_data df)).
Proof.
  intros Hne Hall df. split.
  - unfold _clean_data.
    assert (E : raw_empty df = false).
    { unfold raw_empty, df. simpl. destruct rs; [congruence | reflexivity]. }
    rewrite E.
    assert (Ecols : negb (forallb (fun col => has_label (field_name col)
                                                        (raw_columns df))
                                  required_columns) = false)
      by reflexivity.
    rewrite Ecols. cbn [rows].
    apply outlier_loop_nonempty.
    intros Hnil. apply (f_equal (@List.length candle)) in Hnil.
    change (raw_rows df) with rs in Hnil.
    rewrite (length_dropna rs Hall) in Hnil.
    destruct rs; [congruence | discriminate].
  - apply List.Forall_forall. intros r Hr.
    apply clean_data_rows in Hr as (raw & Hraw & Hcomplete).
    rewrite List.Forall_forall in Hall.
    destruct (Hall raw Hraw) as (c & Hc & Hordered).
    congruence.
Qed.

Lemma generator_well_formed (symbol : string) (now : Z) (st : state) :
  exists data,
    snd (_get_dynamic_default_data symbol now st) = Some data
    /\ rows data <> []
    /\ List.Forall ohlc_ordered (rows data).
Proof.
  unfold _get_dynamic_default_data.
  pose proof (length_normal_draws 500 (1 # 10000) (5 # 1000)
                (np_seed (py_hash symbol mod 10000))) as Hlen.
  destruct (normal_draws 500 _ _ _) as [returns s1]. simpl in Hlen.
  set (prices := List.map _ (cumprod 1 _)).
  assert (Hprices : List.length prices = 500%nat).
  { subst prices.
    rewrite List.length_map, length_cumprod, List.length_map. exact Hlen. }
  destruct (synthetic_rows_well_formed prices 0 now s1) as [Hrows Hall].
  destruct (synthetic_rows 0 now prices s1) as [data s2].
  simpl in Hrows, Hall. cbn [snd].
  eexists. split; [reflexivity |].
  apply clean_well_formed; [| exact Hall].
  intros ->. simpl in Hrows. lia.
Qed.

Lemma add_indicators_rows (st : state) (data : frame) :
  rows (_add_technical_indicators st data) = rows data.
Proof.
  unfold _add_technical_indicators.
  destruct (Frame.empty data || negb (ta_available st)); reflexivity.
Qed.

Lemma finish_rows (key : string) (now : Z) (st : state) (data : frame) :
  exists data',
    snd (finish key now st data) = Some data' /\ rows data' = rows data.
Proof.
  unfold finish. eexists. split; [reflexivity |].
  destruct (ta_available st); [apply add_indicators_rows | reflexivity].
Qed.

(** C4.  When no fresh cache entry answers the query and every healthy
    source fails (or no source is healthy), [get_symbol_data] returns a
    frame, the frame has at least one row, and every row has its low at
    or below the smaller of open and close and its high at or above the
    larger. *)
Theorem C4_fallback_series_well_formed
    (symbol period interval : string) (now : Z) (st : state) :
  cache_hit (cache_key symbol period interval) now st = None ->
  snd (try_sources (working_sources st) symbol period interval now st)
  = None ->
  exists data,
    snd (get_symbol_data symbol period interval now st) = Some data
    /\ rows data <> []
    /\ List.Forall ohlc_ordered (rows data).
Proof.
  intros Hmiss Hfail. unfold get_symbol_data. rewrite Hmiss.
  destruct (working_sources st) as [| source rest].
  - apply generator_well_formed.
  - destruct (try_sources (source :: rest) symbol period interval now st)
      as [st1 r].
    simpl in Hfail. subst r.
    destruct (generator_well_formed symbol now st1)
      as (data & Hdata & Hne & Hall).
    destruct (_get_dynamic_default_data symbol now st1) as [st2 r2].
    simpl in Hdata. subst r2.
    destruct (finish_rows (cache_key symbol period interval) now st2 data)
      as (data' & Hfin & Hrows).
    exists data'. rewrite Hrows. repeat split; assumption.
Qed.

End FallbackFacts.

Lemma C4_fallback_series_well_formed_witness :
  Provider.cache_hit (Provider.cache_key "GBPUSD" "1mo" "1h") 1000
                     Demo.online = None
  /\ snd (Provider.try_sources (Provider.working_sources Demo.online)
                               "GBPUSD" "1mo" "1h" 1000 Demo.online) = None
  /\ exists data,
       snd (Provider.get_symbol_data "GBPUSD" "1mo" "1h" 1000 Demo.online)
       = Some data
       /\ rows data <> []
       /\ List.Forall ohlc_ordered (rows data).
Proof.
  assert (Hmiss : Provider.cache_hit (Provider.cache_key "GBPUSD" "1mo" "1h")
                                     1000 Demo.online = None)
    by reflexivity.
  assert (Hfail : snd (Provider.try_sources
                         (Provider.working_sources Demo.online)
                         "GBPUSD" "1mo" "1h" 1000 Demo.online) = None)
    by (vm_compute; reflexivity).
  exact (conj Hmiss (conj Hfail
           (C4_fallback_series_well_formed "GBPUSD" "1mo" "1h" 1000
                                           Demo.online Hmiss Hfail))).
Defined.

(** ** What a query does to the provider *)

Section QueryFacts.

Context `{A : Ambient}.

Import Provider ProviderOps.

Lemma same_settings_refl (st : state) : same_settings st st.
Proof. repeat split. Qed.

Lemma same_settings_trans (st1 st2 st3 : state) :
  same_settings st1 st2 -> same_settings st2 st3 -> same_settings st1 st3.
Proof.
  unfold same_settings. intros (a1 & a2 & a3 & a4 & a5 & a6)
                               (b1 & b2 & b3 & b4 & b5 & b6).
  repeat split; congruence.
Qed.

(** An adapter call changes the upstream service and the list of calls,
    nothing else, and a frame it returns carries no indicator. *)
Lemma call_adapter_effect (source symbol period interval : string)
    (st : state) :
  let r := call_adapter source symbol period interval st in
  same_settings st (fst r)
  /\ _cache (fst r) = _cache st
  /\ np_random_state (fst r) = np_random_state st
  /\ trace (fst r) = trace st ++ [AdapterCall source]
  /\ (forall d, snd r = Some d -> derived d = []).
Proof.
  unfold call_adapter.
  destruct (String.eqb source "mt5").
  - unfold _get_mt5_data. cbn [mt5_available record_call upstream].
    destruct (negb (mt5_available st)).
    + repeat split. discriminate.
    + destruct (mt5_copy_rates _ _ _ _) as [rates w]. cbn.
      repeat split. intros d Hd.
      destruct rates as [df |]; [| discriminate].
      destruct (raw_rows df); [discriminate |].
      injection Hd as <-. apply clean_data_no_indicators.
  - destruct (String.eqb source "twelvedata").
    + unfold _get_twelvedata_data.
      cbn [twelvedata_api_key record_call upstream].
      destruct (String.eqb (twelvedata_api_key st) "demo").
      { repeat split. discriminate. }
      destruct (dict_get symbol td_symbol_map) as [td_symbol |].
      2: { repeat split. discriminate. }
      destruct (twelvedata_time_series _ _ _ _ _) as [values w]. cbn.
      repeat split. intros d Hd.
      destruct values as [df |]; [| discriminate].
      injection Hd as <-. apply clean_data_no_indicators.
    + repeat split. discriminate.
Qed.

Lemma generator_effect (symbol : string) (now : Z) (st : state) :
  let r := _get_dynamic_default_data symbol now st in
  same_settings st (fst r)
  /\ _cache (fst r) = _cache st
  /\ upstream (fst r) = upstream st
  /\ trace (fst r) = trace st ++ [GeneratorCall symbol].
Proof.
  unfold _get_dynamic_default_data.
  destruct (normal_draws _ _ _ _) as [returns s1].
  destruct (synthetic_rows _ _ _ _) as [data s2].
  repeat split.
Qed.

Lemma add_indicators_empty (st : state) (data : frame) :
  Frame.empty (_add_technical_indicators st data) = Frame.empty data.
Proof.
  unfold _add_technical_indicators.
  destruct (Frame.empty data || negb (ta_available st)); reflexivity.
Qed.

Lemma finish_effect (key : string) (now : Z) (st : state) (data : frame) :
  finish key now st data
  = (with_cache st (<[key := (now, finished st data)]> (_cache st)),
     Some (finished st data)).
Proof. reflexivity. Qed.

Lemma finished_empty (st : state) (data : frame) :
  Frame.empty (finished st data) = Frame.empty data.
Proof.
  unfold finished. destruct (ta_available st);
    [apply add_indicators_empty | reflexivity].
Qed.

Lemma finished_rows (st : state) (data : frame) :
  rows (finished st data) = rows data.
Proof.
  unfold finished. destruct (ta_available st);
    [apply add_indicators_rows | reflexivity].
Qed.

(** The loop over the healthy sources: either it falls through, having
    only called adapters, or it stops at a source whose frame is not
    empty and finishes with that frame. *)
Lemma try_sources_effect (sources : list string)
    (symbol period interval : string) (now : Z) (st : state) :
  let r := try_sources sources symbol period interval now st in
  exists called : list string,
    trace (fst r) = trace st ++ List.map AdapterCall called
    /\ (sources <> [] -> called <> [])
    /\ same_settings st (fst r)
    /\ match snd r with
       | None => _cache (fst r) = _cache st /\ called = sources
       | Some data =>
           exists st0 d,
             same_settings st st0
             /\ _cache st0 = _cache st
             /\ trace st0 = trace (fst r)
             /\ Frame.empty d = false
             /\ r = finish (cache_key symbol period interval) now st0 d
       end.
Proof.
  revert st. induction sources as [| source rest IH]; intros st; cbn zeta.
  - exists []. simpl. rewrite List.app_nil_r.
    repeat split. intros H. congruence.
  - cbn [try_sources].
    pose proof (call_adapter_effect source symbol period interval st)
      as (Hset & Hcache & _ & Htrace & _).
    destruct (call_adapter source symbol period interval st) as [st1 data].
    cbn [fst snd] in *.
    assert (Hnext :
      let r := try_sources rest symbol period interval now st1 in
      exists called : list string,
        trace (fst r) = trace st ++ List.map AdapterCall called
        /\ (source :: rest <> [] -> called <> [])
        /\ same_settings st (fst r)
        /\ match snd r with
           | None => _cache (fst r) = _cache st /\ called = source :: rest
           | Some data =>
               exists st0 d,
                 same_settings st st0
                 /\ _cache st0 = _cache st
                 /\ trace st0 = trace (fst r)
                 /\ Frame.empty d = false
                 /\ r = finish (cache_key symbol period interval) now st0 d
           end).
    { cbn zeta. destruct (IH st1) as (called & Ht & _ & Hs & Hr).
      exists (source :: called). split.
      - rewrite Ht, Htrace. cbn [List.map].
        rewrite <- List.app_assoc. reflexivity.
      - split; [discriminate |].
        split; [exact (same_settings_trans _ _ _ Hset Hs) |].
        destruct (snd (try_sources rest symbol period interval now st1)).
        + destruct Hr as (st0 & d & H1 & H2 & H3 & H4 & H5).
          exists st0, d. split; [exact (same_settings_trans _ _ _ Hset H1) |].
          split; [congruence |]. repeat split; assumption.
        + destruct Hr as [H1 H2]. split; congruence. }
    destruct data as [d |]; [| exact Hnext].
    destruct (Frame.empty d) eqn:Eempty; cbn [negb]; [exact Hnext |].
    exists [source]. rewrite finish_effect. cbn [fst snd].
    split; [exact Htrace |].
    split; [discriminate |].
    split; [exact Hset |].
    exists st1, d. repeat split; try assumption; apply Hset.
Qed.

(** A frame fresh from cleaning with at least one row has columns too. *)
Lemma clean_data_nonempty (df : raw_frame) :
  rows (_clean_data df) <> [] -> Frame.empty (_clean_data df) = false.
Proof.
  unfold _clean_data.
  destruct (raw_empty df) eqn:E; [intros H; exfalso; apply H; reflexivity |].
  destruct (negb _); [intros H; exfalso; apply H; reflexivity |].
  cbn [rows]. intros Hrows. unfold Frame.empty. cbn [rows columns].
  destruct (List.fold_left clip_outliers required_columns
                           (dropna (raw_rows df))); [congruence |].
  unfold raw_empty in E.
  destruct (raw_rows df); [discriminate |].
  destruct (raw_columns df); [discriminate | reflexivity].
Qed.

Lemma generator_frame_nonempty (symbol : string) (now : Z) (st : state) :
  exists data,
    snd (_get_dynamic_default_data symbol now st) = Some data
    /\ Frame.empty data = false
    /\ derived data = [].
Proof.
  destruct (generator_returns symbol now st) as (data & Hd & Hi & _).
  destruct (generator_well_formed symbol now st) as (data' & Hd' & Hne & _).
  rewrite Hd in Hd'. injection Hd' as <-.
  exists data. split; [exact Hd |]. split; [| exact Hi].
  revert Hd Hne. unfold _get_dynamic_default_data.
  destruct (normal_draws _ _ _ _) as [returns s1].
  destruct (synthetic_rows _ _ _ _) as [raw s2]. cbn [snd].
  intros Hd Hne. injection Hd as <-.
  apply clean_data_nonempty. exact Hne.
Qed.

End QueryFacts.

Section QueryAnatomy.

Context `{A : Ambient}.

Import Provider ProviderOps.

(** The three ways a query ends: from the cache, with the bare synthetic
    frame when no source is healthy, or by [finish] on a non-empty frame
    after at least one adapter call. *)
Lemma query_cases (symbol period interval : string) (now : Z) (st : state) :
  let key := cache_key symbol period interval in
  let r := get_symbol_data symbol period interval now st in
  (exists data, cache_hit key now st = Some data /\ r = (st, Some data))
  \/ (cache_hit key now st = None /\ working_sources st = []
      /\ r = _get_dynamic_default_data symbol now st)
  \/ (cache_hit key now st = None /\ working_sources st <> []
      /\ exists st0 d e more,
           same_settings st st0
           /\ _cache st0 = _cache st
           /\ trace st0 = trace st ++ e :: more
           /\ Frame.empty d = false
           /\ r = finish key now st0 d).
Proof.
  intros key r. subst r. unfold get_symbol_data. fold key.
  destruct (cache_hit key now st) as [data |] eqn:Ehit.
  { left. exists data. split; reflexivity. }
  right.
  destruct (working_sources st) as [| source rest] eqn:Esrc.
  { left. repeat split. }
  right. split; [reflexivity |]. split; [discriminate |].
  pose proof (try_sources_effect (source :: rest) symbol period interval
                                 now st)
    as (called & Htrace & Hcalled & Hset & Hres).
  destruct (try_sources (source :: rest) symbol period interval now st)
    as [st1 res].
  cbn [fst snd] in *.
  assert (Hne : called <> []) by (apply Hcalled; discriminate).
  destruct called as [| c0 called']; [congruence |].
  destruct res as [data |].
  - destruct Hres as (st0 & d & H1 & H2 & H3 & H4 & H5).
    exists st0, d, (AdapterCall c0), (List.map AdapterCall called').
    repeat split; try assumption; try apply H1.
    rewrite H3. exact Htrace.
  - destruct Hres as [Hcache _].
    pose proof (generator_effect symbol now st1) as (Gset & Gcache & _ & Gtr).
    destruct (generator_frame_nonempty symbol now st1)
      as (data & Hdata & Hnonempty & _).
    destruct (_get_dynamic_default_data symbol now st1) as [st2 r2].
    cbn [fst snd] in *. subst r2.
    exists st2, data, (AdapterCall c0),
      (List.map AdapterCall called' ++ [GeneratorCall symbol]).
    split; [exact (same_settings_trans _ _ _ Hset Gset) |].
    split; [congruence |].
    split.
    + rewrite Gtr, Htrace. cbn [List.map].
      rewrite <- List.app_assoc. reflexivity.
    + split; [exact Hnonempty | reflexivity].
Qed.

End QueryAnatomy.

(** ** Queries: order of the sources, cache round trip, availability *)

Section QueryProperties.

Context `{A : Ambient}.

Import Provider ProviderOps.

(** X1.  When the first healthy source answers with a non-empty frame,
    the query ends there: exactly one call was made (to that source), the
    frame returned has the rows and columns of the adapter's frame, and
    it is the frame stored under the key, dated with the time of the
    query. *)
Theorem X1_first_success_wins
    (symbol period interval source : string) (rest : list string)
    (now : Z) (st st1 : state) (d : frame) :
  cache_hit (cache_key symbol period interval) now st = None ->
  working_sources st = source :: rest ->
  call_adapter source symbol period interval st = (st1, Some d) ->
  Frame.empty d = false ->
  let r := get_symbol_data symbol period interval now st in
  trace (fst r) = trace st ++ [AdapterCall source]
  /\ exists data,
       snd r = Some data
       /\ rows data = rows d
       /\ columns data = columns d
       /\ _cache (fst r) !! cache_key symbol period interval
          = Some (now, data).
Proof.
  intros Hmiss Hsrc Hcall Hne r.
  assert (E : r = finish (cache_key symbol period interval) now st1 d).
  { subst r. unfold get_symbol_data. rewrite Hmiss, Hsrc.
    cbn [try_sources]. rewrite Hcall, Hne. reflexivity. }
  rewrite E, finish_effect. cbn [fst snd].
  pose proof (call_adapter_effect source symbol period interval st)
    as (_ & _ & _ & Htrace & _).
  rewrite Hcall in Htrace. cbn [fst] in Htrace.
  split; [exact Htrace |].
  exists (finished st1 d).
  split; [reflexivity |].
  split; [apply finished_rows |].
  split.
  - unfold finished. destruct (ta_available st1); [| reflexivity].
    unfold _add_technical_indicators.
    destruct (Frame.empty d || negb (ta_available st1)); reflexivity.
  - cbn. apply lookup_insert_eq.
Qed.

(** X2.  On a provider with a healthy source, a query that missed the
    cache leaves an entry that answers the same query again: asked again
    less than the timeout later, the provider returns the same frame and
    is left exactly as it was, so nothing was called. *)
Theorem X2_second_query_from_cache
    (symbol period interval : string) (now later : Z) (st : state) :
  cache_hit (cache_key symbol period interval) now st = None ->
  working_sources st <> [] ->
  0 < cache_timeout st <= 86400 ->
  0 <= later - now < cache_timeout st * 1000000 ->
  let r := get_symbol_data symbol period interval now st in
  get_symbol_data symbol period interval later (fst r) = (fst r, snd r).
Proof.
  intros Hmiss Hsrc Hto Hage r.
  destruct (query_cases symbol period interval now st)
    as [(data & Hhit & _) | [(_ & Hnone & _) | (_ & _ & Hfin)]].
  - congruence.
  - congruence.
  - destruct Hfin as (st0 & d & e & more & Hset & _ & _ & _ & Hr).
    fold r in Hr. rewrite Hr.
    destruct Hset as (_ & Htimeout & _).
    apply second_call_within_timeout; rewrite Htimeout; assumption.
Qed.

(** X3.  A query reads and writes the entry of its own key only: the
    entry of every other key is after the query what it was before. *)
Theorem X3_query_keeps_other_entries
    (symbol period interval key' : string) (now : Z) (st : state) :
  key' <> cache_key symbol period interval ->
  _cache (fst (get_symbol_data symbol period interval now st)) !! key'
  = _cache st !! key'.
Proof.
  intros Hkey.
  destruct (query_cases symbol period interval now st)
    as [(data & _ & Hr) | [(_ & _ & Hr) | (_ & _ & Hfin)]].
  - cbv zeta in Hr. rewrite Hr. reflexivity.
  - cbv zeta in Hr. rewrite Hr.
    pose proof (generator_effect symbol now st) as (_ & Hcache & _).
    cbv zeta in Hcache. rewrite Hcache. reflexivity.
  - destruct Hfin as (st0 & d & e & more & _ & Hcache & _ & _ & Hr).
    cbv zeta in Hr. rewrite Hr, finish_effect. cbn [fst _cache with_cache].
    rewrite lookup_insert_ne by congruence.
    rewrite Hcache. reflexivity.
Qed.

(** A query on a provider whose cached frames are all non-empty returns a
    non-empty frame and keeps the cached frames non-empty. *)
Lemma query_answers
    (symbol period interval : string) (now : Z) (st : state) :
  cache_well_formed st ->
  exists data,
    snd (get_symbol_data symbol period interval now st) = Some data
    /\ Frame.empty data = false
    /\ cache_well_formed (fst (get_symbol_data symbol period interval
                                               now st)).
Proof.
  intros Hwf.
  destruct (query_cases symbol period interval now st)
    as [(data & Hhit & Hr) | [(_ & _ & Hr) | (_ & _ & Hfin)]].
  - cbv zeta in Hr. rewrite Hr. exists data.
    split; [reflexivity |]. split; [| exact Hwf].
    unfold cache_hit in Hhit.
    destruct (_cache st !! cache_key symbol period interval)
      as [[fetched cached] |] eqn:Ein; [| discriminate].
    destruct (_ <? _); [| discriminate].
    injection Hhit as <-. exact (Hwf _ _ _ Ein).
  - cbv zeta in Hr. rewrite Hr.
    destruct (generator_frame_nonempty symbol now st)
      as (data & Hdata & Hne & _).
    exists data. split; [exact Hdata |]. split; [exact Hne |].
    pose proof (generator_effect symbol now st) as (_ & Hcache & _).
    cbv zeta in Hcache.
    intros key fetched cached Hin. rewrite Hcache in Hin.
    exact (Hwf _ _ _ Hin).
  - destruct Hfin as (st0 & d & e & more & _ & Hcache & _ & Hne & Hr).
    cbv zeta in Hr. rewrite Hr, finish_effect. cbn [fst snd].
    exists (finished st0 d).
    split; [reflexivity |].
    split; [rewrite finished_empty; exact Hne |].
    intros key fetched cached Hin. cbn [_cache with_cache] in Hin.
    destruct (decide (cache_key symbol period interval = key)) as [<- | Hk].
    + rewrite lookup_insert_eq in Hin. injection Hin as _ <-.
      rewrite finished_empty. exact Hne.
    + rewrite lookup_insert_ne in Hin by exact Hk.
      rewrite Hcache in Hin. exact (Hwf _ _ _ Hin).
Qed.

(** X4.  As long as every cached frame is non-empty, which holds for the
    empty cache and is kept by every query, a query always returns a
    frame, and the frame has rows and columns: the "no data" answer
    [None] never occurs. *)
Theorem X4_query_always_answers
    (symbol period interval : string) (now : Z) (st : state) :
  cache_well_formed st ->
  let r := get_symbol_data symbol period interval now st in
  cache_well_formed (fst r)
  /\ exists data,
       snd r = Some data /\ rows data <> [] /\ columns data <> [].
Proof.
  intros Hwf r.
  destruct (query_answers symbol period interval now st Hwf)
    as (data & Hdata & Hne & Hwf').
  split; [exact Hwf' |].
  exists data. split; [exact Hdata |].
  unfold Frame.empty in Hne.
  destruct (rows data); [discriminate |].
  destruct (columns data); [discriminate |].
  split; discriminate.
Qed.

Lemma empty_cache_well_formed (st : state) :
  _cache st = ∅ -> cache_well_formed st.
Proof.
  intros E key fetched data Hin. rewrite E, lookup_empty in Hin.
  discriminate.
Qed.

(** X5.  After [clear_cache] no query is answered from memory: the next
    query, whatever it asks, makes at least one adapter or generator
    call.  Clearing changes no setting of the provider. *)
Theorem X5_clear_cache_forces_refetch
    (symbol period interval : string) (now : Z) (st : state) :
  same_settings st (clear_cache st)
  /\ cache_well_formed (clear_cache st)
  /\ exists e more,
       trace (fst (get_symbol_data symbol period interval now
                                   (clear_cache st)))
       = trace st ++ e :: more.
Proof.
  split; [repeat split |].
  split; [apply empty_cache_well_formed; reflexivity |].
  destruct (query_cases symbol period interval now (clear_cache st))
    as [(data & Hhit & _) | [(_ & _ & Hr) | (_ & _ & Hfin)]].
  - unfold cache_hit, clear_cache in Hhit. cbn [_cache with_cache] in Hhit.
    rewrite lookup_empty in Hhit. discriminate.
  - cbv zeta in Hr. rewrite Hr.
    pose proof (generator_effect symbol now (clear_cache st))
      as (_ & _ & _ & Htrace).
    cbv zeta in Htrace. rewrite Htrace.
    exists (GeneratorCall symbol), []. reflexivity.
  - destruct Hfin as (st0 & d & e & more & _ & _ & Htrace & _ & Hr).
    cbv zeta in Hr. rewrite Hr, finish_effect. cbn [fst trace with_cache].
    exists e, more. exact Htrace.
Qed.

End QueryProperties.

Lemma X1_first_success_wins_witness :
  Provider.cache_hit (Provider.cache_key "EURUSD" "1mo" "1h") 1000
                     Demo.online = None
  /\ Provider.working_sources Demo.online = ["mt5"%string]
  /\ Provider.trace
       (fst (Provider.get_symbol_data "EURUSD" "1mo" "1h" 1000 Demo.online))
     = [Provider.AdapterCall "mt5"]
  /\ exists data,
       snd (Provider.get_symbol_data "EURUSD" "1mo" "1h" 1000 Demo.online)
       = Some data
       /\ rows data = rows (_clean_data Demo.eurusd_rates).
Proof.
  assert (Hmiss : Provider.cache_hit (Provider.cache_key "EURUSD" "1mo" "1h")
                                     1000 Demo.online = None)
    by reflexivity.
  assert (Hsrc : Provider.working_sources Demo.online = ["mt5"%string])
    by (vm_compute; reflexivity).
  assert (Hcall : Provider.call_adapter "mt5" "EURUSD" "1mo" "1h" Demo.online
                  = (fst (Provider.call_adapter "mt5" "EURUSD" "1mo" "1h"
                                                Demo.online),
                     Some (_clean_data Demo.eurusd_rates)))
    by (vm_compute; reflexivity).
  assert (Hne : Frame.empty (_clean_data Demo.eurusd_rates) = false)
    by reflexivity.
  destruct (X1_first_success_wins "EURUSD" "1mo" "1h" "mt5" [] 1000
              Demo.online _ _ Hmiss Hsrc Hcall Hne)
    as (Htrace & data & Hdata & Hrows & _).
  refine (conj Hmiss (conj Hsrc (conj Htrace _))).
  exists data. split; assumption.
Defined.

Lemma X2_second_query_from_cache_witness :
  Provider.working_sources Demo.online <> []
  /\ 0 <= 599000000 - 0 < Provider.cache_timeout Demo.online * 1000000
  /\ Provider.get_symbol_data "EURUSD" "1mo" "1h" 599000000
       (fst (Provider.get_symbol_data "EURUSD" "1mo" "1h" 0 Demo.online))
     = (fst (Provider.get_symbol_data "EURUSD" "1mo" "1h" 0 Demo.online),
        snd (Provider.get_symbol_data "EURUSD" "1mo" "1h" 0 Demo.online)).
Proof.
  assert (Hmiss : Provider.cache_hit (Provider.cache_key "EURUSD" "1mo" "1h")
                                     0 Demo.online = None)
    by reflexivity.
  assert (Hsrc : Provider.working_sources Demo.online <> [])
    by (vm_compute; discriminate).
  assert (Hto : 0 < Provider.cache_timeout Demo.online <= 86400)
    by (simpl; lia).
  assert (Hage : 0 <= 599000000 - 0
                 < Provider.cache_timeout Demo.online * 1000000)
    by (simpl; lia).
  exact (conj Hsrc (conj Hage
           (X2_second_query_from_cache "EURUSD" "1mo" "1h" 0 599000000
                                       Demo.online Hmiss Hsrc Hto Hage))).
Defined.

Lemma X3_query_keeps_other_entries_witness :
  Provider.cache_key "EURUSD" "1mo" "1h"
  <> Provider.cache_key "GBPUSD" "1mo" "1h"
  /\ Provider._cache
       (fst (Provider.get_symbol_data "GBPUSD" "1mo" "1h" 1000 Demo.warm))
       !! Provider.cache_key "EURUSD" "1mo" "1h"
     = Some (0, Demo.eurusd_frame).
Proof.
  assert (Hkey : Provider.cache_key "EURUSD" "1mo" "1h"
                 <> Provider.cache_key "GBPUSD" "1mo" "1h")
    by (vm_compute; discriminate).
  split; [exact Hkey |].
  rewrite (X3_query_keeps_other_entries "GBPUSD" "1mo" "1h" _ 1000 Demo.warm
                                        Hkey).
  vm_compute. reflexivity.
Defined.

Lemma X4_query_always_answers_witness :
  ProviderOps.cache_well_formed Demo.online
  /\ exists data,
       snd (Provider.get_symbol_data "USOIL" "3mo" "4h" 1000 Demo.online)
       = Some data
       /\ Frame.empty data = false.
Proof.
  assert (Hwf : ProviderOps.cache_well_formed Demo.online)
    by (apply empty_cache_well_formed; reflexivity).
  split; [exact Hwf |].
  destruct (X4_query_always_answers "USOIL" "3mo" "4h" 1000 Demo.online Hwf)
    as (_ & data & Hdata & Hrows & Hcols).
  exists data. split; [exact Hdata |].
  unfold Frame.empty.
  destruct (rows data); [congruence |].
  destruct (columns data); [congruence | reflexivity].
Defined.

(** ** The probe, the constructor and the price reads *)

Section ProbeProperties.

Context `{A : Ambient}.

Import Provider ProviderOps.

Lemma call_adapter_answer (source symbol period interval : string)
    (st : state) (d : frame) :
  snd (call_adapter source symbol period interval st) = Some d ->
  can_answer st symbol source.
Proof.
  unfold call_adapter, can_answer.
  destruct (String.eqb_spec source "mt5") as [-> | Hmt5].
  - unfold _get_mt5_data. cbn [mt5_available record_call].
    destruct (mt5_available st); cbn [negb]; [| discriminate].
    intros _. left. split; reflexivity.
  - destruct (String.eqb_spec source "twelvedata") as [-> | Htd];
      [| discriminate].
    unfold _get_twelvedata_data. cbn [twelvedata_api_key record_call].
    destruct (String.eqb_spec (twelvedata_api_key st) "demo") as [E | Hkey];
      [discriminate |].
    destruct (dict_get symbol td_symbol_map) as [td |] eqn:Emap;
      [| discriminate].
    intros _. right. split; [reflexivity |]. split; [exact Hkey |].
    eexists. reflexivity.
Qed.

Lemma can_answer_settings (st st' : state) (symbol source : string) :
  same_settings st st' ->
  can_answer st' symbol source -> can_answer st symbol source.
Proof.
  intros (_ & _ & Hkey & _ & Hmt5 & _). unfold can_answer.
  rewrite Hkey, Hmt5. tauto.
Qed.

Lemma probe_sources_effect (sources : list string) (symbol : string)
    (results : gmap string bool) (st : state) :
  let r := probe_sources sources symbol results st in
  same_settings st (fst r)
  /\ _cache (fst r) = _cache st
  /\ (forall s, is_Some (snd r !! s)
                <-> List.In s sources \/ is_Some (results !! s))
  /\ ((forall s, results !! s = Some true -> can_answer st symbol s) ->
      forall s, snd r !! s = Some true -> can_answer st symbol s).
Proof.
  revert results st.
  induction sources as [| source rest IH]; intros results st; cbn zeta.
  - cbn [probe_sources fst snd].
    split; [apply same_settings_refl |]. split; [reflexivity |].
    split; [intros s; simpl; tauto | auto].
  - cbn [probe_sources].
    pose proof (call_adapter_effect source symbol "1d" "1h" st)
      as (Hset & Hcache & _).
    pose proof (call_adapter_answer source symbol "1d" "1h" st) as Hans.
    destruct (call_adapter source symbol "1d" "1h" st) as [st1 data].
    cbn [fst snd] in *.
    set (healthy := match data with
                    | Some d => negb (Frame.empty d)
                    | None => false
                    end).
    destruct (IH (<[source := healthy]> results) st1)
      as (IHset & IHcache & IHdom & IHtrue).
    split; [exact (same_settings_trans _ _ _ Hset IHset) |].
    split; [congruence |].
    split.
    + intros s. rewrite IHdom. cbn [List.In].
      destruct (decide (source = s)) as [<- | Hne].
      * rewrite lookup_insert_eq. split; [intros _; left; left; reflexivity |].
        intros _. right. eexists. reflexivity.
      * rewrite lookup_insert_ne by exact Hne. tauto.
    + intros Hinv s Hs.
      apply (can_answer_settings st st1 symbol s Hset).
      apply IHtrue; [| exact Hs].
      intros s' Hs'.
      destruct (decide (source = s')) as [<- | Hne].
      * rewrite lookup_insert_eq in Hs'. injection Hs' as Hh.
        subst healthy. destruct data as [d |]; [| discriminate].
        assert (Hc : can_answer st symbol source) by (apply (Hans d eq_refl)).
        destruct Hset as (_ & _ & Hkey & _ & Hmt5 & _).
        unfold can_answer in *. rewrite Hkey, Hmt5. exact Hc.
      * rewrite lookup_insert_ne in Hs' by exact Hne.
        destruct Hset as (_ & _ & Hkey & _ & Hmt5 & _).
        specialize (Hinv s' Hs').
        unfold can_answer in *. rewrite Hkey, Hmt5. exact Hinv.
Qed.

(** X6.  [test_all_sources] gives a verdict for exactly the configured
    sources, and a verdict can only be "healthy" for a source able to
    answer: the terminal when it is available, or the vendor when the key
    is not the demonstration key and the vendor lists the probe symbol.
    A source of any other name is reported unhealthy.  The probe leaves
    the settings and the cache as they were. *)
Theorem X6_probe_verdicts (symbol : string) (st : state) :
  let r := test_all_sources symbol st in
  (forall s, is_Some (snd r !! s) <-> List.In s (data_sources st))
  /\ (forall s, snd r !! s = Some true -> can_answer st symbol s)
  /\ same_settings st (fst r)
  /\ _cache (fst r) = _cache st.
Proof.
  cbn zeta. unfold test_all_sources.
  pose proof (probe_sources_effect (data_sources st) symbol ∅ st)
    as (Hset & Hcache & Hdom & Htrue).
  cbv zeta in *.
  split.
  - intros s. rewrite Hdom. rewrite lookup_empty.
    split; [intros [H | H]; [exact H | destruct H; discriminate] | tauto].
  - split; [| split; assumption].
    apply Htrue. intros s Hs. rewrite lookup_empty in Hs. discriminate.
Qed.

Lemma no_source_query (symbol period interval : string) (now : Z)
    (st : state) :
  working_sources st = [] -> _cache st = ∅ ->
  let st' := fst (get_symbol_data symbol period interval now st) in
  working_sources st' = [] /\ _cache st' = ∅
  /\ trace st' = trace st ++ [GeneratorCall symbol].
Proof.
  intros Hsrc Hcache st'. subst st'.
  assert (E : get_symbol_data symbol period interval now st
              = _get_dynamic_default_data symbol now st).
  { unfold get_symbol_data, cache_hit. rewrite Hcache, lookup_empty, Hsrc.
    reflexivity. }
  rewrite E.
  pose proof (generator_effect symbol now st) as (Hset & Hc & _ & Htrace).
  cbv zeta in *.
  split.
  - destruct Hset as (Hds & _ & _ & _ & _ & Hst).
    unfold working_sources in *. rewrite Hds, Hst. exact Hsrc.
  - split; [congruence | exact Htrace].
Qed.

(** X7.  A provider built with the demonstration key and without a
    terminal has no healthy source, and stays that way: whatever queries
    follow, each one runs the synthetic generator once, no adapter is
    called, and the cache stays empty. *)
Theorem X7_default_provider_is_synthetic
    (ta : bool) (w : world) (rng : rng_state) (qs : list query) :
  let st := new_provider "demo" ta false w rng in
  working_sources st = []
  /\ trace (run_queries qs st)
     = trace st ++ List.map (fun q => GeneratorCall (query_symbol q)) qs
  /\ _cache (run_queries qs st) = ∅.
Proof.
  cbn zeta.
  set (st := new_provider "demo" ta false w rng).
  assert (Hsrc : working_sources st = []) by reflexivity.
  assert (Hcache : _cache st = ∅) by reflexivity.
  split; [exact Hsrc |].
  clearbody st. revert st Hsrc Hcache.
  induction qs as [| [[[symbol period] interval] now] rest IH];
    intros st Hsrc Hcache; cbn [run_queries List.map].
  - rewrite List.app_nil_r. split; [reflexivity | exact Hcache].
  - destruct (no_source_query symbol period interval now st Hsrc Hcache)
      as (Hsrc' & Hcache' & Htrace').
    destruct (IH _ Hsrc' Hcache') as [Ht Hc].
    split; [| exact Hc].
    rewrite Ht, Htrace'. rewrite <- List.app_assoc. reflexivity.
Qed.

Lemma current_price_last_close
    (symbol : string) (now : Z) (st : state) :
  cache_well_formed st ->
  let fetched := get_symbol_data symbol "5d" "15m" now st in
  exists data price last_row,
    snd fetched = Some data
    /\ List.last (List.map Some (rows data)) None = Some last_row
    /\ price = Close last_row
    /\ get_current_price symbol now st = (fst fetched, Some price).
Proof.
  intros Hwf fetched.
  destruct (query_answers symbol "5d" "15m" now st Hwf)
    as (data & Hdata & Hne & _).
  fold fetched in Hdata.
  unfold get_current_price. fold fetched.
  destruct fetched as [st1 res]. cbn [fst snd] in *. subst res.
  rewrite Hne. cbn [negb].
  assert (Hrows : rows data <> []).
  { unfold Frame.empty in Hne. destruct (rows data); [discriminate |].
    discriminate. }
  destruct (List.exists_last Hrows) as (front & last_row & Erows).
  exists data, (Close last_row), last_row.
  split; [reflexivity |].
  rewrite Erows. split.
  - rewrite List.map_app. simpl. apply List.last_last.
  - split; [reflexivity |].
    rewrite List.map_app. simpl.
    rewrite iloc_last_app. reflexivity.
Qed.

Lemma current_price_keeps_cache_well_formed
    (symbol : string) (now : Z) (st : state) :
  cache_well_formed st ->
  cache_well_formed (fst (get_current_price symbol now st))
  /\ is_Some (snd (get_current_price symbol now st)).
Proof.
  intros Hwf.
  destruct (current_price_last_close symbol now st Hwf)
    as (data & price & last_row & _ & _ & _ & E).
  rewrite E. cbn [fst snd]. split; [| eexists; reflexivity].
  destruct (query_answers symbol "5d" "15m" now st Hwf)
    as (_ & _ & _ & H).
  exact H.
Qed.

(** X8.  [get_current_price] makes the query for five days of 15-minute
    candles and, as long as every cached frame is non-empty, always
    returns a price: the close of the last row of the frame the query
    returned.  It leaves the provider as the query left it. *)
Theorem X8_current_price_is_last_close
    (symbol : string) (now : Z) (st : state) :
  cache_well_formed st ->
  let fetched := get_symbol_data symbol "5d" "15m" now st in
  fst (get_current_price symbol now st) = fst fetched
  /\ exists data price last_row,
       snd fetched = Some data
       /\ List.last (List.map Some (rows data)) None = Some last_row
       /\ price = Close last_row
       /\ snd (get_current_price symbol now st) = Some price.
Proof.
  intros Hwf fetched.
  destruct (current_price_last_close symbol now st Hwf)
    as (data & price & last_row & Hdata & Hlast & Hprice & E).
  fold fetched in Hdata, E. rewrite E. cbn [fst snd].
  split; [reflexivity |].
  exists data, price, last_row. repeat split; assumption.
Qed.

Lemma price_each_keys (symbols : list string) (i : nat) (clock : nat -> Z)
    (summary : gmap string Q) (st : state) :
  cache_well_formed st ->
  let r := price_each symbols i clock summary st in
  cache_well_formed (fst r)
  /\ forall s, is_Some (snd r !! s)
               <-> List.In s symbols \/ is_Some (summary !! s).
Proof.
  revert i summary st.
  induction symbols as [| symbol rest IH]; intros i summary st Hwf;
    cbn zeta; cbn [price_each].
  - split; [exact Hwf |]. intros s. simpl. tauto.
  - destruct (current_price_keeps_cache_well_formed symbol (clock i) st Hwf)
      as [Hwf1 [p Hp]].
    destruct (get_current_price symbol (clock i) st) as [st1 price].
    cbn [fst snd] in *. subst price.
    destruct (IH (S i) (<[symbol := p]> summary) st1 Hwf1) as [Hwf2 Hdom].
    split; [exact Hwf2 |].
    intros s. rewrite Hdom. cbn [List.In].
    destruct (decide (symbol = s)) as [<- | Hne].
    + rewrite lookup_insert_eq. split; [intros _; left; left; reflexivity |].
      intros _. right. eexists. reflexivity.
    + rewrite lookup_insert_ne by exact Hne. tauto.
Qed.

(** X9.  As long as every cached frame is non-empty, [get_market_summary]
    prices every symbol it is asked about and no other: the keys of the
    summary are exactly the requested symbols (the six default pairs when
    none are given). *)
Theorem X9_market_summary_covers_request
    (symbols : option (list string)) (clock : nat -> Z) (st : state) :
  cache_well_formed st ->
  let r := get_market_summary symbols clock st in
  cache_well_formed (fst r)
  /\ forall s, is_Some (snd r !! s)
               <-> List.In s (default summary_symbols symbols).
Proof.
  intros Hwf. cbn zeta. unfold get_market_summary.
  destruct (price_each_keys (default summary_symbols symbols) 0 clock ∅ st
                            Hwf) as [Hwf' Hdom].
  split; [exact Hwf' |].
  intros s. rewrite Hdom, lookup_empty.
  split; [intros [H | H]; [exact H | destruct H; discriminate] | tauto].
Qed.

(** X10.  [switch_to_next_source] raises on an empty source list; on a
    non-empty one it moves the index to the next position, wrapping at
    the end, and returns the source found there.  Starting from an index
    inside the list, as many switches as there are sources bring the
    provider back to where it was. *)
Theorem X10_switch_cycles (self : instance) :
  let n := List.length (data_sources (core self)) in
  (n = 0%nat -> switch_to_next_source self = None)
  /\ (n <> 0%nat ->
      exists name,
        switch_to_next_source self
        = Some ({| core := core self;
                   current_source_index :=
                     (current_source_index self + 1) mod n |}, name)
        /\ List.nth_error (data_sources (core self))
                          ((current_source_index self + 1) mod n)
           = Some name)
  /\ ((current_source_index self < n)%nat ->
      switch_times n self = Some self).
Proof.
  cbn zeta. split; [| split].
  - intros Hn. unfold switch_to_next_source. rewrite Hn. reflexivity.
  - intros Hn. unfold switch_to_next_source.
    destruct (List.length (data_sources (core self))) as [| m] eqn:El;
      [congruence |].
    unfold get_current_source. cbn [core current_source_index].
    destruct (List.nth_error (data_sources (core self))
                ((current_source_index self + 1) mod S m)) as [name |] eqn:E.
    + exists name. split; reflexivity.
    + apply List.nth_error_None in E.
      pose proof (Nat.mod_upper_bound (current_source_index self + 1) (S m)).
      lia.
  - intros Hi.
    assert (Hsteps : forall k (s : instance),
              core s = core self ->
              switch_times k s
              = Some {| core := core self;
                        current_source_index :=
                          (current_source_index s + k)
                          mod List.length (data_sources (core self)) |}
              \/ (k = 0%nat /\ switch_times k s = Some s)).
    { induction k as [| k IH]; intros s Hs; [right; split; reflexivity |].
      left. cbn [switch_times]. unfold switch_to_next_source. rewrite Hs.
      destruct (List.length (data_sources (core self))) as [| m] eqn:El;
        [lia |].
      unfold get_current_source. cbn [core current_source_index].
      destruct (List.nth_error (data_sources (core self))
                  ((current_source_index s + 1) mod S m)) as [name |] eqn:E.
      2: { apply List.nth_error_None in E.
           pose proof (Nat.mod_upper_bound (current_source_index s + 1)
                                           (S m)).
           lia. }
      cbn -[Nat.modulo Nat.add].
      destruct (IH {| core := core self;
                      current_source_index :=
                        (current_source_index s + 1) mod S m |} eq_refl)
        as [-> | [-> ->]].
      - cbn [current_source_index]. do 2 f_equal.
        rewrite Nat.Div0.add_mod_idemp_l. f_equal. lia.
      - reflexivity. }
    destruct (Hsteps (List.length (data_sources (core self))) self eq_refl)
      as [-> | [Hz _]]; [| lia].
    f_equal. destruct self as [c i]. cbn [core current_source_index] in *.
    f_equal.
    rewrite <- Nat.Div0.add_mod_idemp_r, Nat.Div0.mod_same, Nat.add_0_r.
    apply Nat.mod_small. exact Hi.
Qed.

End ProbeProperties.

Lemma X8_current_price_is_last_close_witness :
  ProviderOps.cache_well_formed Demo.online
  /\ snd (ProviderOps.get_current_price "EURUSD" 1000 Demo.online)
     = Some (1078 # 1000)%Q.
Proof.
  assert (Hwf : ProviderOps.cache_well_formed Demo.online)
    by (apply empty_cache_well_formed; reflexivity).
  split; [exact Hwf |].
  destruct (X8_current_price_is_last_close "EURUSD" 1000 Demo.online Hwf)
    as (_ & data & price & last_row & Hdata & Hlast & Hprice & E).
  rewrite E.
  vm_compute in Hdata. injection Hdata as <-.
  vm_compute in Hlast. injection Hlast as <-.
  rewrite Hprice. reflexivity.
Defined.

Lemma X9_market_summary_covers_request_witness :
  ProviderOps.cache_well_formed Demo.online
  /\ is_Some (snd (ProviderOps.get_market_summary
                     (Some ["EURUSD"; "GBPUSD"]%string)
                     (fun i => Z.of_nat i) Demo.online)
              !! "GBPUSD"%string)
  /\ ~ is_Some (snd (ProviderOps.get_market_summary
                       (Some ["EURUSD"; "GBPUSD"]%string)
                       (fun i => Z.of_nat i) Demo.online)
                !! "USDJPY"%string).
Proof.
  assert (Hwf : ProviderOps.cache_well_formed Demo.online)
    by (apply empty_cache_well_formed; reflexivity).
  destruct (X9_market_summary_covers_request
              (Some ["EURUSD"; "GBPUSD"]%string) (fun i => Z.of_nat i)
              Demo.online Hwf) as [_ Hkeys].
  split; [exact Hwf |]. split.
  - apply Hkeys. simpl. right. left. reflexivity.
  - intros H. apply Hkeys in H. simpl in H.
    destruct H as [H | [H | []]]; discriminate.
Defined.

Lemma X10_switch_cycles_witness :
  (ProviderOps.current_source_index Sample.live_instance
   < List.length (Provider.data_sources
                    (ProviderOps.core Sample.live_instance)))%nat
  /\ ProviderOps.switch_times 2 Sample.live_instance
     = Some Sample.live_instance.
Proof.
  assert (Hi : (ProviderOps.current_source_index Sample.live_instance
                < List.length (Provider.data_sources
                                 (ProviderOps.core Sample.live_instance)))%nat)
    by (vm_compute; lia).
  split; [exact Hi |].
  destruct (X10_switch_cycles Sample.live_instance) as (_ & _ & Hcycle).
  exact (Hcycle Hi).
Defined.

(** ** Cleaning: order and emptiness *)

Section CleanProperties.

Lemma filter_sublist {T : Type} (f : T -> bool) (l : list T) :
  sublist (List.filter f l) l.
Proof.
  induction l as [| x l IH]; simpl; [constructor |].
  destruct (f x); constructor; exact IH.
Qed.

Lemma clip_outliers_sublist (data : list candle) (col : field) :
  sublist (clip_outliers data col) data.
Proof.
  unfold clip_outliers. destruct (10 <? List.length data)%nat;
    [apply filter_sublist | reflexivity].
Qed.

Lemma outlier_loop_sublist (cols : list field) (data : list candle) :
  sublist (List.fold_left clip_outliers cols data) data.
Proof.
  revert data. induction cols as [| c cols IH]; intros data; simpl;
    [reflexivity |].
  etransitivity; [apply IH | apply clip_outliers_sublist].
Qed.

Lemma outlier_loop_small (cols : list field) (data : list candle) :
  (List.length data <= 10)%nat ->
  List.fold_left clip_outliers cols data = data.
Proof.
  intros Hlen. induction cols as [| c cols IH]; simpl; [reflexivity |].
  assert (E : clip_outliers data c = data).
  { unfold clip_outliers.
    assert (H : (10 <? List.length data)%nat = false)
      by (apply Nat.ltb_ge; exact Hlen).
    rewrite H. reflexivity. }
  rewrite E. exact IH.
Qed.

(** X11.  Cleaning never alters, adds or reorders a row: the rows of the
    cleaned frame are rows that [dropna] keeps, in the same order, with
    some possibly left out.  When the frame has the required columns and
    at most ten complete rows, none is left out (the outlier filter does
    not run). *)
Theorem X11_clean_keeps_rows_in_order (df : raw_frame) :
  sublist (rows (_clean_data df)) (dropna (raw_rows df))
  /\ (has_required_columns df = true ->
      (List.length (dropna (raw_rows df)) <= 10)%nat ->
      rows (_clean_data df) = dropna (raw_rows df)).
Proof.
  unfold _clean_data. fold (has_required_columns df).
  destruct (raw_empty df) eqn:Eempty.
  - cbn [rows]. split; [apply sublist_nil_l |].
    intros Hcols _. unfold raw_empty in Eempty.
    destruct (raw_rows df); [reflexivity |].
    destruct (raw_columns df) eqn:Ec; [| discriminate].
    unfold has_required_columns in Hcols. rewrite Ec in Hcols. discriminate.
  - destruct (has_required_columns df); cbn [negb rows].
    + split; [apply outlier_loop_sublist |].
      intros _ Hlen. apply outlier_loop_small. exact Hlen.
    + split; [apply sublist_nil_l | discriminate].
Qed.

(** X12.  The cleaned frame is non-empty exactly when the raw frame has
    the four required columns and at least one row with all four cells
    present.  So a frame lacking a required column cleans to an empty
    frame however many rows it has, and the outlier filter never removes
    the last rows of a frame. *)
Theorem X12_clean_empty_iff (df : raw_frame) :
  Frame.empty (_clean_data df) = false
  <-> has_required_columns df = true /\ dropna (raw_rows df) <> [].
Proof.
  unfold _clean_data. fold (has_required_columns df).
  destruct (raw_empty df) eqn:Eempty.
  - unfold Frame.empty. cbn [rows columns]. split; [discriminate |].
    intros [Hcols Hrows]. unfold raw_empty in Eempty.
    destruct (raw_rows df); [exfalso; apply Hrows; reflexivity |].
    destruct (raw_columns df) eqn:Ec; [| discriminate].
    unfold has_required_columns in Hcols. rewrite Ec in Hcols. discriminate.
  - destruct (has_required_columns df); cbn [negb].
    + unfold Frame.empty. cbn [rows columns].
      assert (Hc : raw_columns df <> []).
      { unfold raw_empty in Eempty.
        destruct (raw_rows df); [discriminate |].
        destruct (raw_columns df); [discriminate | discriminate]. }
      split.
      * intros H. split; [reflexivity |]. intros Hnil.
        pose proof (outlier_loop_sublist required_columns
                                         (dropna (raw_rows df))) as Hsub.
        rewrite Hnil in Hsub, H. apply sublist_nil_r in Hsub.
        rewrite Hsub in H. discriminate.
      * intros [_ Hrows].
        pose proof (outlier_loop_nonempty required_columns _ Hrows) as Hne.
        destruct (List.fold_left clip_outliers required_columns
                                 (dropna (raw_rows df)));
          [congruence |].
        destruct (raw_columns df); [congruence | reflexivity].
    + split; [discriminate | intros [H _]; discriminate].
Qed.

End CleanProperties.

(** ** What an analysis holds *)

Section AnalysisProperties.

Context `{A : Ambient}.

Import Signal Analysis.

(** The signal and the confidence over the 27 combinations of votes. *)
Lemma signal_range
    (price ma20 ma50 rsi support resistance : fnum) :
  let result := _generate_signal price ma20 ma50 rsi support resistance in
  fst result <> Neutral
  /\ exists c : Q, snd result = Fin c /\ (45 <= c)%Q /\ (c <= 80)%Q.
Proof.
  cbn zeta. unfold _generate_signal, cast_votes.
  destruct (ma_vote_cases price ma20 ma50) as [-> | [-> | ->]];
    destruct (rsi_vote_cases rsi) as [-> | [-> | ->]];
    destruct (sr_vote_cases price support resistance) as [-> | [-> | ->]];
    (split; [vm_compute; discriminate
            | eexists; split; [vm_compute; reflexivity
                              | split; unfold Qle; simpl; lia]]).
Qed.

(** X13.  Whatever the inputs, [_generate_signal] returns buy, sell or
    wait, never the neutral label of a single voter, and a confidence
    that is a number between 45 and 80: the cap at 95 is never reached,
    so the confidence is the plain mean the function computed. *)
Theorem X13_signal_range
    (price ma20 ma50 rsi support resistance : fnum) :
  let votes := cast_votes price ma20 ma50 rsi support resistance in
  let result := _generate_signal price ma20 ma50 rsi support resistance in
  (fst result = Buy \/ fst result = Sell \/ fst result = Wait)
  /\ (exists c : Q, snd result = Fin c /\ (45 <= c)%Q /\ (c <= 80)%Q)
  /\ (snd result = np_mean (confidences_of (fst result) votes)
      \/ (fst result = Wait
          /\ snd result = np_mean (List.map snd votes))).
Proof.
  intros votes result.
  destruct (signal_range price ma20 ma50 rsi support resistance)
    as [Hlabel (c & Hc & Hlo & Hhi)].
  fold result in Hlabel, Hc.
  split; [destruct (fst result); try congruence; auto |].
  split; [exists c; repeat split; assumption |].
  assert (Hcap : forall x, snd result = Signal.py_min (of_Z 95) x ->
                           snd result = x).
  { intros x Hx. rewrite Hc in Hx. rewrite Hc.
    unfold Signal.py_min in Hx.
    destruct x as [q | | |]; cbn [flt of_Z] in Hx;
      try discriminate Hx; try (injection Hx as Hx; exfalso; revert Hx Hhi;
                                intros ->; vm_compute; congruence).
    destruct (Qltb q (inject_Z 95)); [exact Hx |].
    injection Hx as ->. exfalso. revert Hhi. vm_compute. congruence. }
  subst result votes. unfold _generate_signal in *.
  set (votes := cast_votes price ma20 ma50 rsi support resistance) in *.
  destruct (count_label Sell votes <? count_label Buy votes)%nat.
  - left. cbn [fst snd] in *. apply Hcap. reflexivity.
  - destruct (count_label Buy votes <? count_label Sell votes)%nat.
    + left. cbn [fst snd] in *. apply Hcap. reflexivity.
    + right. cbn [fst snd] in *. split; [reflexivity |].
      apply Hcap. reflexivity.
Qed.

Lemma length_rolling {T : Type} (w : nat) (agg : list T -> fnum)
    (xs : list T) :
  List.length (rolling w agg xs) = List.length xs.
Proof.
  unfold rolling. rewrite List.length_map, List.length_seq. reflexivity.
Qed.

Lemma length_calculate_rsi (prices : list Q) (period : nat) :
  List.length (_calculate_rsi prices period) = List.length prices.
Proof.
  unfold _calculate_rsi.
  rewrite !List.length_map, List.length_combine, !length_rolling,
    !List.length_map, length_diff.
  lia.
Qed.

Lemma iloc_last_nth {T : Type} (xs : list T) :
  xs <> [] ->
  iloc_last xs = List.nth_error xs (List.length xs - 1).
Proof.
  intros H. destruct (List.exists_last H) as (front & x & ->).
  rewrite iloc_last_app, List.length_app. simpl.
  rewrite List.nth_error_app2 by lia.
  replace (List.length front + 1 - 1 - List.length front)%nat with 0%nat
    by lia.
  reflexivity.
Qed.

Lemma iloc_last_some {T : Type} (xs : list T) :
  (0 < List.length xs)%nat -> exists x, iloc_last xs = Some x.
Proof.
  intros H. apply iloc_last_nonempty. intros ->. simpl in H. lia.
Qed.

Lemma support_resistance_some (data : frame) (window : nat) :
  rows data <> [] ->
  exists sup res, _calculate_support_resistance data window = Some (sup, res).
Proof.
  intros Hrows. unfold _calculate_support_resistance.
  destruct (List.length (rows data) <? window)%nat.
  - eexists _, _. reflexivity.
  - assert (Hlen : (0 < List.length (rows data))%nat).
    { destruct (rows data); [congruence | simpl; lia]. }
    destruct (iloc_last_some (rolling window series_min
                                      (List.map Low (rows data))))
      as [sup ->].
    { rewrite length_rolling, List.length_map. exact Hlen. }
    destruct (iloc_last_some (rolling window series_max
                                      (List.map High (rows data))))
      as [res ->].
    { rewrite length_rolling, List.length_map. exact Hlen. }
    exists sup, res. reflexivity.
Qed.

(** The steps of [build_analysis], for a frame with rows. *)
Lemma build_analysis_steps (sym : string) (now : Z) (data : frame)
    (a : analysis) :
  build_analysis sym now data = Some a ->
  exists price m20 m50 m200 r sup res tr strength,
    iloc_last (List.map Close (rows data)) = Some price
    /\ iloc_last (rolling 20 np_mean (List.map Close (rows data))) = Some m20
    /\ iloc_last (rolling 50 np_mean (List.map Close (rows data))) = Some m50
    /\ (if (200 <=? List.length (rows data))%nat
        then iloc_last (rolling 200 np_mean (List.map Close (rows data)))
        else Some m50) = Some m200
    /\ match assoc "RSI" (derived data) with
       | None => iloc_last (_calculate_rsi (List.map Close (rows data)) 14)
       | Some column => iloc_last column
       end = Some r
    /\ _calculate_support_resistance data 20 = Some (sup, res)
    /\ _determine_trend data m20 m50 m200 = Some (tr, strength)
    /\ a = {| symbol := sym; current_price := Fin price; trend := tr;
              trend_strength := strength;
              signal := fst (_generate_signal (Fin price) m20 m50 r sup res);
              confidence :=
                snd (_generate_signal (Fin price) m20 m50 r sup res);
              rsi := r; ma20 := m20; ma50 := m50; ma200 := m200;
              support := sup; resistance := res;
              volatility := annualised_std (List.map Close (rows data));
              timestamp := now |}.
Proof.
  unfold build_analysis. intros H.
  destruct (iloc_last (List.map Close (rows data))) as [price |] eqn:E1;
    [| discriminate].
  cbn [mbind option_bind] in H.
  destruct (iloc_last (rolling 20 _ _)) as [m20 |] eqn:E2; [| discriminate].
  cbn [mbind option_bind] in H.
  destruct (iloc_last (rolling 50 _ _)) as [m50 |] eqn:E3; [| discriminate].
  cbn [mbind option_bind] in H.
  destruct (if (200 <=? List.length (rows data))%nat
            then iloc_last (rolling 200 np_mean
                                    (List.map Close (rows data)))
            else Some m50) as [m200 |] eqn:E4; [| discriminate].
  cbn [mbind option_bind] in H.
  destruct (match assoc "RSI" (derived data) with
            | None => _
            | Some column => _
            end) as [r |] eqn:E5; [| discriminate].
  cbn [mbind option_bind] in H.
  destruct (_calculate_support_resistance data 20) as [[sup res] |] eqn:E6;
    [| discriminate].
  cbn [mbind option_bind] in H.
  destruct (_determine_trend data m20 m50 m200) as [[tr strength] |] eqn:E7;
    [| discriminate].
  cbn [mbind option_bind] in H.
  destruct (_generate_signal (Fin price) m20 m50 r sup res) as [sig conf]
    eqn:Esig.
  injection H as <-.
  exists price, m20, m50, m200, r, sup, res, tr, strength.
  rewrite Esig. cbn [fst snd].
  repeat split; assumption.
Qed.

Lemma analysis_result_fields (sym : string) (now : Z)
    (self self' : analyzer) (a : analysis) :
  analyze_symbol sym now self = (self', Result a) ->
  symbol a = sym
  /\ timestamp a = now
  /\ signal a <> Neutral
  /\ (exists c : Q, confidence a = Fin c /\ (45 <= c)%Q /\ (c <= 80)%Q)
  /\ (trend_strength a = 30 \/ trend_strength a = 50
      \/ trend_strength a = 85)
  /\ (forall data,
        snd (Provider.get_symbol_data sym "3mo" "4h" now (data_provider self))
        = Some data ->
        (List.length (rows data) < 200)%nat -> ma200 a = ma50 a).
Proof.
  unfold analyze_symbol. intros H.
  destruct (Provider.get_symbol_data sym "3mo" "4h" now (data_provider self))
    as [dp fetched].
  destruct fetched as [data |]; [| discriminate].
  destruct (Frame.empty data) eqn:Eempty; [discriminate |].
  destruct (build_analysis sym now data) as [a0 |] eqn:Ebuild;
    [| discriminate].
  injection H as _ <-.
  destruct (build_analysis_steps sym now data a0 Ebuild)
    as (price & m20 & m50 & m200 & r & sup & res & tr & strength
        & Hp & H20 & H50 & H200 & Hr & Hsr & Htr & ->).
  cbn [symbol timestamp signal confidence trend_strength ma200 ma50].
  destruct (signal_range (Fin price) m20 m50 r sup res) as [Hsig Hconf].
  split; [reflexivity |]. split; [reflexivity |].
  split; [exact Hsig |]. split; [exact Hconf |].
  split.
  - unfold _determine_trend in Htr. rewrite Hp in Htr.
    cbn [mbind option_bind] in Htr. injection Htr as _ <-.
    destruct (trend_eqb _ _); [right; right; reflexivity |].
    destruct (trend_eqb _ _); [right; left | left]; reflexivity.
  - intros data' Hdata' Hlen. cbn [snd] in Hdata'. injection Hdata' as <-.
    assert (E : (200 <=? List.length (rows data))%nat = false)
      by (apply Nat.leb_gt; exact Hlen).
    rewrite E in H200. congruence.
Qed.

(** X14.  Every analysis [analyze_symbol] returns is about the symbol
    asked for and stamped with the time of the call; its signal is buy,
    sell or wait; its confidence is a number between 45 and 80; its trend
    strength is 30, 50 or 85; and when the series has fewer than 200
    candles its 200-period average is the 50-period average. *)
Theorem X14_analysis_fields (sym : string) (now : Z) (self self' : analyzer)
    (a : analysis) :
  analyze_symbol sym now self = (self', Result a) ->
  symbol a = sym
  /\ timestamp a = now
  /\ (signal a = Buy \/ signal a = Sell \/ signal a = Wait)
  /\ (exists c : Q, confidence a = Fin c /\ (45 <= c)%Q /\ (c <= 80)%Q)
  /\ (trend_strength a = 30 \/ trend_strength a = 50
      \/ trend_strength a = 85)
  /\ (forall data,
        snd (Provider.get_symbol_data sym "3mo" "4h" now (data_provider self))
        = Some data ->
        (List.length (rows data) < 200)%nat -> ma200 a = ma50 a).
Proof.
  intros Hrun.
  destruct (analysis_result_fields sym now self self' a Hrun)
    as (Hsym & Htime & Hsig & Hconf & Hstrength & Hma).
  repeat split; try assumption.
  destruct (signal a); try congruence; auto.
Qed.

(** X15.  The history is append-only: [analyze_symbol] leaves it as it
    was or adds one entry at its end, and adds nothing when it returns an
    error.  If every entry of the history had a confidence above 60
    before the call, every entry has one after it. *)
Theorem X15_history_append_only (sym : string) (now : Z) (self : analyzer) :
  let r := analyze_symbol sym now self in
  (signals_history (fst r) = signals_history self
   \/ exists a, snd r = Result a
                /\ AnalysisOps.admitted a
                /\ signals_history (fst r) = signals_history self ++ [a])
  /\ (forall e, snd r = Error e ->
                signals_history (fst r) = signals_history self)
  /\ (List.Forall AnalysisOps.admitted (signals_history self) ->
      List.Forall AnalysisOps.admitted (signals_history (fst r))).
Proof.
  cbn zeta. unfold analyze_symbol.
  destruct (Provider.get_symbol_data sym "3mo" "4h" now (data_provider self))
    as [dp fetched].
  destruct fetched as [data |];
    [| cbn; split; [left; reflexivity | split; auto]].
  destruct (Frame.empty data);
    [cbn; split; [left; reflexivity | split; auto] |].
  destruct (build_analysis sym now data) as [a |];
    [| cbn; split; [left; reflexivity | split; auto]].
  cbn [fst snd]. unfold record_signal. cbn [signals_history].
  destruct (fgt (confidence a) (of_Z 60)) eqn:Egt; cbn [signals_history].
  - split.
    + right. exists a. repeat split. exact Egt.
    + split; [discriminate |].
      intros Hall. apply List.Forall_app. split; [exact Hall |].
      constructor; [exact Egt | constructor].
  - split; [left; reflexivity |]. split; auto.
Qed.

End AnalysisProperties.

Lemma X14_analysis_fields_witness :
  exists self' a,
    Analysis.analyze_symbol "EURUSD" 1000 Demo.desk
    = (self', Analysis.Result a)
    /\ Analysis.symbol a = "EURUSD"%string
    /\ fsame (Analysis.confidence a) (of_Z 80).
Proof.
  destruct (Analysis.analyze_symbol "EURUSD" 1000 Demo.desk)
    as [self' outcome] eqn:Erun.
  destruct outcome as [a | e]; [| vm_compute in Erun; discriminate].
  exists self', a. split; [reflexivity |].
  destruct (X14_analysis_fields "EURUSD" 1000 Demo.desk self' a Erun)
    as (Hsym & _).
  split; [exact Hsym |].
  vm_compute in Erun. injection Erun as _ <-. reflexivity.
Defined.

(** ** Analyses of whole and of short series *)

Section SeriesProperties.

Context `{A : Ambient}.

Import Signal Analysis.

Lemma determine_trend_some (data : frame) (m20 m50 m200 : fnum) (price : Q) :
  iloc_last (List.map Close (rows data)) = Some price ->
  _determine_trend data m20 m50 m200
  = Some ((short_trend_of (Fin price) m20, long_trend_of m20 m50 m200),
          if trend_eqb (short_trend_of (Fin price) m20)
                       (long_trend_of m20 m50 m200) then 85
          else if trend_eqb (long_trend_of m20 m50 m200) Sideways then 50
          else 30).
Proof. intros H. unfold _determine_trend. rewrite H. reflexivity. Qed.

(** The body of [analyze_symbol] goes through on every frame with rows
    whose RSI column, if it has one, is not empty. *)
Lemma build_analysis_some (sym : string) (now : Z) (data : frame) :
  rows data <> [] ->
  (forall column, assoc "RSI" (derived data) = Some column ->
                  column <> []) ->
  exists a, build_analysis sym now data = Some a.
Proof.
  intros Hrows Hrsi.
  assert (Hlen : (0 < List.length (List.map Close (rows data)))%nat).
  { rewrite List.length_map. destruct (rows data); [congruence | simpl; lia]. }
  unfold build_analysis.
  destruct (iloc_last_some _ Hlen) as [price Hp]. rewrite Hp.
  cbn [mbind option_bind].
  destruct (iloc_last_some (rolling 20 np_mean (List.map Close (rows data))))
    as [m20 ->]; [rewrite length_rolling; exact Hlen |].
  cbn [mbind option_bind].
  destruct (iloc_last_some (rolling 50 np_mean (List.map Close (rows data))))
    as [m50 ->]; [rewrite length_rolling; exact Hlen |].
  cbn [mbind option_bind].
  assert (H200 : exists m200,
            (if (200 <=? List.length (rows data))%nat
             then iloc_last (rolling 200 np_mean
                                     (List.map Close (rows data)))
             else Some m50) = Some m200).
  { destruct (200 <=? List.length (rows data))%nat; [| eexists; reflexivity].
    apply iloc_last_some. rewrite length_rolling. exact Hlen. }
  destruct H200 as [m200 ->]. cbn [mbind option_bind].
  assert (Hr : exists r,
            match assoc "RSI" (derived data) with
            | None => iloc_last (_calculate_rsi (List.map Close (rows data))
                                                14)
            | Some column => iloc_last column
            end = Some r).
  { destruct (assoc "RSI" (derived data)) as [column |].
    - apply iloc_last_nonempty. apply Hrsi. reflexivity.
    - apply iloc_last_some. rewrite length_calculate_rsi. exact Hlen. }
  destruct Hr as [r ->]. cbn [mbind option_bind].
  destruct (support_resistance_some data 20 Hrows) as (sup & res & ->).
  cbn [mbind option_bind].
  rewrite (determine_trend_some data m20 m50 m200 price Hp).
  cbn [mbind option_bind].
  destruct (_generate_signal (Fin price) m20 m50 r sup res).
  eexists. reflexivity.
Qed.

(** X16.  As long as every cached frame is non-empty, [analyze_symbol]
    never answers "no data".  When the frame it fetched carries no RSI
    column, so that the RSI is the one [_calculate_rsi] computes, it
    answers with an analysis; this is the case of every query that misses
    the cache while no source is healthy, which is answered with the bare
    synthetic series. *)
Theorem X16_analysis_never_lacks_data (sym : string) (now : Z)
    (self : analyzer) :
  ProviderOps.cache_well_formed (data_provider self) ->
  let fetched :=
    Provider.get_symbol_data sym "3mo" "4h" now (data_provider self) in
  snd (analyze_symbol sym now self) <> Error NoData
  /\ ((forall data, snd fetched = Some data ->
                    assoc "RSI" (derived data) = None) ->
      exists a, snd (analyze_symbol sym now self) = Result a)
  /\ (Provider.working_sources (data_provider self) = [] ->
      Provider.cache_hit (Provider.cache_key sym "3mo" "4h") now
                         (data_provider self) = None ->
      (exists data, snd fetched = Some data
                    /\ assoc "RSI" (derived data) = None)
      /\ exists a, snd (analyze_symbol sym now self) = Result a).
Proof.
  intros Hwf fetched.
  destruct (query_answers sym "3mo" "4h" now (data_provider self) Hwf)
    as (data & Hdata & Hne & _).
  fold fetched in Hdata.
  assert (Hrows : rows data <> []).
  { unfold Frame.empty in Hne. destruct (rows data); discriminate. }
  assert (Hlocal : assoc "RSI" (derived data) = None ->
                   exists a, snd (analyze_symbol sym now self) = Result a).
  { intros Hnone. unfold analyze_symbol. fold fetched.
    destruct fetched as [dp res]. cbn [snd] in *. subst res.
    rewrite Hne.
    destruct (build_analysis_some sym now data Hrows) as [a ->].
    { intros column E. congruence. }
    exists a. reflexivity. }
  split; [| split].
  - unfold analyze_symbol. fold fetched.
    destruct fetched as [dp res]. cbn [snd] in *. subst res.
    rewrite Hne.
    destruct (build_analysis sym now data); cbn [snd]; discriminate.
  - intros Hrsi. apply Hlocal. apply Hrsi. exact Hdata.
  - intros Hnone Hmiss.
    assert (Hbare : assoc "RSI" (derived data) = None).
    { destruct (generator_frame_nonempty sym now (data_provider self))
        as (synthetic & Hs & _ & Hd).
      revert Hdata. unfold fetched, Provider.get_symbol_data.
      rewrite Hmiss, Hnone, Hs. intros E. injection E as <-.
      rewrite Hd. reflexivity. }
    split; [exists data; split; assumption |].
    apply Hlocal. exact Hbare.
Qed.

Lemma rolling_last_short {T : Type} (w : nat) (agg : list T -> fnum)
    (xs : list T) :
  (0 < List.length xs < w)%nat ->
  iloc_last (rolling w agg xs) = Some NaN.
Proof.
  intros [H0 Hw].
  rewrite iloc_last_nth.
  - rewrite length_rolling, rolling_nth by lia.
    rewrite window_short by lia. reflexivity.
  - intros E. apply (f_equal (@List.length fnum)) in E.
    rewrite length_rolling in E. simpl in E. lia.
Qed.

Lemma rsi_last_short (prices : list Q) :
  (0 < List.length prices <= 13)%nat ->
  iloc_last (_calculate_rsi prices 14) = Some NaN.
Proof.
  intros [H0 H13].
  rewrite iloc_last_nth.
  - rewrite length_calculate_rsi. apply rsi_warm_up; lia.
  - intros E. apply (f_equal (@List.length fnum)) in E.
    rewrite length_calculate_rsi in E. simpl in E. lia.
Qed.

(** X17.  On a series of at most 13 candles without an RSI column the
    analysis has no average and no RSI (all NaN), reports the trend as
    falling over sideways with strength 50, takes the lowest low and the
    highest high of the whole series as support and resistance, and lets
    the support/resistance voter decide alone: buy at 80 when the price
    is within 1% of the support, else sell at 80 when it is within 1% of
    the resistance, else wait at 45. *)
Theorem X17_short_series (sym : string) (now : Z) (data : frame) :
  rows data <> [] ->
  (List.length (rows data) <= 13)%nat ->
  assoc "RSI" (derived data) = None ->
  exists a,
    build_analysis sym now data = Some a
    /\ rsi a = NaN /\ ma20 a = NaN /\ ma50 a = NaN /\ ma200 a = NaN
    /\ trend a = (Falling, Sideways) /\ trend_strength a = 50
    /\ support a = series_min (List.map Low (rows data))
    /\ resistance a = series_max (List.map High (rows data))
    /\ (near (current_price a) (support a) = true ->
        signal a = Buy /\ fsame (confidence a) (of_Z 80))
    /\ (near (current_price a) (support a) = false ->
        near (current_price a) (resistance a) = true ->
        signal a = Sell /\ fsame (confidence a) (of_Z 80))
    /\ (near (current_price a) (support a) = false ->
        near (current_price a) (resistance a) = false ->
        signal a = Wait /\ fsame (confidence a) (of_Z 45)).
Proof.
  intros Hrows Hlen Hrsi.
  assert (Hn : (0 < List.length (List.map Close (rows data)))%nat).
  { rewrite List.length_map. destruct (rows data); [congruence | simpl; lia]. }
  assert (Hn' : List.length (List.map Close (rows data))
                = List.length (rows data)) by apply List.length_map.
  unfold build_analysis.
  destruct (iloc_last_some _ Hn) as [price Hp]. rewrite Hp.
  cbn [mbind option_bind].
  rewrite (rolling_last_short 20) by lia. cbn [mbind option_bind].
  rewrite (rolling_last_short 50) by lia. cbn [mbind option_bind].
  assert (E200 : (200 <=? List.length (rows data))%nat = false)
    by (apply Nat.leb_gt; lia).
  rewrite E200. cbn [mbind option_bind].
  rewrite Hrsi, rsi_last_short by lia. cbn [mbind option_bind].
  unfold _calculate_support_resistance.
  assert (E20 : (List.length (rows data) <? 20)%nat = true)
    by (apply Nat.ltb_lt; lia).
  rewrite E20. cbn [mbind option_bind].
  rewrite (determine_trend_some data NaN NaN NaN price Hp).
  cbn [mbind option_bind].
  set (sup := series_min (List.map Low (rows data))).
  set (res := series_max (List.map High (rows data))).
  destruct (_generate_signal (Fin price) NaN NaN NaN sup res)
    as [sig conf] eqn:Esig.
  eexists. split; [reflexivity |].
  cbn [rsi ma20 ma50 ma200 trend trend_strength support resistance
       current_price signal confidence].
  repeat (split; [reflexivity |]).
  unfold _generate_signal, cast_votes, sr_vote in Esig.
  destruct (near (Fin price) sup) eqn:Es.
  - injection Esig as <- <-.
    split; [intros _; split; reflexivity |].
    split; discriminate.
  - destruct (near (Fin price) res) eqn:Er.
    + injection Esig as <- <-.
      split; [discriminate |].
      split; [intros _ _; split; reflexivity | intros _; discriminate].
    + injection Esig as <- <-.
      split; [discriminate |].
      split; [intros _; discriminate | intros _ _; split; reflexivity].
Qed.

Lemma fold_min_le (l : list Q) (x : Q) :
  (List.fold_left Qmin l x <= x)%Q
  /\ forall y, List.In y l -> (List.fold_left Qmin l x <= y)%Q.
Proof.
  revert x. induction l as [| z l IH]; intros x; simpl.
  - split; [apply Qle_refl | intros y []].
  - destruct (IH (Qmin x z)) as [H1 H2]. split.
    + eapply Qle_trans; [exact H1 | apply Q.le_min_l].
    + intros y [<- | Hy]; [| apply H2; exact Hy].
      eapply Qle_trans; [exact H1 | apply Q.le_min_r].
Qed.

Lemma fold_max_ge (l : list Q) (x : Q) :
  (x <= List.fold_left Qmax l x)%Q
  /\ forall y, List.In y l -> (y <= List.fold_left Qmax l x)%Q.
Proof.
  revert x. induction l as [| z l IH]; intros x; simpl.
  - split; [apply Qle_refl | intros y []].
  - destruct (IH (Qmax x z)) as [H1 H2]. split.
    + eapply Qle_trans; [apply Q.le_max_l | exact H1].
    + intros y [<- | Hy]; [| apply H2; exact Hy].
      eapply Qle_trans; [apply Q.le_max_r | exact H1].
Qed.

Lemma series_min_le (xs : list Q) (y : Q) :
  List.In y xs -> exists m, series_min xs = Fin m /\ (m <= y)%Q.
Proof.
  destruct xs as [| x rest]; [intros [] |]. intros Hy.
  eexists. split; [reflexivity |].
  destruct (fold_min_le rest x) as [H1 H2].
  destruct Hy as [<- | Hy]; [exact H1 | apply H2; exact Hy].
Qed.

Lemma series_max_ge (xs : list Q) (y : Q) :
  List.In y xs -> exists m, series_max xs = Fin m /\ (y <= m)%Q.
Proof.
  destruct xs as [| x rest]; [intros [] |]. intros Hy.
  eexists. split; [reflexivity |].
  destruct (fold_max_ge rest x) as [H1 H2].
  destruct Hy as [<- | Hy]; [exact H1 | apply H2; exact Hy].
Qed.

(** The last window of a rolling aggregate holds the last value. *)
Lemma rolling_last_full {T : Type} (w : nat) (agg : list T -> fnum)
    (front : list T) (x : T) :
  (0 < w <= List.length (front ++ [x]))%nat ->
  exists win, iloc_last (rolling w agg (front ++ [x])) = Some (agg win)
              /\ List.In x win.
Proof.
  intros [H0 Hw]. rewrite List.length_app in Hw. simpl in Hw.
  rewrite iloc_last_nth.
  2: { intros E. apply (f_equal (@List.length fnum)) in E.
       rewrite length_rolling, List.length_app in E. simpl in E. lia. }
  rewrite length_rolling, rolling_nth
    by (rewrite List.length_app; simpl; lia).
  unfold window_at.
  assert (E1 : (w <=? List.length (front ++ [x]) - 1 + 1)%nat = true)
    by (apply Nat.leb_le; rewrite List.length_app; simpl; lia).
  assert (E2 : (List.length (front ++ [x]) - 1
                <? List.length (front ++ [x]))%nat = true)
    by (apply Nat.ltb_lt; rewrite List.length_app; simpl; lia).
  rewrite E1, E2. cbn [andb].
  eexists. split; [reflexivity |].
  rewrite List.length_app. simpl.
  rewrite List.skipn_app.
  replace (List.length front + 1 - 1 + 1 - w - List.length front)%nat
    with 0%nat by lia.
  cbn [List.skipn].
  rewrite List.firstn_all2.
  - apply List.in_or_app. right. left. reflexivity.
  - rewrite List.length_app, List.length_skipn. simpl. lia.
Qed.

(** X18.  On a frame whose candles are ordered (low at or below open and
    close, high at or above them) the support and the resistance are
    numbers and enclose the current price, whichever branch of
    [_calculate_support_resistance] computes them. *)
Theorem X18_price_between_levels (data : frame) :
  rows data <> [] ->
  List.Forall ohlc_ordered (rows data) ->
  exists s r p : Q,
    _calculate_support_resistance data 20 = Some (Fin s, Fin r)
    /\ iloc_last (List.map Close (rows data)) = Some p
    /\ (s <= p)%Q /\ (p <= r)%Q.
Proof.
  intros Hrows Hall.
  destruct (List.exists_last Hrows) as (front & row & Erows).
  assert (Hrow : ohlc_ordered row).
  { rewrite List.Forall_forall in Hall. apply Hall. rewrite Erows.
    apply List.in_or_app. right. left. reflexivity. }
  destruct Hrow as [Hlow Hhigh].
  assert (Hlc : (Low row <= Close row)%Q)
    by (eapply Qle_trans; [exact Hlow | apply Q.le_min_r]).
  assert (Hch : (Close row <= High row)%Q)
    by (eapply Qle_trans; [apply Q.le_max_r | exact Hhigh]).
  unfold _calculate_support_resistance.
  rewrite Erows, !List.map_app. cbn [List.map].
  rewrite iloc_last_app.
  destruct (List.length (front ++ [row]) <? 20)%nat eqn:E20.
  - destruct (series_min_le (List.map Low front ++ [Low row]) (Low row))
      as (s & -> & Hs); [apply List.in_or_app; right; left; reflexivity |].
    destruct (series_max_ge (List.map High front ++ [High row]) (High row))
      as (r & -> & Hr); [apply List.in_or_app; right; left; reflexivity |].
    exists s, r, (Close row).
    repeat split; [eapply Qle_trans; eassumption
                  | eapply Qle_trans; eassumption].
  - apply Nat.ltb_ge in E20. rewrite List.length_app in E20. simpl in E20.
    destruct (rolling_last_full 20 series_min (List.map Low front) (Low row))
      as (wl & -> & Hwl);
      [rewrite List.length_app, List.length_map; simpl; lia |].
    destruct (rolling_last_full 20 series_max (List.map High front)
                                (High row))
      as (wh & -> & Hwh);
      [rewrite List.length_app, List.length_map; simpl; lia |].
    cbn [mbind option_bind].
    destruct (series_min_le wl (Low row) Hwl) as (s & -> & Hs).
    destruct (series_max_ge wh (High row) Hwh) as (r & -> & Hr).
    exists s, r, (Close row).
    repeat split; [eapply Qle_trans; eassumption
                  | eapply Qle_trans; eassumption].
Qed.

End SeriesProperties.

Lemma X16_analysis_never_lacks_data_witness :
  ProviderOps.cache_well_formed (Analysis.data_provider Demo.idle_desk)
  /\ snd (Analysis.analyze_symbol "USOIL" 1000 Demo.idle_desk)
     <> Analysis.Error Analysis.NoData
  /\ exists a, snd (Analysis.analyze_symbol "USOIL" 1000 Demo.idle_desk)
               = Analysis.Result a.
Proof.
  assert (Hwf : ProviderOps.cache_well_formed
                  (Analysis.data_provider Demo.idle_desk))
    by (apply empty_cache_well_formed; reflexivity).
  split; [exact Hwf |].
  destruct (X16_analysis_never_lacks_data "USOIL" 1000 Demo.idle_desk Hwf)
    as (Hdata & _ & Hbare).
  split; [exact Hdata |].
  exact (proj2 (Hbare eq_refl eq_refl)).
Defined.

Lemma X17_short_series_witness :
  rows (Sample.steady 5 1) <> []
  /\ (List.length (rows (Sample.steady 5 1)) <= 13)%nat
  /\ assoc "RSI" (derived (Sample.steady 5 1)) = None
  /\ exists a,
       Analysis.build_analysis (A := Demo.ambient) "EURUSD" 0
                               (Sample.steady 5 1) = Some a
       /\ Analysis.rsi a = NaN
       /\ Analysis.signal a = Signal.Buy.
Proof.
  assert (H1 : rows (Sample.steady 5 1) <> []) by (vm_compute; discriminate).
  assert (H2 : (List.length (rows (Sample.steady 5 1)) <= 13)%nat)
    by (vm_compute; lia).
  assert (H3 : assoc "RSI" (derived (Sample.steady 5 1)) = None)
    by reflexivity.
  refine (conj H1 (conj H2 (conj H3 _))).
  destruct (X17_short_series (A := Demo.ambient) "EURUSD" 0
                             (Sample.steady 5 1) H1 H2 H3)
    as (a & Hbuild & Hrsi & _ & _ & _ & _ & _ & Hsup & _ & Hbuy & _).
  exists a. split; [exact Hbuild |]. split; [exact Hrsi |].
  apply Hbuy. rewrite Hsup.
  vm_compute in Hbuild. injection Hbuild as <-. reflexivity.
Defined.

Lemma X18_price_between_levels_witness :
  rows Demo.eurusd_frame <> []
  /\ List.Forall ohlc_ordered (rows Demo.eurusd_frame)
  /\ exists s r p : Q,
       Analysis._calculate_support_resistance Demo.eurusd_frame 20
       = Some (Fin s, Fin r)
       /\ (s <= p)%Q /\ (p <= r)%Q.
Proof.
  assert (H1 : rows Demo.eurusd_frame <> []) by (vm_compute; discriminate).
  assert (H2 : List.Forall ohlc_ordered (rows Demo.eurusd_frame)).
  { vm_compute. repeat constructor; discriminate. }
  refine (conj H1 (conj H2 _)).
  destruct (X18_price_between_levels Demo.eurusd_frame H1 H2)
    as (s & r & p & Hsr & _ & Hlo & Hhi).
  exists s, r, p. repeat split; assumption.
Defined.

(** ** Reading the history, batch signals, warm-up, timestamps *)

Section BatchProperties.

Context `{A : Ambient}.

Import Signal Analysis.

(** X19.  [get_signal_history] only returns stored entries, and with a
    non-empty symbol only entries of that symbol. *)
Theorem X19_history_read_sound (sym : option string) (limit : Z)
    (self : analyzer) (a : analysis) :
  List.In a (get_signal_history sym limit self) ->
  List.In a (signals_history self)
  /\ (forall s, sym = Some s -> s <> ""%string -> symbol a = s).
Proof.
  unfold get_signal_history. intros Hin.
  assert (Hsel : List.In a (selected sym self)).
  { destruct (selected sym self) as [| a0 rest] eqn:E; [destruct Hin |].
    unfold slice_from in Hin. exact (In_skipn _ _ _ Hin). }
  clear Hin. unfold selected in Hsel.
  destruct sym as [s |]; [| split; [exact Hsel | discriminate]].
  destruct (String.eqb_spec s "") as [-> | Hs].
  - split; [exact Hsel |]. intros s' E Hne. injection E as <-. congruence.
  - apply List.filter_In in Hsel as [Hin Heq].
    split; [exact Hin |]. intros s' E _. injection E as <-.
    apply String.eqb_eq. exact Heq.
Qed.

(** X20.  A negative limit does not select the newest entries: with
    limit [-k] the slice is [history[k:]], the selected history without
    its [k] oldest entries. *)
Theorem X20_negative_limit (sym : option string) (limit : Z)
    (self : analyzer) :
  limit < 0 ->
  get_signal_history sym limit self
  = List.skipn (Z.to_nat (- limit)) (selected sym self).
Proof.
  intros Hneg. unfold get_signal_history.
  destruct (selected sym self) as [| a0 rest] eqn:E.
  - rewrite List.skipn_nil. reflexivity.
  - unfold slice_from.
    assert (Hpos : (- limit <? 0) = false) by (apply Z.ltb_ge; lia).
    rewrite Hpos.
    destruct (Z.le_gt_cases (- limit) (Z.of_nat (List.length (a0 :: rest))))
      as [Hle | Hgt].
    + rewrite Z.min_l by exact Hle. reflexivity.
    + rewrite Z.min_r by lia. rewrite Nat2Z.id.
      rewrite !List.skipn_all2; [reflexivity | lia | lia].
Qed.

(** *** The batch *)

Lemma insert_desc_perm {T : Type} (key : T -> fnum) (x : T) (l : list T) :
  Permutation (AnalysisOps.insert_desc key x l) (x :: l).
Proof.
  induction l as [| y l IH]; simpl; [reflexivity |].
  destruct (flt (key x) (key y)); [| reflexivity].
  rewrite IH. apply perm_swap.
Qed.

Lemma sorted_desc_perm {T : Type} (key : T -> fnum) (l : list T) :
  Permutation (AnalysisOps.sorted_desc key l) l.
Proof.
  induction l as [| x l IH]; simpl; [reflexivity |].
  rewrite insert_desc_perm. constructor. exact IH.
Qed.

Lemma insert_desc_sorted {T : Type} (key : T -> fnum) (x : T) (l : list T) :
  (exists c, key x = Fin c) ->
  List.Forall (fun y => exists c, key y = Fin c) l ->
  StronglySorted (AnalysisOps.key_ge key) l ->
  StronglySorted (AnalysisOps.key_ge key) (AnalysisOps.insert_desc key x l).
Proof.
  intros [cx Hx] Hfin Hsorted.
  induction Hsorted as [| y l Hl IH Hy]; simpl.
  - constructor; constructor.
  - apply List.Forall_cons_iff in Hfin as [[cy Hcy] Hfin].
    rewrite Hx, Hcy. cbn [flt].
    destruct (Qltb cx cy) eqn:E.
    + apply Qltb_lt in E.
      constructor; [apply IH; exact Hfin |].
      apply List.Forall_forall. intros z Hz.
      apply (Permutation_in _ (insert_desc_perm key x l)) in Hz.
      destruct Hz as [<- | Hz].
      * exists cy, cx. repeat split; try assumption.
        apply Qlt_le_weak. exact E.
      * rewrite List.Forall_forall in Hy. apply Hy. exact Hz.
    + apply Qltb_ge in E.
      constructor; [constructor; assumption |].
      constructor; [exists cx, cy; repeat split; assumption |].
      apply List.Forall_forall. intros z Hz.
      rewrite List.Forall_forall in Hy.
      destruct (Hy z Hz) as (cy' & cz & Hcy' & Hcz & Hle).
      rewrite Hcy in Hcy'. injection Hcy' as <-.
      exists cx, cz. repeat split; try assumption.
      eapply Qle_trans; eassumption.
Qed.

Lemma sorted_desc_sorted {T : Type} (key : T -> fnum) (l : list T) :
  List.Forall (fun y => exists c, key y = Fin c) l ->
  StronglySorted (AnalysisOps.key_ge key) (AnalysisOps.sorted_desc key l).
Proof.
  induction 1 as [| x l Hx Hl IH]; simpl; [constructor |].
  apply insert_desc_sorted; [exact Hx | | exact IH].
  apply List.Forall_forall. intros y Hy.
  apply (Permutation_in _ (sorted_desc_perm key l)) in Hy.
  rewrite List.Forall_forall in Hl. apply Hl. exact Hy.
Qed.

Lemma dict_set_In {V : Type} (key : string) (value : V)
    (d : list (string * V)) (k : string) (v : V) :
  List.In (k, v) (AnalysisOps.dict_set key value d) ->
  (k = key /\ v = value) \/ List.In (k, v) d.
Proof.
  induction d as [| [k0 v0] d IH]; simpl.
  - intros [E | []]. injection E as <- <-. left. split; reflexivity.
  - destruct (String.eqb_spec key k0) as [-> | Hne]; simpl.
    + intros [E | H]; [| right; right; exact H].
      injection E as <- <-. left. split; reflexivity.
    + intros [E | H]; [right; left; exact E |].
      destruct (IH H) as [Hl | Hr]; [left; exact Hl | right; right; exact Hr].
Qed.

Lemma dict_set_keys {V : Type} (key : string) (value : V)
    (d : list (string * V)) :
  List.NoDup (List.map fst d) ->
  List.NoDup (List.map fst (AnalysisOps.dict_set key value d)).
Proof.
  induction d as [| [k0 v0] d IH]; simpl; intros Hnd.
  - constructor; [intros [] | constructor].
  - destruct (String.eqb_spec key k0) as [-> | Hne]; simpl; [exact Hnd |].
    apply List.NoDup_cons_iff in Hnd as [Hnotin Hnd].
    constructor; [| apply IH; exact Hnd].
    intros Hin. apply List.in_map_iff in Hin as ([k v] & Hk & Hin).
    simpl in Hk. subst k.
    destruct (dict_set_In key value d k0 v Hin) as [[E _] | Hd];
      [congruence |].
    apply Hnotin. apply List.in_map_iff. exists (k0, v). split; auto.
Qed.

Lemma collect_signals_entries (symbols all : list string) (i : nat)
    (clock : nat -> Z) (signals : list (string * AnalysisOps.summary))
    (self : analyzer) :
  (forall s, List.In s symbols -> List.In s all) ->
  List.Forall (AnalysisOps.entry_ok all) signals ->
  List.NoDup (List.map fst signals) ->
  let r := AnalysisOps.collect_signals symbols i clock signals self in
  List.Forall (AnalysisOps.entry_ok all) (snd r)
  /\ List.NoDup (List.map fst (snd r)).
Proof.
  revert i signals self.
  induction symbols as [| sym rest IH]; intros i signals self Hsub Hok Hnd;
    cbn zeta; cbn [AnalysisOps.collect_signals].
  - split; assumption.
  - destruct (analyze_symbol sym (clock i) self) as [self1 outcome] eqn:Erun.
    assert (Hrest : forall s, List.In s rest -> List.In s all)
      by (intros s Hs; apply Hsub; right; exact Hs).
    destruct outcome as [a | e]; [| apply IH; assumption].
    apply IH; [exact Hrest | | apply dict_set_keys; exact Hnd].
    destruct (analysis_result_fields sym (clock i) self self1 a Erun)
      as (Hsym & _ & Hsig & Hconf & _).
    apply List.Forall_forall. intros [k v] Hin.
    destruct (dict_set_In _ _ _ _ _ Hin) as [[-> ->] | Hold].
    + split; [apply Hsub; left; reflexivity |].
      split; [exact Hsig | exact Hconf].
    + rewrite List.Forall_forall in Hok. apply Hok. exact Hold.
Qed.

(** X21.  [get_trading_signals] returns its entries in descending order
    of confidence, at most one per symbol, each for a symbol of the
    eight-symbol watch list, with a buy, sell or wait signal and a
    confidence between 45 and 80. *)
Theorem X21_trading_signals_sorted (clock : nat -> Z) (self : analyzer) :
  let r := AnalysisOps.get_trading_signals clock self in
  StronglySorted AnalysisOps.confidence_ge (snd r)
  /\ List.NoDup (List.map fst (snd r))
  /\ (List.length (snd r) <= 8)%nat
  /\ forall sym s,
       List.In (sym, s) (snd r) ->
       List.In sym AnalysisOps.trading_symbols
       /\ (AnalysisOps.signal s = Buy \/ AnalysisOps.signal s = Sell
           \/ AnalysisOps.signal s = Wait)
       /\ exists c : Q, AnalysisOps.confidence s = Fin c
                        /\ (45 <= c)%Q /\ (c <= 80)%Q.
Proof.
  cbn zeta. unfold AnalysisOps.get_trading_signals.
  destruct (collect_signals_entries AnalysisOps.trading_symbols
              AnalysisOps.trading_symbols 0 clock [] self)
    as [Hok Hnd]; [auto | constructor | constructor |].
  destruct (AnalysisOps.collect_signals AnalysisOps.trading_symbols 0 clock
                                        [] self) as [self1 signals].
  cbn [fst snd] in *.
  set (key := fun item : string * AnalysisOps.summary =>
                AnalysisOps.confidence (snd item)).
  pose proof (sorted_desc_perm key signals) as Hperm.
  assert (Hnd' : List.NoDup
                   (List.map fst (AnalysisOps.sorted_desc key signals))).
  { apply (Permutation_NoDup (l := List.map fst signals)); [| exact Hnd].
    apply Permutation_map. symmetry. exact Hperm. }
  split; [| split; [exact Hnd' | split]].
  - apply (sorted_desc_sorted key).
    apply List.Forall_forall. intros item Hitem.
    rewrite List.Forall_forall in Hok.
    destruct (Hok item Hitem) as (_ & _ & c & Hc & _).
    exists c. exact Hc.
  - assert (Hincl : List.incl
                      (List.map fst (AnalysisOps.sorted_desc key signals))
                      AnalysisOps.trading_symbols).
    { intros k Hk. apply List.in_map_iff in Hk as (item & <- & Hitem).
      apply (Permutation_in _ Hperm) in Hitem.
      rewrite List.Forall_forall in Hok. apply (Hok item Hitem). }
    pose proof (List.NoDup_incl_length Hnd' Hincl) as Hlen.
    rewrite List.length_map in Hlen. exact Hlen.
  - intros sym s Hin. apply (Permutation_in _ Hperm) in Hin.
    rewrite List.Forall_forall in Hok.
    destruct (Hok (sym, s) Hin) as (Hsym & Hsig & Hconf).
    split; [exact Hsym |]. split; [| exact Hconf].
    cbn [snd] in Hsig. destruct (AnalysisOps.signal s); try congruence; auto.
Qed.

(** X22.  [_calculate_rsi] returns one value per price, and the values at
    the first 13 positions are NaN: the 14-value window of the rolling
    means is not yet full there. *)
Theorem X22_rsi_warm_up (prices : list Q) :
  List.length (_calculate_rsi prices 14) = List.length prices
  /\ forall i, (i < 13)%nat -> (i < List.length prices)%nat ->
               List.nth_error (_calculate_rsi prices 14) i = Some NaN.
Proof.
  split; [apply length_calculate_rsi |].
  intros i H13 Hlen. apply rsi_warm_up; assumption.
Qed.

End BatchProperties.

Lemma X19_history_read_sound_witness :
  List.In (Demo.entry "EURUSD" 90)
          (Analysis.get_signal_history (Some "EURUSD"%string) 1
                                       Demo.busy_desk)
  /\ List.In (Demo.entry "EURUSD" 90)
             (Analysis.signals_history Demo.busy_desk).
Proof.
  assert (Hin : List.In (Demo.entry "EURUSD" 90)
                        (Analysis.get_signal_history
                           (Some "EURUSD"%string) 1 Demo.busy_desk))
    by (left; reflexivity).
  exact (conj Hin
           (proj1 (X19_history_read_sound (Some "EURUSD"%string) 1
                                          Demo.busy_desk _ Hin))).
Defined.

Lemma X20_negative_limit_witness :
  (-1 < 0)%Z
  /\ Analysis.get_signal_history None (-1) Demo.busy_desk
     = [Demo.entry "GBPUSD" 80; Demo.entry "EURUSD" 90].
Proof.
  assert (Hneg : (-1 < 0)%Z) by lia.
  split; [exact Hneg |].
  rewrite (X20_negative_limit None (-1) Demo.busy_desk Hneg).
  reflexivity.
Defined.

(** ** The fallback chain and the timestamps of the synthetic series *)

Section ChainProperties.

Context `{A : Ambient}.

Import Provider ProviderOps.

(** X24.  When the query misses the cache and every healthy source
    fails, each healthy source is called exactly once, in the order of
    the source list, and then the generator once: these are all the
    calls the query makes. *)
Theorem X24_fallback_chain
    (symbol period interval : string) (now : Z) (st : state) :
  cache_hit (cache_key symbol period interval) now st = None ->
  snd (try_sources (working_sources st) symbol period interval now st)
  = None ->
  trace (fst (get_symbol_data symbol period interval now st))
  = trace st ++ List.map AdapterCall (working_sources st)
             ++ [GeneratorCall symbol].
Proof.
  intros Hmiss Hfail. unfold get_symbol_data. rewrite Hmiss.
  destruct (working_sources st) as [| source rest] eqn:Esrc.
  - pose proof (generator_effect symbol now st) as (_ & _ & _ & Htrace).
    cbv zeta in Htrace. rewrite Htrace. reflexivity.
  - pose proof (try_sources_effect (source :: rest) symbol period interval
                                   now st)
      as (called & Htrace & _ & _ & Hres).
    destruct (try_sources (source :: rest) symbol period interval now st)
      as [st1 res].
    cbn [fst snd] in *. subst res. destruct Hres as [_ ->].
    pose proof (generator_effect symbol now st1) as (_ & _ & _ & Gtrace).
    destruct (generator_frame_nonempty symbol now st1) as (data & Hdata & _).
    destruct (_get_dynamic_default_data symbol now st1) as [st2 r2].
    cbn [fst snd] in *. subst r2.
    rewrite finish_effect. cbn [fst trace with_cache].
    rewrite Gtrace, Htrace. rewrite <- List.app_assoc. reflexivity.
Qed.

Lemma synthetic_row_time (i : nat) (date : Z) (price : Q) (s : rng_state) :
  r_time (fst (synthetic_row i date price s)) = date.
Proof.
  unfold synthetic_row.
  destruct (np_normal 0 _ s) as [n1 s1].
  destruct (np_normal 0 _ s1) as [n2 s2].
  destruct (np_normal 0 _ s2) as [n3 s3].
  destruct (np_random s3) as [u s4].
  reflexivity.
Qed.

Lemma synthetic_rows_times (prices : list Q) (i : nat) (now : Z)
    (s : rng_state) :
  List.map r_time (fst (synthetic_rows i now prices s))
  = List.map (fun k => now - (499 - Z.of_nat k) * hour)
             (List.seq i (List.length prices)).
Proof.
  revert i s. induction prices as [| price rest IH]; intros i s;
    [reflexivity |].
  cbn [synthetic_rows List.length List.seq List.map].
  pose proof (synthetic_row_time i (now - (499 - Z.of_nat i) * hour)
                                 price s) as Hrow.
  destruct (synthetic_row i _ price s) as [row s1].
  specialize (IH (S i) s1).
  destruct (synthetic_rows (S i) now rest s1) as [more s2].
  cbn [fst List.map] in *. rewrite Hrow, IH. reflexivity.
Qed.

Lemma dropna_times (rs : list raw_row) :
  List.Forall well_formed_row rs ->
  List.map time (dropna rs) = List.map r_time rs.
Proof.
  induction 1 as [| r rs (c & Hc & _) _ IH]; [reflexivity |].
  unfold dropna in *. cbn [List.flat_map List.map]. rewrite Hc.
  cbn [List.app List.map]. rewrite IH. f_equal.
  unfold complete in Hc.
  destruct (r_open r), (r_high r), (r_low r), (r_close r);
    try discriminate.
  injection Hc as <-. reflexivity.
Qed.

Lemma sublist_In {T : Type} (l1 l2 : list T) (x : T) :
  sublist l1 l2 -> List.In x l1 -> List.In x l2.
Proof.
  induction 1 as [| y l1 l2 _ IH | y l1 l2 _ IH]; simpl; intros Hin.
  - exact Hin.
  - destruct Hin as [-> | Hin]; [left; reflexivity | right; apply IH, Hin].
  - right. apply IH, Hin.
Qed.

Lemma sublist_map {S T : Type} (f : S -> T) (l1 l2 : list S) :
  sublist l1 l2 -> sublist (List.map f l1) (List.map f l2).
Proof.
  induction 1; simpl; constructor; assumption.
Qed.

Lemma sorted_sublist {T : Type} (R : T -> T -> Prop) (l1 l2 : list T) :
  sublist l1 l2 -> StronglySorted R l2 -> StronglySorted R l1.
Proof.
  induction 1 as [| y l1 l2 Hsub IH | y l1 l2 Hsub IH]; intros Hs.
  - constructor.
  - apply StronglySorted_inv in Hs as [Hs Hy].
    constructor; [apply IH; exact Hs |].
    rewrite List.Forall_forall in *. intros z Hz.
    apply Hy. exact (sublist_In _ _ _ Hsub Hz).
  - apply StronglySorted_inv in Hs as [Hs _]. apply IH. exact Hs.
Qed.

Lemma hourly_sorted (now : Z) (n i : nat) :
  StronglySorted Z.lt
    (List.map (fun k => now - (499 - Z.of_nat k) * hour) (List.seq i n)).
Proof.
  revert i. induction n as [| n IH]; intros i; cbn [List.seq List.map];
    [constructor |].
  constructor; [apply IH |].
  apply List.Forall_forall. intros t Ht.
  apply List.in_map_iff in Ht as (k & <- & Hk).
  apply List.in_seq in Hk. unfold hour. lia.
Qed.

Lemma clean_data_sublist (df : raw_frame) :
  sublist (rows (_clean_data df)) (dropna (raw_rows df)).
Proof.
  unfold _clean_data.
  destruct (raw_empty df); [apply sublist_nil_l |].
  destruct (negb _); [apply sublist_nil_l |].
  apply outlier_loop_sublist.
Qed.

(** X23.  The rows of the synthetic frame carry strictly increasing
    timestamps (so no two rows share one), each a whole number of hours,
    at most 499, before the time of the call. *)
Theorem X23_synthetic_timestamps (symbol : string) (now : Z) (st : state) :
  exists data,
    snd (_get_dynamic_default_data symbol now st) = Some data
    /\ StronglySorted Z.lt (List.map time (rows data))
    /\ forall r, List.In r (rows data) ->
                 exists k, 0 <= k <= 499 /\ time r = now - k * hour.
Proof.
  unfold _get_dynamic_default_data.
  pose proof (length_normal_draws 500 (1 # 10000) (5 # 1000)
                (np_seed (py_hash symbol mod 10000))) as Hlen.
  destruct (normal_draws 500 _ _ _) as [returns s1]. cbn [fst] in Hlen.
  set (prices := List.map _ (cumprod 1 _)).
  assert (Hprices : List.length prices = 500%nat).
  { subst prices.
    rewrite List.length_map, length_cumprod, List.length_map. exact Hlen. }
  pose proof (synthetic_rows_times prices 0 now s1) as Htimes.
  destruct (synthetic_rows_well_formed prices 0 now s1) as [_ Hall].
  destruct (synthetic_rows 0 now prices s1) as [raw s2].
  cbn [fst snd] in *.
  eexists. split; [reflexivity |].
  set (df := {| raw_columns := _; raw_rows := raw |}).
  assert (Hsub : sublist (List.map time (rows (_clean_data df)))
                         (List.map (fun k => now - (499 - Z.of_nat k) * hour)
                                   (List.seq 0 500))).
  { rewrite <- Hprices, <- Htimes, <- (dropna_times raw Hall).
    apply sublist_map. apply (clean_data_sublist df). }
  split.
  - exact (sorted_sublist _ _ _ Hsub (hourly_sorted now 500 0)).
  - intros r Hr.
    assert (Hin : List.In (time r) (List.map time (rows (_clean_data df))))
      by (apply List.in_map; exact Hr).
    apply (sublist_In _ _ _ Hsub) in Hin.
    apply List.in_map_iff in Hin as (k & Hk & Hseq).
    apply List.in_seq in Hseq.
    exists (499 - Z.of_nat k). split; [lia | symmetry; exact Hk].
Qed.

End ChainProperties.

Lemma X24_fallback_chain_witness :
  Provider.cache_hit (Provider.cache_key "GBPUSD" "1mo" "1h") 1000
                     Demo.online = None
  /\ snd (Provider.try_sources (Provider.working_sources Demo.online)
                               "GBPUSD" "1mo" "1h" 1000 Demo.online) = None
  /\ Provider.trace
       (fst (Provider.get_symbol_data "GBPUSD" "1mo" "1h" 1000 Demo.online))
     = [Provider.AdapterCall "mt5"; Provider.GeneratorCall "GBPUSD"].
Proof.
  assert (Hmiss : Provider.cache_hit (Provider.cache_key "GBPUSD" "1mo" "1h")
                                     1000 Demo.online = None)
    by reflexivity.
  assert (Hfail : snd (Provider.try_sources
                         (Provider.working_sources Demo.online)
                         "GBPUSD" "1mo" "1h" 1000 Demo.online) = None)
    by (vm_compute; reflexivity).
  refine (conj Hmiss (conj Hfail _)).
  rewrite (X24_fallback_chain "GBPUSD" "1mo" "1h" 1000 Demo.online
                              Hmiss Hfail).
  vm_compute. reflexivity.
Defined.
